(** * Printer SNMP Management: the central server's agent-facing routes

    Shallow embedding of the agent-facing part of the central server:
    - the agent authentication middleware [authenticateAgent]
      (Server/middleware/auth.js, and its copy in api.js);
    - [POST /api/agents/register] (Server/routes/agents.js, and api.js);
    - [POST /api/data] and [GET /api/data/config] (Server/routes/data.js,
      and the older monolithic api.js);
    over the PostgreSQL tables [agents], [printers] and [metrics]
    (Server/models/db.js).

    Every SQL statement is a state transformer over the three tables.  A
    failing statement (a violated UNIQUE / NOT NULL / FOREIGN KEY
    constraint, or a JSON.parse error) throws; statements run before the
    throw stay committed, as the routes use no transaction.  The statements
    that write printer and metric rows, users, agent configurations and an
    administrator's agent update check the limits of their VARCHAR(n),
    INTEGER and TIMESTAMP columns (see [varchar] below); the registration
    statements and the printer UPDATE of identity columns are modelled
    without those limits.

    The field agent (its sync client and metric poller) is not part of the
    sources; the two components the claims need are modelled from the spec
    at the end of the definitions. *)

From Stdlib Require Import String Ascii List ZArith Bool Lia.
From Stdlib Require Import Sorting.Sorted Sorting.Permutation DecimalString.
Import ListNotations.
Open Scope string_scope.
Open Scope Z_scope.

(** ** JavaScript values and HTTP responses *)

Inductive jval : Type :=
| JNull
| JBool (b : bool)
| JNum (n : Z)
| JStr (s : string).

Record response : Type := mkResp {
  status : Z;
  body : list (string * jval)
}.

(** [res.json(obj)] and [res.status(code).json({ error: msg })]. *)
Definition res_json (fields : list (string * jval)) : response := mkResp 200 fields.
Definition res_error (code : Z) (msg : string) : response :=
  mkResp code [("error", JStr msg)].

(** Field lookup in a response body. *)
Fixpoint field (k : string) (l : list (string * jval)) : option jval :=
  match l with
  | [] => None
  | (k', v) :: l' => if String.eqb k k' then Some v else field k l'
  end.

(** JavaScript truthiness of an optional string ([undefined], [""] falsy). *)
Definition truthy (o : option string) : bool :=
  match o with
  | None => false
  | Some s => negb (String.eqb s "")
  end.

(** [s.split(" ")]: cut at every space, keeping empty pieces. *)
Fixpoint split_sp_aux (s cur : string) : list string :=
  match s with
  | EmptyString => [cur]
  | String c rest =>
      if Ascii.eqb c " "%char then cur :: split_sp_aux rest ""
      else split_sp_aux rest (cur ++ String c "")
  end.

Definition js_split_space (s : string) : list string := split_sp_aux s "".

(** [authHeader && authHeader.split(" ")[1]] *)
Definition header_api_key (authHeader : option string) : option string :=
  match authHeader with
  | None => None
  | Some EmptyString => Some EmptyString
  | Some h => nth_error (js_split_space h) 1
  end.

(** ** Tables (Server/models/db.js) *)

Record agent : Type := mkAgent {
  a_id : Z;                    (* id SERIAL PRIMARY KEY *)
  a_agent_id : string;         (* agent_id UNIQUE NOT NULL *)
  a_name : string;             (* name NOT NULL *)
  a_hostname : option string;
  a_ip_address : option string;
  a_os_info : option string;
  a_version : option string;
  a_api_key : string;          (* api_key UNIQUE NOT NULL *)
  a_status : option string;    (* DEFAULT 'active' *)
  a_last_seen : option Z
}.

Record printer : Type := mkPrinter {
  p_id : Z;                    (* id SERIAL PRIMARY KEY *)
  p_agent_id : Z;              (* REFERENCES agents(id) *)
  p_organization_id : option Z;
  p_ip_address : string;       (* NOT NULL; UNIQUE(agent_id, ip_address) *)
  p_serial_number : option string;
  p_model : option string;
  p_name : option string;
  p_status : option string;    (* DEFAULT 'unknown' *)
  p_last_seen : option Z
}.

Record metric : Type := mkMetric {
  m_id : Z;                    (* id SERIAL PRIMARY KEY *)
  m_printer_id : option Z;     (* REFERENCES printers(id) *)
  m_timestamp : Z;             (* NOT NULL *)
  m_page_count : option Z;
  m_toner_levels : option string;  (* JSONB *)
  m_status : option string;
  m_error_state : option string;
  m_raw_data : option string       (* JSONB *)
}.

(** The database: the three tables, their SERIAL sequences and the clock
    read by [NOW()]. *)
Record db : Type := mkDb {
  agents : list agent;
  printers : list printer;
  metrics : list metric;
  agents_seq : Z;
  printers_seq : Z;
  metrics_seq : Z;
  clock : Z
}.

Definition set_agents (s : db) (l : list agent) : db :=
  mkDb l (printers s) (metrics s) (agents_seq s) (printers_seq s) (metrics_seq s) (clock s).
Definition set_printers (s : db) (l : list printer) : db :=
  mkDb (agents s) l (metrics s) (agents_seq s) (printers_seq s) (metrics_seq s) (clock s).
Definition set_metrics (s : db) (l : list metric) : db :=
  mkDb (agents s) (printers s) l (agents_seq s) (printers_seq s) (metrics_seq s) (clock s).

(** [nextval] on the sequence of [printers.id] / [metrics.id]. *)
Definition set_printers_seq (s : db) (n : Z) : db :=
  mkDb (agents s) (printers s) (metrics s) (agents_seq s) n (metrics_seq s) (clock s).
Definition set_metrics_seq (s : db) (n : Z) : db :=
  mkDb (agents s) (printers s) (metrics s) (agents_seq s) (printers_seq s) n (clock s).

(** ** Column types

    node-postgres sends each query as an unnamed prepared statement, which
    PostgreSQL plans with the parameter values as constants.  A parameter
    read as an [INTEGER] or a [TIMESTAMP WITH TIME ZONE] is parsed when the
    statement is bound, and a parameter cast to a [VARCHAR(n)] column is
    cast while the statement is planned: both errors come before any row is
    formed, so before a SERIAL default takes its [nextval].  A NOT NULL,
    UNIQUE or FOREIGN KEY violation is found once the row is formed, after
    [nextval]: the id stays taken. *)

(** [INTEGER]: a 4-byte integer. *)
Definition int4_ok (z : Z) : bool := (-2147483648 <=? z) && (z <=? 2147483647).

(** An optional parameter: NULL is always accepted. *)
Definition opt_ok (ok : Z -> bool) (o : option Z) : bool :=
  match o with
  | Some z => ok z
  | None => true
  end.

(** [TIMESTAMP WITH TIME ZONE], in seconds since 1970-01-01 00:00:00 UTC:
    from 4714-11-24 00:00:00 BC up to (excluded) 294277-01-01 00:00:00. *)
Definition timestamp_ok (t : Z) : bool := (-210866803200 <=? t) && (t <? 9225264700800).

(** Every character is a space. *)
Definition all_spaces (s : string) : bool :=
  forallb (fun c => Ascii.eqb c " "%char) (list_ascii_of_string s).

(** A string cast to [VARCHAR(n)] (each character of a model string is one
    character of the value): a longer value is an error ("value too long"),
    unless the characters past the [n]-th are all spaces, which are cut
    off. *)
Definition varchar_str (n : nat) (v : string) : option string :=
  if (String.length v <=? n)%nat then Some v
  else if all_spaces (substring n (String.length v - n) v) then Some (substring 0 n v)
  else None.

(** The same for a nullable parameter: [None] is the error, [Some None] a
    NULL. *)
Definition varchar (n : nat) (v : option string) : option (option string) :=
  match v with
  | None => Some None
  | Some s => option_map Some (varchar_str n s)
  end.

(** A value within [n] characters. *)
Definition fits (n : nat) (v : option string) : bool :=
  match v with
  | None => true
  | Some s => (String.length s <=? n)%nat
  end.

(** ** The query monad: state over the database, with exceptions *)

Inductive outcome (A : Type) : Type :=
| Ret (a : A)
| Throw.
Arguments Ret {A} a.
Arguments Throw {A}.

Definition M (A : Type) : Type := db -> outcome A * db.

Definition ret {A} (a : A) : M A := fun s => (Ret a, s).
Definition throw {A} : M A := fun s => (Throw, s).
Definition bind {A B} (m : M A) (k : A -> M B) : M B :=
  fun s => match m s with
           | (Ret a, s') => k a s'
           | (Throw, s') => (Throw, s')
           end.

Notation "'let*' x := m 'in' k" := (bind m (fun x => k))
  (at level 200, x name, m at level 100, k at level 200).

(** [try { m } catch (err) { h }] *)
Definition try_catch {A} (m : M A) (h : A) : M A :=
  fun s => match m s with
           | (Ret r, s') => (Ret r, s')
           | (Throw, s') => (Ret h, s')
           end.

(** [try { ... } catch (err) { res.status(500).json({ error: msg }) }] *)
Definition catch_500 (msg : string) (m : M response) : M response :=
  try_catch m (res_error 500 msg).

(** Running a route handler on the database. *)
Definition run (m : M response) (s : db) : db * response :=
  match m s with
  | (Ret r, s') => (s', r)
  | (Throw, s') => (s', res_error 500 "Internal Server Error")
  end.

(** [NOW()] *)
Definition now : M Z := fun s => (Ret (clock s), s).

(** ** SQL statements *)

Definition modify (f : db -> db) : M unit := fun s => (Ret tt, f s).

(** [SELECT * FROM agents WHERE api_key = $1] *)
Definition agents_by_api_key (key : string) : M (list agent) :=
  fun s => (Ret (filter (fun a => String.eqb (a_api_key a) key) (agents s)), s).

(** [SELECT * FROM agents WHERE agent_id = $1] *)
Definition agents_by_agent_id (aid : string) : M (list agent) :=
  fun s => (Ret (filter (fun a => String.eqb (a_agent_id a) aid) (agents s)), s).

Definition touch_agent (id t : Z) (a : agent) : agent :=
  if a_id a =? id then
    mkAgent (a_id a) (a_agent_id a) (a_name a) (a_hostname a) (a_ip_address a)
            (a_os_info a) (a_version a) (a_api_key a) (a_status a) (Some t)
  else a.

(** [UPDATE agents SET last_seen = NOW() WHERE id = $1] *)
Definition update_agent_last_seen (id : Z) : M unit :=
  modify (fun s => set_agents s (map (touch_agent id (clock s)) (agents s))).

(** Server/routes/agents.js:
    [UPDATE agents SET name = $1, hostname = $2, ip_address = $3,
       os_info = $4, version = $5, last_seen = NOW(), status = 'active'
     WHERE agent_id = $6] *)
Definition reregister_agent (name : string) (hostname ip os version : option string)
    (aid : string) (t : Z) (a : agent) : agent :=
  if String.eqb (a_agent_id a) aid then
    mkAgent (a_id a) (a_agent_id a) name hostname ip os version (a_api_key a)
            (Some "active") (Some t)
  else a.

Definition update_agent_on_register (name : string) (hostname ip os version : option string)
    (aid : string) : M unit :=
  modify (fun s => set_agents s
    (map (reregister_agent name hostname ip os version aid (clock s)) (agents s))).

(** api.js: the same UPDATE without [status = 'active']. *)
Definition api_reregister_agent (name : string) (hostname ip os version : option string)
    (aid : string) (t : Z) (a : agent) : agent :=
  if String.eqb (a_agent_id a) aid then
    mkAgent (a_id a) (a_agent_id a) name hostname ip os version (a_api_key a)
            (a_status a) (Some t)
  else a.

Definition api_update_agent_on_register (name : string) (hostname ip os version : option string)
    (aid : string) : M unit :=
  modify (fun s => set_agents s
    (map (api_reregister_agent name hostname ip os version aid (clock s)) (agents s))).

(** [INSERT INTO agents (agent_id, name, hostname, ip_address, os_info,
     version, api_key) VALUES (...)]: UNIQUE(agent_id) and UNIQUE(api_key)
    are checked; [status] takes its default, [last_seen] stays NULL. *)
Definition insert_agent (aid name : string) (hostname ip os version : option string)
    (key : string) : M unit :=
  fun s =>
    if existsb (fun a => String.eqb (a_agent_id a) aid) (agents s)
       || existsb (fun a => String.eqb (a_api_key a) key) (agents s)
    then (Throw, s)
    else (Ret tt,
          mkDb (agents s ++ [mkAgent (agents_seq s) aid name hostname ip os version key
                                     (Some "active") None])
               (printers s) (metrics s) (agents_seq s + 1) (printers_seq s)
               (metrics_seq s) (clock s)).

(** [SELECT id FROM printers WHERE id = $1 AND agent_id = $2]
    (a NULL id matches nothing; an id outside [INTEGER] is an error). *)
Definition printers_owned (pid : option Z) (aid : Z) : M (list Z) :=
  fun s =>
    if opt_ok int4_ok pid then
      (Ret (map p_id (filter (fun p =>
              match pid with
              | Some i => (p_id p =? i) && (p_agent_id p =? aid)
              | None => false
              end) (printers s))), s)
    else (Throw, s).

(** [SELECT id FROM printers WHERE ip_address = $1 AND agent_id = $2]
    (a NULL ip_address matches nothing). *)
Definition printers_by_ip (ip : option string) (aid : Z) : M (list Z) :=
  fun s => (Ret (map p_id (filter (fun p =>
              match ip with
              | Some i => String.eqb (p_ip_address p) i && (p_agent_id p =? aid)
              | None => false
              end) (printers s))), s).

Definition set_printer_status (st : string) (pid : option Z) (t : Z) (p : printer) : printer :=
  match pid with
  | Some i =>
      if p_id p =? i then
        mkPrinter (p_id p) (p_agent_id p) (p_organization_id p) (p_ip_address p)
                  (p_serial_number p) (p_model p) (p_name p) (Some st) (Some t)
      else p
  | None => p
  end.

(** [UPDATE printers SET status = $1, last_seen = NOW() WHERE id = $2]:
    status is a VARCHAR(50), id an [INTEGER]. *)
Definition update_printer_status (st : string) (pid : option Z) : M unit :=
  fun s =>
    if negb (opt_ok int4_ok pid) then (Throw, s)
    else match varchar_str 50 st with
         | Some st' =>
             (Ret tt, set_printers s (map (set_printer_status st' pid (clock s)) (printers s)))
         | None => (Throw, s)
         end.

(** SQL [COALESCE($1, column)] *)
Definition coalesce {A} (x y : option A) : option A :=
  match x with
  | Some _ => x
  | None => y
  end.

Definition coalesce_printer (serial model name : option string) (pid t : Z)
    (p : printer) : printer :=
  if p_id p =? pid then
    mkPrinter (p_id p) (p_agent_id p) (p_organization_id p) (p_ip_address p)
              (coalesce serial (p_serial_number p)) (coalesce model (p_model p))
              (coalesce name (p_name p)) (p_status p) (Some t)
  else p.

(** [UPDATE printers SET serial_number = COALESCE($1, serial_number),
       model = COALESCE($2, model), name = COALESCE($3, name),
       last_seen = NOW() WHERE id = $4] *)
Definition update_printer_identity (serial model name : option string) (pid : Z) : M unit :=
  modify (fun s => set_printers s
    (map (coalesce_printer serial model name pid (clock s)) (printers s))).

(** [INSERT INTO printers (agent_id, ip_address, serial_number, model, name,
     last_seen) VALUES ($1, $2, $3, $4, $5, NOW()) RETURNING id]:
    ip_address is a VARCHAR(50), serial_number, model and name are
    VARCHAR(100); the row takes the next id, then ip_address is NOT NULL
    and (agent_id, ip_address) UNIQUE. *)
Definition insert_printer (aid : Z) (ip : option string) (serial model name : option string)
    : M Z :=
  fun s =>
    match varchar 50 ip, varchar 100 serial, varchar 100 model, varchar 100 name with
    | Some ip', Some serial', Some model', Some name' =>
        let id := printers_seq s in
        let s1 := set_printers_seq s (id + 1) in
        match ip' with
        | None => (Throw, s1)
        | Some i =>
            if existsb (fun p => (p_agent_id p =? aid) && String.eqb (p_ip_address p) i)
                       (printers s)
            then (Throw, s1)
            else (Ret id,
                  set_printers s1
                    (printers s ++ [mkPrinter id aid None i serial' model' name'
                                              (Some "unknown") (Some (clock s))]))
        end
    | _, _, _, _ => (Throw, s)
    end.

(** [INSERT INTO metrics (printer_id, timestamp, page_count, toner_levels,
     status, error_state, raw_data) VALUES (...)]: printer_id and
    page_count are [INTEGER]s, timestamp a TIMESTAMP WITH TIME ZONE, status
    a VARCHAR(50) and error_state a VARCHAR(100); the row takes the next
    id, then timestamp is NOT NULL and printer_id REFERENCES printers(id). *)
Definition insert_metric (pid : option Z) (ts : option Z) (page : option Z)
    (toner : option string) (st err : option string) (raw : option string) : M unit :=
  fun s =>
    if negb (opt_ok int4_ok pid && opt_ok timestamp_ok ts && opt_ok int4_ok page)
    then (Throw, s)
    else match varchar 50 st, varchar 100 err with
         | Some st', Some err' =>
             let id := metrics_seq s in
             let s1 := set_metrics_seq s (id + 1) in
             match ts with
             | None => (Throw, s1)
             | Some t =>
                 if match pid with
                    | Some i => negb (existsb (fun p => p_id p =? i) (printers s))
                    | None => false
                    end
                 then (Throw, s1)
                 else (Ret tt,
                       set_metrics s1
                         (metrics s ++ [mkMetric id pid t page toner st' err' raw]))
             end
         | _, _ => (Throw, s)
         end.

(** ** Request bodies *)

(** [req.body.data] of [POST /api/data]; a missing property is [None]
    ([undefined], sent to PostgreSQL as NULL). *)
Record payload : Type := mkPayload {
  d_ip_address : option string;
  d_serial_number : option string;
  d_model : option string;
  d_name : option string;
  d_timestamp : option Z;
  d_page_count : option Z;
  d_toner_levels : option string;
  d_status : option string;
  d_error_state : option string;
  d_raw_data : option string
}.

(** [req.body] of [POST /api/data]. *)
Record data_body : Type := mkDataBody {
  b_type : option string;
  b_printer_id : option Z;
  b_data : option payload
}.

(** [req.body] of [POST /api/agents/register]. *)
Record register_body : Type := mkRegisterBody {
  r_agent_id : option string;
  r_name : option string;
  r_hostname : option string;
  r_ip_address : option string;
  r_os_info : option string;
  r_version : option string
}.

(** [type === t] *)
Definition type_is (b : data_body) (t : string) : bool :=
  match b_type b with
  | Some x => String.eqb x t
  | None => false
  end.

(** [x || d] for an optional string. *)
Definition or_default (x : option string) (d : string) : string :=
  match x with
  | Some v => if String.eqb v "" then d else v
  | None => d
  end.

(** ** Agent authentication middleware (auth.js [authenticateAgent]) *)

(** The database part, inside its [try]: [Ret (inl r)] answers the request
    with [r], [Ret (inr a)] passes the agent row on to [next()]. *)
Definition authenticate_agent_db (apiKey : string) : M (response + agent) :=
  try_catch
    (let* rows := agents_by_api_key apiKey in
     match rows with
     | [] => ret (inl (res_error 403 "Invalid agent API key"))
     | a :: _ =>
         let* _ := update_agent_last_seen (a_id a) in
         ret (inr a)
     end)
    (inl (res_error 500 "Authentication error")).

Definition authenticate_agent (authHeader : option string) (next : agent -> M response)
    : M response :=
  match header_api_key authHeader with
  | Some apiKey =>
      if String.eqb apiKey "" then ret (res_error 401 "Agent authentication required")
      else
        let* r := authenticate_agent_db apiKey in
        match r with
        | inl resp => ret resp
        | inr a => next a
        end
  | None => ret (res_error 401 "Agent authentication required")
  end.

Section Routes.

(** [JSON.parse]: [None] when it throws a SyntaxError. *)
Variable json_parse : string -> option string.

(** [x ? JSON.parse(x) : null] *)
Definition parse_opt (x : option string) : M (option string) :=
  match x with
  | Some v =>
      if String.eqb v "" then ret None
      else match json_parse v with
           | Some j => ret (Some j)
           | None => throw
           end
  | None => ret None
  end.

(** *** Server/routes/data.js *)

(** The body of [router.post("/", authenticateAgent, ...)], inside its [try]. *)
Definition data_ingest (agentId : Z) (b : data_body) : M response :=
  match b_type b, b_data b with
  | Some ty, Some data =>
      if String.eqb ty "" then ret (res_error 400 "Invalid data format")
      else if String.eqb ty "metrics" then
        let printerId := b_printer_id b in
        let* rows := printers_owned printerId agentId in
        match rows with
        | [] => ret (res_error 404 "Printer not found")
        | _ :: _ =>
            let* t := now in
            let ts := match d_timestamp data with Some x => x | None => t end in
            let* toner := parse_opt (d_toner_levels data) in
            let* raw := parse_opt (d_raw_data data) in
            let* _ := insert_metric printerId (Some ts) (d_page_count data) toner
                        (d_status data) (d_error_state data) raw in
            let* _ := update_printer_status (or_default (d_status data) "unknown") printerId in
            ret (res_json [("success", JBool true)])
        end
      else if String.eqb ty "printer_discovery" || String.eqb ty "printer_update" then
        if negb (truthy (d_ip_address data)) then
          ret (res_error 400 "Printer IP address is required")
        else
          let* rows := printers_by_ip (d_ip_address data) agentId in
          match rows with
          | printerId :: _ =>
              let* _ := update_printer_identity (d_serial_number data) (d_model data)
                          (d_name data) printerId in
              ret (res_json [("success", JBool true); ("printer_id", JNum printerId)])
          | [] =>
              let* printerId := insert_printer agentId (d_ip_address data)
                                  (d_serial_number data) (d_model data) (d_name data) in
              ret (res_json [("success", JBool true); ("printer_id", JNum printerId)])
          end
      else ret (res_error 400 "Unknown data type")
  | _, _ => ret (res_error 400 "Invalid data format")
  end.

(** [POST /api/data] *)
Definition data_post (authHeader : option string) (b : data_body) : M response :=
  authenticate_agent authHeader (fun a => catch_500 "Server error" (data_ingest (a_id a) b)).

(** *** api.js *)

(** The body of [app.post("/api/data", authenticateAgent, ...)], inside its
    [try]. *)
Definition api_data_ingest (agentId : Z) (b : data_body) : M response :=
  match b_type b, b_data b with
  | Some ty, Some data =>
      if String.eqb ty "" then ret (res_error 400 "Invalid data format")
      else if String.eqb ty "metrics" then
        let printerId := b_printer_id b in
        let* rows := printers_owned printerId agentId in
        match rows with
        | [] => ret (res_error 404 "Printer not found")
        | _ :: _ =>
            let* toner := parse_opt (d_toner_levels data) in
            let* raw := parse_opt (d_raw_data data) in
            let* _ := insert_metric printerId (d_timestamp data) (d_page_count data) toner
                        (d_status data) (d_error_state data) raw in
            let* _ := update_printer_status (or_default (d_status data) "unknown") printerId in
            ret (res_json [("success", JBool true)])
        end
      else if String.eqb ty "printer_update" then
        let* rows := printers_by_ip (d_ip_address data) agentId in
        match rows with
        | printerId :: _ =>
            let* _ := update_printer_identity (d_serial_number data) (d_model data)
                        (d_name data) printerId in
            ret (res_json [("success", JBool true)])
        | [] =>
            let* _ := insert_printer agentId (d_ip_address data)
                        (d_serial_number data) (d_model data) (d_name data) in
            ret (res_json [("success", JBool true)])
        end
      else ret (res_error 400 "Unknown data type")
  | _, _ => ret (res_error 400 "Invalid data format")
  end.

(** [POST /api/data] of api.js *)
Definition api_data_post (authHeader : option string) (b : data_body) : M response :=
  authenticate_agent authHeader (fun a => catch_500 "Server error" (api_data_ingest (a_id a) b)).

End Routes.

(** [GET /api/data/config] (Server/routes/data.js) *)
Definition data_config (authHeader : option string) : M response :=
  authenticate_agent authHeader (fun _ =>
    catch_500 "Server error"
      (ret (res_json [("polling_interval", JNum 300); ("discovery_interval", JNum 86400);
                      ("snmp_community", JStr "public"); ("snmp_timeout", JNum 2)]))).

(** [POST /api/agents/register] (Server/routes/agents.js); [apiKey] is the
    value [generateApiKey()] (a fresh [uuidv4()]) returns for this call. *)
Definition register_post (b : register_body) (apiKey : string) : M response :=
  catch_500 "Server error"
    (match r_agent_id b, r_name b with
     | Some aid, Some name =>
         if String.eqb aid "" || String.eqb name "" then
           ret (res_error 400 "Agent ID and name required")
         else
           let* existing := agents_by_agent_id aid in
           match existing with
           | a :: _ =>
               let* _ := update_agent_on_register name (r_hostname b) (r_ip_address b)
                           (r_os_info b) (r_version b) aid in
               ret (res_json [("success", JBool true); ("token", JStr (a_api_key a))])
           | [] =>
               let* _ := insert_agent aid name (r_hostname b) (r_ip_address b)
                           (r_os_info b) (r_version b) apiKey in
               ret (res_json [("success", JBool true); ("token", JStr apiKey)])
           end
     | _, _ => ret (res_error 400 "Agent ID and name required")
     end).

(** [POST /api/agents/register] (api.js) *)
Definition api_register_post (b : register_body) (apiKey : string) : M response :=
  catch_500 "Server error"
    (match r_agent_id b, r_name b with
     | Some aid, Some name =>
         if String.eqb aid "" || String.eqb name "" then
           ret (res_error 400 "Agent ID and name required")
         else
           let* existing := agents_by_agent_id aid in
           match existing with
           | a :: _ =>
               let* _ := api_update_agent_on_register name (r_hostname b) (r_ip_address b)
                           (r_os_info b) (r_version b) aid in
               ret (res_json [("success", JBool true); ("token", JStr (a_api_key a))])
           | [] =>
               let* _ := insert_agent aid name (r_hostname b) (r_ip_address b)
                           (r_os_info b) (r_version b) apiKey in
               ret (res_json [("success", JBool true); ("token", JStr apiKey)])
           end
     | _, _ => ret (res_error 400 "Agent ID and name required")
     end).

(** ** The server as a sequence of agent requests *)

Inductive request : Type :=
| RegisterReq (b : register_body) (apiKey : string)
| DataReq (authHeader : option string) (b : data_body)
| ConfigReq (authHeader : option string).

Definition set_clock (s : db) (t : Z) : db :=
  mkDb (agents s) (printers s) (metrics s) (agents_seq s) (printers_seq s) (metrics_seq s) t.

(** Server/server.js: each request is served at its arrival time. *)
Definition server_handle (json_parse : string -> option string) (r : request) : M response :=
  match r with
  | RegisterReq b k => register_post b k
  | DataReq h b => data_post json_parse h b
  | ConfigReq h => data_config h
  end.

Fixpoint server_serve (json_parse : string -> option string) (s : db)
    (reqs : list (Z * request)) : db :=
  match reqs with
  | [] => s
  | (t, r) :: rest =>
      server_serve json_parse (fst (run (server_handle json_parse r) (set_clock s t))) rest
  end.

(** api.js has no [GET /api/data/config]. *)
Definition api_handle (json_parse : string -> option string) (r : request) : M response :=
  match r with
  | RegisterReq b k => api_register_post b k
  | DataReq h b => api_data_post json_parse h b
  | ConfigReq _ => ret (res_error 404 "Not Found")
  end.

Fixpoint api_serve (json_parse : string -> option string) (s : db)
    (reqs : list (Z * request)) : db :=
  match reqs with
  | [] => s
  | (t, r) :: rest =>
      api_serve json_parse (fst (run (api_handle json_parse r) (set_clock s t))) rest
  end.

(** ** The field agent (modelled from the spec) *)

Module Agent.

(** Modelled from the spec: the Sync Client's push of unsynced records
    ([pushIdentity] / [pushMetrics], spec 3 and 4.6), whose source is not
    in the repository snapshot.  Records carry locally assigned increasing
    ids; the SyncCursor is the highest id pushed so far, and a record is
    unsynced while its id is above the cursor. *)
Record local_record : Type := mkLocal {
  lr_id : Z;
  lr_body : string
}.

Record sync_state : Type := mkSync {
  store : list local_record;
  cursor : Z
}.

Definition unsynced (st : sync_state) : list local_record :=
  filter (fun r => cursor st <? lr_id r) (store st).

(** Outcome of the HTTP push: a response with its status code, or a
    network / transport error. *)
Inductive transport : Type :=
| Delivered (code : Z)
| NetworkError.

Definition is_2xx (code : Z) : bool := (200 <=? code) && (code <? 300).

(** Modelled from the spec: one push of the unsynced batch; the cursor
    moves past the batch on a 2xx acknowledgement only, any other outcome
    leaves the state as it was. *)
Definition push_batch (send : list local_record -> transport) (st : sync_state) : sync_state :=
  let batch := unsynced st in
  match send batch with
  | Delivered code =>
      if is_2xx code then mkSync (store st) (fold_left Z.max (map lr_id batch) (cursor st))
      else st
  | NetworkError => st
  end.

(** Modelled from the spec: the Metric Poller (spec 4.3).  A probe of the
    metric OID set answers values, or times out, or finds the host
    unreachable. *)
Inductive probe_result : Type :=
| ProbeValues (page_count : option Z) (toner_levels : option (list (string * Z)))
              (st : string) (error_state : option string)
| ProbeTimeout
| ProbeUnreachable.

Record known_printer : Type := mkKnown {
  kp_id : Z;
  kp_ip : string
}.

Record sample : Type := mkSample {
  s_printer_ref : Z;
  s_timestamp : Z;
  s_page_count : option Z;
  s_toner_levels : option (list (string * Z));
  s_status : string;
  s_error_state : option string
}.

(** Modelled from the spec: one printer's sample, stamped with the time its
    probe completed. *)
Definition poll_printer (probe : string -> probe_result) (completed : Z -> Z)
    (p : known_printer) : sample :=
  match probe (kp_ip p) with
  | ProbeValues pc tl st err => mkSample (kp_id p) (completed (kp_id p)) pc tl st err
  | ProbeTimeout | ProbeUnreachable =>
      mkSample (kp_id p) (completed (kp_id p)) None None "offline" None
  end.

(** Modelled from the spec: a polling cycle over all known printers. *)
Definition poll_cycle (probe : string -> probe_result) (completed : Z -> Z)
    (ps : list known_printer) : list sample :=
  map (poll_printer probe completed) ps.

(** Three stored samples, none of them yet acknowledged (cursor 6). *)
Definition three_samples : sync_state :=
  mkSync [mkLocal 7 "s7"; mkLocal 8 "s8"; mkLocal 9 "s9"] 6.

(** Two known printers with distinct ids. *)
Definition two_printers : list known_printer :=
  [mkKnown 1 "192.168.1.1"; mkKnown 2 "192.168.1.2"].

(** A probe that answers for the first printer and times out on the second. *)
Definition probe_first_only (ip : string) : probe_result :=
  if String.eqb ip "192.168.1.1" then ProbeValues (Some 1200) None "idle" None
  else ProbeTimeout.

End Agent.

(** ** Vocabulary of the properties *)

(** The row [r] with only its [last_seen] column set to [t]. *)
Definition agent_with_last_seen (r : agent) (t : Z) : agent :=
  mkAgent (a_id r) (a_agent_id r) (a_name r) (a_hostname r) (a_ip_address r)
          (a_os_info r) (a_version r) (a_api_key r) (a_status r) (Some t).

(** The agents whose [api_key] is [k], in table order. *)
Definition agents_with_key (s : db) (k : string) : list agent :=
  filter (fun a => String.eqb (a_api_key a) k) (agents s).



(** The number of agent rows with [agent_id = aid]. *)
Definition count_agents (s : db) (aid : string) : nat :=
  length (filter (fun a => String.eqb (a_agent_id a) aid) (agents s)).

(** The [token] of a registration response. *)
Definition token_of (r : response) : option jval := field "token" (body r).

(** A known identity column [before] is still known [after]: it kept its
    value or took the non-null value [pushed]. *)
Definition column_kept (pushed before after : option string) : Prop :=
  after = before \/ (exists v, pushed = Some v /\ after = Some v).

Definition identity_kept (d : payload) (p p' : printer) : Prop :=
  p_id p' = p_id p /\
  column_kept (d_serial_number d) (p_serial_number p) (p_serial_number p') /\
  column_kept (d_model d) (p_model p) (p_model p') /\
  column_kept (d_name d) (p_name p) (p_name p').

(** The [(agent_id, api_key)] pairs of the agents table, in table order. *)
Definition key_pairs (s : db) : list (string * string) :=
  map (fun a => (a_agent_id a, a_api_key a)) (agents s).

(** The api_key of the first pair with agent_id [aid]. *)
Fixpoint lookup_key (l : list (string * string)) (aid : string) : option string :=
  match l with
  | [] => None
  | (x, k) :: l' => if String.eqb x aid then Some k else lookup_key l' aid
  end.

(** Relations between a database and a later one. *)
Definition keys_grow (s s' : db) : Prop := exists l, key_pairs s' = (key_pairs s ++ l)%list.

Definition metrics_grow (s s' : db) : Prop := exists l, metrics s' = (metrics s ++ l)%list.

Definition identity_grow (d : payload) (s s' : db) : Prop :=
  exists l extra, Forall2 (identity_kept d) (printers s) l /\ printers s' = (l ++ extra)%list.

(** A statement, or a handler, whose end state is always [R]-related to its
    start state, whatever its outcome. *)
Definition stable (R : db -> db -> Prop) {A} (m : M A) : Prop :=
  forall s, R s (snd (m s)).

(** The two outcomes of an ingestion for the metrics table. *)
Definition metrics_outcome (b : data_body) (o : outcome response) (s s' : db) : Prop :=
  (metrics s' = metrics s /\
   forall r, o = Ret r -> type_is b "metrics" = true -> status r <> 200) \/
  (type_is b "metrics" = true /\ o = Ret (res_json [("success", JBool true)]) /\
   exists m, metrics s' = (metrics s ++ [m])%list /\ m_printer_id m = b_printer_id b).

Definition touched (s : db) (id : Z) : db :=
  set_agents s (map (touch_agent id (clock s)) (agents s)).

(** ** Sample databases *)

Definition empty_db : db := mkDb [] [] [] 1 1 1 0.

Definition no_json (_ : string) : option string := None.

Definition reg_body (aid : string) : register_body :=
  mkRegisterBody (Some aid) (Some "PrinterMonitorAgent") (Some "host") None None None.

Definition bearer (k : string) : option string := Some ("Bearer " ++ k).

Definition ident_payload (ip : string) (serial : option string) : payload :=
  mkPayload (Some ip) serial None None None None None None None None.

Definition metrics_payload : payload :=
  mkPayload None None None None (Some 5) (Some 1200) None (Some "idle") None None.

Definition alice_db : db :=
  mkDb [mkAgent 1 "a1" "PrinterMonitorAgent" None None None None "k1" (Some "active") None;
        mkAgent 2 "a2" "Other" None None None None "k2" (Some "active") None]
       [mkPrinter 1 1 None "10.0.0.5" (Some "SN1") (Some "M1") None (Some "idle") None;
        mkPrinter 2 2 None "10.0.0.6" None None None (Some "idle") None]
       [] 3 3 1 100.

(** * The rest of the server

    The routes of the same files that the agent-facing part does not cover:
    the agent status route and the admin routes of Server/routes/agents.js,
    the user-side middleware of auth.js, and the login, user, printer and
    dashboard routes and the start-up of api.js and Server/models/db.js. *)

(** ** [GET /api/agents/status] (Server/routes/agents.js) *)

Definition opt_str (o : option string) : jval :=
  match o with
  | Some x => JStr x
  | None => JNull
  end.

Definition opt_num (o : option Z) : jval :=
  match o with
  | Some x => JNum x
  | None => JNull
  end.

(** [SELECT COUNT( * ) FROM printers WHERE agent_id = $1], read with
    [parseInt]. *)
Definition printer_count_of (aid : Z) : M Z :=
  fun s => (Ret (Z.of_nat (length (filter (fun p => p_agent_id p =? aid) (printers s)))), s).

(** [router.get("/status", authenticateAgent, ...)]; [req.agent] is the row
    the middleware read before its [UPDATE agents SET last_seen = NOW()]. *)
Definition agent_status (authHeader : option string) : M response :=
  authenticate_agent authHeader (fun agent =>
    catch_500 "Server error"
      (let* n := printer_count_of (a_id agent) in
       ret (res_json [("agent_id", JStr (a_agent_id agent)); ("name", JStr (a_name agent));
                      ("status", opt_str (a_status agent));
                      ("last_seen", opt_num (a_last_seen agent));
                      ("printer_count", JNum n)]))).

(** ** The remaining tables *)

(** [organizations], with the columns the routes read. *)
Record organization : Type := mkOrganization {
  o_id : Z;                       (* id SERIAL PRIMARY KEY *)
  o_name : string                 (* name UNIQUE NOT NULL *)
}.

Record agent_config : Type := mkAgentConfig {
  c_id : Z;                       (* id SERIAL PRIMARY KEY *)
  c_agent_id : Z;                 (* REFERENCES agents(id); UNIQUE(agent_id) *)
  c_organization_id : option Z;   (* REFERENCES organizations(id) *)
  c_subnet_ranges : list string;  (* JSONB NOT NULL: an array of strings *)
  c_snmp_community : option string;
  c_snmp_timeout : option Z;
  c_polling_interval : option Z;
  c_discovery_interval : option Z;
  c_updated_at : Z
}.

Record user : Type := mkUser {
  u_id : Z;                       (* id SERIAL PRIMARY KEY *)
  u_username : string;            (* UNIQUE NOT NULL *)
  u_password : string;            (* NOT NULL: the bcrypt hash *)
  u_email : string;               (* UNIQUE NOT NULL *)
  u_role : string;                (* NOT NULL DEFAULT 'user' *)
  u_last_login : option Z
}.

(** The whole database: the agent-facing tables in [base], and the others. *)
Record xdb : Type := mkXdb {
  base : db;
  organizations : list organization;
  organization_agents : list (Z * Z);   (* (organization_id, agent_id), PRIMARY KEY *)
  agent_configs : list agent_config;
  agent_configs_seq : Z;
  users : list user;
  users_seq : Z
}.

Definition set_base (x : xdb) (s : db) : xdb :=
  mkXdb s (organizations x) (organization_agents x) (agent_configs x) (agent_configs_seq x)
        (users x) (users_seq x).
Definition set_organization_agents (x : xdb) (l : list (Z * Z)) : xdb :=
  mkXdb (base x) (organizations x) l (agent_configs x) (agent_configs_seq x)
        (users x) (users_seq x).
Definition set_agent_configs (x : xdb) (l : list agent_config) (seq : Z) : xdb :=
  mkXdb (base x) (organizations x) (organization_agents x) l seq (users x) (users_seq x).
Definition set_users (x : xdb) (l : list user) (seq : Z) : xdb :=
  mkXdb (base x) (organizations x) (organization_agents x) (agent_configs x)
        (agent_configs_seq x) l seq.

(** ** The query monad over the whole database *)

Definition XM (A : Type) : Type := xdb -> outcome A * xdb.

Definition xret {A} (a : A) : XM A := fun x => (Ret a, x).
Definition xthrow {A} : XM A := fun x => (Throw, x).
Definition xbind {A B} (m : XM A) (k : A -> XM B) : XM B :=
  fun x => match m x with
           | (Ret a, x') => k a x'
           | (Throw, x') => (Throw, x')
           end.

Notation "'let+' x := m 'in' k" := (xbind m (fun x => k))
  (at level 200, x name, m at level 100, k at level 200).

(** A statement on the agent-facing tables. *)
Definition lift {A} (m : M A) : XM A :=
  fun x => let (o, s) := m (base x) in (o, set_base x s).

Definition xnow : XM Z := fun x => (Ret (clock (base x)), x).

(** JSON values of the admin-side responses. *)
#[warnings="-register-all"]
Inductive json : Type :=
| JsNull
| JsBool (b : bool)
| JsNum (n : Z)
| JsStr (s : string)
| JsArr (l : list json)
| JsObj (l : list (string * json)).

Record xresponse : Type := mkXResp {
  xstatus : Z;
  xbody : json
}.

Definition x_json (j : json) : xresponse := mkXResp 200 j.
Definition x_error (code : Z) (msg : string) : xresponse :=
  mkXResp code (JsObj [("error", JsStr msg)]).

Definition js_opt_str (o : option string) : json :=
  match o with
  | Some x => JsStr x
  | None => JsNull
  end.

Definition js_opt_num (o : option Z) : json :=
  match o with
  | Some x => JsNum x
  | None => JsNull
  end.

Definition jval_json (v : jval) : json :=
  match v with
  | JNull => JsNull
  | JBool b => JsBool b
  | JNum n => JsNum n
  | JStr s => JsStr s
  end.

Definition to_xresponse (r : response) : xresponse :=
  mkXResp (status r) (JsObj (map (fun kv => (fst kv, jval_json (snd kv))) (body r))).

Definition xtry_catch {A} (m : XM A) (h : A) : XM A :=
  fun x => match m x with
           | (Ret r, x') => (Ret r, x')
           | (Throw, x') => (Ret h, x')
           end.

Definition xcatch_500 (msg : string) (m : XM xresponse) : XM xresponse :=
  xtry_catch m (x_error 500 msg).

Definition xrun (m : XM xresponse) (x : xdb) : xdb * xresponse :=
  match m x with
  | (Ret r, x') => (x', r)
  | (Throw, x') => (x', x_error 500 "Internal Server Error")
  end.

Definition set_xclock (x : xdb) (t : Z) : xdb := set_base x (set_clock (base x) t).

(** [authenticateAgent] in front of a route that reads the other tables:
    the same middleware, its queries run on [base]. *)
Definition x_authenticate_agent (authHeader : option string) (next : agent -> XM xresponse)
    : XM xresponse :=
  match header_api_key authHeader with
  | Some apiKey =>
      if String.eqb apiKey "" then xret (x_error 401 "Agent authentication required")
      else
        let+ r := lift (authenticate_agent_db apiKey) in
        match r with
        | inl resp => xret (to_xresponse resp)
        | inr a => next a
        end
  | None => xret (x_error 401 "Agent authentication required")
  end.

(** ** Queries of the admin side *)

(** [SELECT * FROM agents WHERE id = $1] for an integer path segment. *)
Definition agents_by_id (i : Z) : XM (list agent) :=
  fun x => (Ret (filter (fun a => a_id a =? i) (agents (base x))), x).

(** [SELECT o.id, o.name FROM organizations o JOIN organization_agents oa
     ON o.id = oa.organization_id WHERE oa.agent_id = $1] *)
Definition agent_orgs (x : xdb) (aid : Z) : list organization :=
  flat_map (fun oa => if snd oa =? aid then filter (fun o => o_id o =? fst oa) (organizations x)
                      else []) (organization_agents x).

Definition organizations_of_agent (aid : Z) : XM (list organization) :=
  fun x => (Ret (agent_orgs x aid), x).

(** [SELECT * FROM agent_configs WHERE agent_id = $1] *)
Definition configs_of_agent (aid : Z) : XM (list agent_config) :=
  fun x => (Ret (filter (fun c => c_agent_id c =? aid) (agent_configs x)), x).

(** The FOREIGN KEYs of a new [agent_configs] row. *)
Definition config_refs_ok (x : xdb) (aid : Z) (org : option Z) : bool :=
  existsb (fun a => a_id a =? aid) (agents (base x)) &&
  match org with
  | Some o => existsb (fun g => o_id g =? o) (organizations x)
  | None => true
  end.

(** [INSERT INTO agent_configs (agent_id, organization_id, subnet_ranges,
     snmp_community, snmp_timeout, polling_interval, discovery_interval)
     VALUES (...) RETURNING *]; [updated_at] takes its default.  The three
    numbers are [INTEGER]s and snmp_community a VARCHAR(50); the row takes
    the next id, then UNIQUE(agent_id) and the FOREIGN KEYs are checked. *)
Definition insert_config (aid : Z) (org : option Z) (subnets : list string)
    (community : string) (timeout polling discovery : Z) : XM agent_config :=
  fun x =>
    if negb (int4_ok timeout && int4_ok polling && int4_ok discovery) then (Throw, x)
    else match varchar_str 50 community with
         | None => (Throw, x)
         | Some comm =>
             let id := agent_configs_seq x in
             if existsb (fun c => c_agent_id c =? aid) (agent_configs x)
                || negb (config_refs_ok x aid org)
             then (Throw, set_agent_configs x (agent_configs x) (id + 1))
             else
               let c := mkAgentConfig id aid org subnets (Some comm)
                          (Some timeout) (Some polling) (Some discovery) (clock (base x)) in
               (Ret c, set_agent_configs x (agent_configs x ++ [c]) (id + 1))
         end.

Definition set_config_values (subnets : list string) (community : string)
    (timeout polling discovery t : Z) (aid : Z) (c : agent_config) : agent_config :=
  if c_agent_id c =? aid then
    mkAgentConfig (c_id c) (c_agent_id c) (c_organization_id c) subnets (Some community)
                  (Some timeout) (Some polling) (Some discovery) t
  else c.

(** The same INSERT with [ON CONFLICT (agent_id) DO UPDATE SET
     subnet_ranges = $3, snmp_community = $4, snmp_timeout = $5,
     polling_interval = $6, discovery_interval = $7, updated_at = NOW()]:
    the proposed row takes the next id before the conflict is found, so an
    update takes one too. *)
Definition upsert_config (aid : Z) (org : option Z) (subnets : list string)
    (community : string) (timeout polling discovery : Z) : XM agent_config :=
  fun x =>
    if negb (int4_ok timeout && int4_ok polling && int4_ok discovery) then (Throw, x)
    else match varchar_str 50 community with
         | None => (Throw, x)
         | Some comm =>
             let id := agent_configs_seq x in
             match filter (fun c => c_agent_id c =? aid) (agent_configs x) with
             | c :: _ =>
                 let t := clock (base x) in
                 (Ret (set_config_values subnets comm timeout polling discovery t aid c),
                  set_agent_configs x
                    (map (set_config_values subnets comm timeout polling discovery t aid)
                         (agent_configs x))
                    (id + 1))
             | [] =>
                 if negb (config_refs_ok x aid org)
                 then (Throw, set_agent_configs x (agent_configs x) (id + 1))
                 else
                   let c := mkAgentConfig id aid org subnets (Some comm)
                              (Some timeout) (Some polling) (Some discovery) (clock (base x)) in
                   (Ret c, set_agent_configs x (agent_configs x ++ [c]) (id + 1))
             end
         end.

Definition set_name_status (name st : string) (i : Z) (a : agent) : agent :=
  if a_id a =? i then
    mkAgent (a_id a) (a_agent_id a) name (a_hostname a) (a_ip_address a) (a_os_info a)
            (a_version a) (a_api_key a) (Some st) (a_last_seen a)
  else a.

(** [UPDATE agents SET name = $1, status = $2 WHERE id = $3 RETURNING *]:
    name is a VARCHAR(100), status a VARCHAR(20). *)
Definition update_agent_admin (name st : string) (i : Z) : XM (list agent) :=
  fun x =>
    match varchar_str 100 name, varchar_str 20 st with
    | Some name', Some st' =>
        if int4_ok i then
          let l := map (set_name_status name' st' i) (agents (base x)) in
          (Ret (filter (fun a => a_id a =? i) l), set_base x (set_agents (base x) l))
        else (Throw, x)
    | _, _ => (Throw, x)
    end.

(** [DELETE FROM organization_agents WHERE agent_id = $1] *)
Definition delete_organization_agents (i : Z) : XM unit :=
  fun x => (Ret tt, set_organization_agents x
                      (filter (fun oa => negb (snd oa =? i)) (organization_agents x))).

(** [INSERT INTO organization_agents (organization_id, agent_id) VALUES
     ($1, $2)]: the organization_id of the body is read as an [INTEGER];
    both columns are FOREIGN KEYs, the pair the PRIMARY KEY. *)
Definition insert_organization_agent (oid i : Z) : XM unit :=
  fun x =>
    if negb (int4_ok oid)
       || negb (existsb (fun o => o_id o =? oid) (organizations x))
       || negb (existsb (fun a => a_id a =? i) (agents (base x)))
       || existsb (fun oa => (fst oa =? oid) && (snd oa =? i)) (organization_agents x)
    then (Throw, x)
    else (Ret tt, set_organization_agents x (organization_agents x ++ [(oid, i)])).

(** [SELECT * FROM users WHERE username = $1] *)
Definition users_by_username (n : string) : XM (list user) :=
  fun x => (Ret (filter (fun u => String.eqb (u_username u) n) (users x)), x).

(** [SELECT id FROM users WHERE username = $1 OR email = $2] *)
Definition users_by_name_or_email (n e : string) : XM (list Z) :=
  fun x => (Ret (map u_id (filter (fun u => String.eqb (u_username u) n
                                            || String.eqb (u_email u) e) (users x))), x).

Definition touch_login (i t : Z) (u : user) : user :=
  if u_id u =? i then
    mkUser (u_id u) (u_username u) (u_password u) (u_email u) (u_role u) (Some t)
  else u.

(** [UPDATE users SET last_login = NOW() WHERE id = $1] *)
Definition update_last_login (i : Z) : XM unit :=
  fun x => (Ret tt, set_users x (map (touch_login i (clock (base x))) (users x)) (users_seq x)).

(** [INSERT INTO users (username, email, password, role) VALUES (...)
     RETURNING ...]: username is a VARCHAR(50), password and email
    VARCHAR(100), role a VARCHAR(20); the row takes the next id, then
    username and email are UNIQUE. *)
Definition insert_user (username email password role : string) : XM user :=
  fun x =>
    match varchar_str 50 username, varchar_str 100 email, varchar_str 100 password,
          varchar_str 20 role with
    | Some n, Some e, Some p, Some r =>
        if existsb (fun u => String.eqb (u_username u) n) (users x)
           || existsb (fun u => String.eqb (u_email u) e) (users x)
        then (Throw, set_users x (users x) (users_seq x + 1))
        else
          let u := mkUser (users_seq x) n p e r None in
          (Ret u, set_users x (users x ++ [u]) (users_seq x + 1))
    | _, _, _, _ => (Throw, x)
    end.

(** [SELECT COUNT( * ) FROM users WHERE role = 'admin'], read with [parseInt]. *)
Definition count_admins : XM Z :=
  fun x => (Ret (Z.of_nat (length (filter (fun u => String.eqb (u_role u) "admin") (users x)))), x).

(** ** User authentication (auth.js, and its copy in api.js) *)

(** The payload of a JWT issued by the login route. *)
Record claims : Type := mkClaims {
  j_id : Z;
  j_username : string;
  j_role : option string
}.

(** Request bodies of the admin routes; a missing property is [None]. *)
Record agent_update_body : Type := mkAgentUpdateBody {
  ub_name : option string;
  ub_status : option string;
  ub_organization_id : option Z
}.

Record config_body : Type := mkConfigBody {
  cb_subnet_ranges : option (list string);
  cb_snmp_community : option string;
  cb_snmp_timeout : option Z;
  cb_polling_interval : option Z;
  cb_discovery_interval : option Z
}.

Record login_body : Type := mkLoginBody {
  l_username : option string;
  l_password : option string
}.

Record user_body : Type := mkUserBody {
  nb_username : option string;
  nb_email : option string;
  nb_password : option string;
  nb_role : option string
}.

(** [x || d] for an optional number ([undefined] and [0] are falsy); the
    query that stores it checks the [INTEGER] range. *)
Definition num_or_default (x : option Z) (d : Z) : Z :=
  match x with
  | Some v => if v =? 0 then d else v
  | None => d
  end.

(** [BEGIN] ... [COMMIT] or [ROLLBACK] on one pooled client. *)
Inductive tx_end : Type :=
| Commit (r : xresponse)
| Rollback (r : xresponse).

(** [catch (err) { ROLLBACK; throw err; }]: an exception in the body rolls
    back too. *)
Definition transaction (body : XM tx_end) : XM xresponse :=
  fun x0 => match body x0 with
            | (Ret (Commit r), x1) => (Ret r, x1)
            | (Ret (Rollback r), _) => (Ret r, x0)
            | (Throw, _) => (Throw, x0)
            end.

(** ** Response rows *)

(** A row of [SELECT id, agent_id, name, hostname, ip_address, os_info,
    version, status, last_seen FROM agents]. *)
Definition agent_list_row (a : agent) : json :=
  JsObj [("id", JsNum (a_id a)); ("agent_id", JsStr (a_agent_id a)); ("name", JsStr (a_name a));
         ("hostname", js_opt_str (a_hostname a)); ("ip_address", js_opt_str (a_ip_address a));
         ("os_info", js_opt_str (a_os_info a)); ("version", js_opt_str (a_version a));
         ("status", js_opt_str (a_status a)); ("last_seen", js_opt_num (a_last_seen a))].

(** A row of [SELECT * FROM agents] (its [created_at] is not modelled). *)
Definition agent_fields (a : agent) : list (string * json) :=
  [("id", JsNum (a_id a)); ("agent_id", JsStr (a_agent_id a)); ("name", JsStr (a_name a));
   ("hostname", js_opt_str (a_hostname a)); ("ip_address", js_opt_str (a_ip_address a));
   ("os_info", js_opt_str (a_os_info a)); ("version", js_opt_str (a_version a));
   ("api_key", JsStr (a_api_key a)); ("status", js_opt_str (a_status a));
   ("last_seen", js_opt_num (a_last_seen a))].

(** A row of [agent_configs] (its [created_at] is not modelled). *)
Definition config_row (c : agent_config) : json :=
  JsObj [("id", JsNum (c_id c)); ("agent_id", JsNum (c_agent_id c));
         ("organization_id", js_opt_num (c_organization_id c));
         ("subnet_ranges", JsArr (map JsStr (c_subnet_ranges c)));
         ("snmp_community", js_opt_str (c_snmp_community c));
         ("snmp_timeout", js_opt_num (c_snmp_timeout c));
         ("polling_interval", js_opt_num (c_polling_interval c));
         ("discovery_interval", js_opt_num (c_discovery_interval c));
         ("updated_at", JsNum (c_updated_at c))].

(** The body of [GET /api/agents/config/:agent_id]. *)
Definition config_response (c : agent_config) : json :=
  JsObj [("subnets", JsArr (map JsStr (c_subnet_ranges c)));
         ("snmp_community", js_opt_str (c_snmp_community c));
         ("snmp_timeout", js_opt_num (c_snmp_timeout c));
         ("polling_interval", js_opt_num (c_polling_interval c));
         ("discovery_interval", js_opt_num (c_discovery_interval c))].

Definition user_summary (u : user) : json :=
  JsObj [("id", JsNum (u_id u)); ("username", JsStr (u_username u));
         ("email", JsStr (u_email u)); ("role", JsStr (u_role u))].

(** [ORDER BY last_seen DESC]: NULLs first (PostgreSQL's default for DESC),
    then the latest first; rows with equal [last_seen] stay in table order,
    one of the orders PostgreSQL may return. *)
Definition last_seen_desc (a b : agent) : bool :=
  match a_last_seen a, a_last_seen b with
  | None, _ => true
  | Some _, None => false
  | Some x, Some y => y <=? x
  end.

Fixpoint insert_by_last_seen (a : agent) (l : list agent) : list agent :=
  match l with
  | [] => [a]
  | b :: l' => if last_seen_desc a b then a :: l else b :: insert_by_last_seen a l'
  end.

Fixpoint order_by_last_seen_desc (l : list agent) : list agent :=
  match l with
  | [] => []
  | a :: l' => insert_by_last_seen a (order_by_last_seen_desc l')
  end.

(** The subnet list of a new configuration. *)
Definition default_subnets : list string := ["192.168.1.0/24"].

Section AdminRoutes.

(** [jwt.verify(token, secret)]: the payload, or [None] when it reports an
    error (bad signature, expired, malformed). *)
Variable jwt_verify : string -> option claims.

(** [authenticateToken] *)
Definition authenticate_token (authHeader : option string) (next : claims -> XM xresponse)
    : XM xresponse :=
  match header_api_key authHeader with
  | Some token =>
      if String.eqb token "" then xret (x_error 401 "Authentication required")
      else match jwt_verify token with
           | None => xret (x_error 403 "Invalid or expired token")
           | Some u => next u
           end
  | None => xret (x_error 401 "Authentication required")
  end.

(** [authorize(roles)]: [roles.length && !roles.includes(req.user.role)]. *)
Definition authorize (roles : list string) (user_ : option claims) (next : XM xresponse)
    : XM xresponse :=
  match user_ with
  | None => xret (x_error 401 "Authentication required")
  | Some u =>
      if negb (Nat.eqb (length roles) 0)
         && negb (existsb (fun r => match j_role u with
                                    | Some x => String.eqb r x
                                    | None => false
                                    end) roles)
      then xret (x_error 403 "Insufficient permissions")
      else next
  end.

(** [authenticateToken, authorize(["admin"])] in front of a handler. *)
Definition admin_only (authHeader : option string) (handler : claims -> XM xresponse)
    : XM xresponse :=
  authenticate_token authHeader (fun u => authorize ["admin"] (Some u) (handler u)).

(** *** Server/routes/agents.js (and the copy of [GET /] in api.js) *)

(** [router.get("/", authenticateToken, authorize(["admin"]), ...)] *)
Definition agents_list (authHeader : option string) : XM xresponse :=
  admin_only authHeader (fun _ =>
    xcatch_500 "Server error"
      (fun x => (Ret (x_json (JsArr (map agent_list_row
                                        (order_by_last_seen_desc (agents (base x)))))), x))).

(** [router.get("/:id", ...)]; [id] is the integer PostgreSQL reads from
    the path segment, [None] when it refuses it (the query throws). *)
Definition agent_get (authHeader : option string) (id : option Z) : XM xresponse :=
  admin_only authHeader (fun _ =>
    xcatch_500 "Server error"
      (match id with
       | None => xthrow
       | Some i =>
           let+ rows := agents_by_id i in
           match rows with
           | [] => xret (x_error 404 "Agent not found")
           | agent :: _ =>
               let+ n := lift (printer_count_of (a_id agent)) in
               let+ orgs := organizations_of_agent (a_id agent) in
               let organization :=
                 match orgs with
                 | o :: _ => JsObj [("id", JsNum (o_id o)); ("name", JsStr (o_name o))]
                 | [] => JsNull
                 end in
               xret (x_json (JsObj (agent_fields agent ++
                                    [("printer_count", JsNum n);
                                     ("organization", organization)])%list))
           end
       end)).

(** [router.put("/:id", ...)] *)
Definition agent_put (authHeader : option string) (id : option Z) (b : agent_update_body)
    : XM xresponse :=
  admin_only authHeader (fun _ =>
    xcatch_500 "Server error"
      (match ub_name b with
       | Some name =>
           if String.eqb name "" then xret (x_error 400 "Name is required")
           else
             transaction
               (match id with
                | None => xthrow
                | Some i =>
                    let+ rows := update_agent_admin name (or_default (ub_status b) "active") i in
                    match rows with
                    | [] => xret (Rollback (x_error 404 "Agent not found"))
                    | a :: _ =>
                        let+ _ := match ub_organization_id b with
                                  | Some oid =>
                                      if oid =? 0 then xret tt
                                      else
                                        let+ _ := delete_organization_agents i in
                                        insert_organization_agent oid i
                                  | None => xret tt
                                  end in
                        xret (Commit (x_json (JsObj (agent_fields a))))
                    end
                end)
       | None => xret (x_error 400 "Name is required")
       end)).

(** [router.get("/config/:agent_id", authenticateAgent, ...)]; the path's
    [:agent_id] is not read. *)
Definition agent_config_get (authHeader : option string) : XM xresponse :=
  x_authenticate_agent authHeader (fun agent =>
    xcatch_500 "Server error"
      (let+ orgs := organizations_of_agent (a_id agent) in
       let+ cfgs := configs_of_agent (a_id agent) in
       let+ config :=
         match cfgs with
         | c :: _ => xret c
         | [] => insert_config (a_id agent) (option_map o_id (hd_error orgs))
                   default_subnets "public" 2 300 86400
         end in
       xret (x_json (config_response config)))).

(** [router.put("/config/:id", ...)] *)
Definition agent_config_put (authHeader : option string) (id : option Z) (b : config_body)
    : XM xresponse :=
  admin_only authHeader (fun _ =>
    xcatch_500 "Server error"
      (match id with
       | None => xthrow
       | Some i =>
           let+ rows := agents_by_id i in
           match rows with
           | [] => xret (x_error 404 "Agent not found")
           | _ :: _ =>
               let+ orgs := organizations_of_agent i in
               let+ c := upsert_config i (option_map o_id (hd_error orgs))
                           (match cb_subnet_ranges b with
                            | Some l => l
                            | None => default_subnets
                            end)
                           (or_default (cb_snmp_community b) "public")
                           (num_or_default (cb_snmp_timeout b) 2)
                           (num_or_default (cb_polling_interval b) 300)
                           (num_or_default (cb_discovery_interval b) 86400) in
               xret (x_json (config_row c))
           end
       end)).

(** *** api.js *)

(** [bcrypt.compare(password, hash)] *)
Variable bcrypt_compare : string -> string -> bool.
(** [jwt.sign(payload, secret, { expiresIn: "24h" })] at time [t]. *)
Variable jwt_sign : claims -> Z -> string.

(** [app.post("/api/auth/login", ...)] *)
Definition login_post (b : login_body) : XM xresponse :=
  xcatch_500 "Server error"
    (match l_username b, l_password b with
     | Some username, Some password =>
         if String.eqb username "" || String.eqb password "" then
           xret (x_error 400 "Username and password required")
         else
           let+ rows := users_by_username username in
           match rows with
           | [] => xret (x_error 401 "Invalid credentials")
           | u :: _ =>
               if negb (bcrypt_compare password (u_password u)) then
                 xret (x_error 401 "Invalid credentials")
               else
                 let+ _ := update_last_login (u_id u) in
                 let+ t := xnow in
                 xret (x_json (JsObj
                   [("token", JsStr (jwt_sign (mkClaims (u_id u) (u_username u)
                                                        (Some (u_role u))) t));
                    ("user", user_summary u)]))
           end
     | _, _ => xret (x_error 400 "Username and password required")
     end).

(** [app.post("/api/users", authenticateToken, authorize(["admin"]), ...)];
    [hashed] is what [bcrypt.hash(password, 10)] returns for this call. *)
Definition users_post (authHeader : option string) (b : user_body) (hashed : string)
    : XM xresponse :=
  admin_only authHeader (fun _ =>
    xcatch_500 "Server error"
      (match nb_username b, nb_email b, nb_password b with
       | Some username, Some email, Some password =>
           if String.eqb username "" || String.eqb email "" || String.eqb password "" then
             xret (x_error 400 "Username, email and password required")
           else
             let+ existing := users_by_name_or_email username email in
             match existing with
             | _ :: _ => xret (x_error 409 "Username or email already exists")
             | [] =>
                 let+ u := insert_user username email hashed (or_default (nb_role b) "user") in
                 xret (mkXResp 201 (user_summary u))
             end
       | _, _, _ => xret (x_error 400 "Username, email and password required")
       end)).

End AdminRoutes.

(** ** Start-up: the default admin user *)

(** Server/models/db.js [initializeDatabase], after its [CREATE TABLE IF
    NOT EXISTS] statements (the tables exist in the model): [env_username]
    and [env_email] are [DEFAULT_ADMIN_USERNAME] and [DEFAULT_ADMIN_EMAIL],
    [hashed] what [bcrypt.hash] returns.  A throw stops the server
    (server.js exits). *)
Definition initialize_database (env_username env_email : option string) (hashed : string)
    : XM unit :=
  let+ n := count_admins in
  if n =? 0 then
    let+ _ := insert_user (or_default env_username "admin")
                (or_default env_email "admin@example.com") hashed "admin" in
    xret tt
  else xret tt.

(** api.js [initializeDatabase]: the same with the fixed name "admin" and
    e-mail "admin@example.com"; a throw ends the process. *)
Definition api_initialize_database (hashed : string) : XM unit :=
  let+ n := count_admins in
  if n =? 0 then
    let+ _ := insert_user "admin" "admin@example.com" hashed "admin" in
    xret tt
  else xret tt.

(** ** api.js: dashboard statistics *)

(** Text comparison [a < b], byte by byte (as under the C collation). *)
Fixpoint text_lt (a b : string) : bool :=
  match a, b with
  | EmptyString, EmptyString => false
  | EmptyString, String _ _ => true
  | String _ _, EmptyString => false
  | String c a', String d b' =>
      if Ascii.eqb c d then text_lt a' b'
      else N.ltb (Ascii.N_of_ascii c) (Ascii.N_of_ascii d)
  end.

(** [COUNT( * )] comes back from node-postgres as a decimal string. *)
Definition count_text (n : nat) : string := NilZero.string_of_uint (Nat.to_uint n).

(** [m.timestamp > NOW() - INTERVAL '24 hours'] (times in seconds). *)
Definition recent (t : Z) (m : metric) : bool := t - 86400 <? m_timestamp m.

(** [m.error_state IS NOT NULL AND m.error_state != ''] *)
Definition has_error (m : metric) : bool :=
  match m_error_state m with
  | Some e => negb (String.eqb e "")
  | None => false
  end.

(** [SELECT COUNT(DISTINCT p.id) FROM printers p JOIN metrics m ON p.id =
     m.printer_id WHERE ...]: [p.id] is the PRIMARY KEY, so each printer
    row is one distinct id. *)
Definition printers_with (pred : metric -> bool) (s : db) : list printer :=
  filter (fun p => existsb (fun m => match m_printer_id m with
                                     | Some i => (i =? p_id p) && pred m
                                     | None => false
                                     end) (metrics s)) (printers s).

(** [GROUP BY status], groups in the order of first occurrence. *)
Fixpoint distinct_statuses (l : list (option string)) : list (option string) :=
  match l with
  | [] => []
  | st :: l' =>
      st :: filter (fun st' => negb (match st, st' with
                                     | Some a, Some b => String.eqb a b
                                     | None, None => true
                                     | _, _ => false
                                     end)) (distinct_statuses l')
  end.

Definition status_count (s : db) (st : option string) : nat :=
  length (filter (fun p => match p_status p, st with
                           | Some a, Some b => String.eqb a b
                           | None, None => true
                           | _, _ => false
                           end) (printers s)).

Section Dashboard.

(** [toner_levels->>'color'] on the stored JSONB value. *)
Variable jsonb_text : string -> string -> option string.

(** [m.toner_levels->>'color' < '10'] (false on NULL). *)
Definition level_low (m : metric) (color : string) : bool :=
  match m_toner_levels m with
  | Some j => match jsonb_text j color with
              | Some v => text_lt v "10"
              | None => false
              end
  | None => false
  end.

Definition toner_low (m : metric) : bool :=
  level_low m "black" || level_low m "cyan" || level_low m "magenta" || level_low m "yellow".

(** [app.get("/api/dashboard/stats", authenticateToken, ...)] after the
    token check. *)
Definition dashboard_stats_body : XM xresponse :=
  xcatch_500 "Server error"
    (fun x =>
       let s := base x in
       let t := clock s in
       (Ret (x_json (JsObj
          [("printerCount", JsNum (Z.of_nat (length (printers s))));
           ("agentCount", JsNum (Z.of_nat (length (agents s))));
           ("lowTonerCount", JsNum (Z.of_nat (length (printers_with
                                  (fun m => recent t m && toner_low m) s))));
           ("errorCount", JsNum (Z.of_nat (length (printers_with
                                  (fun m => recent t m && has_error m) s))));
           ("statusDistribution",
              JsArr (map (fun st => JsObj [("status", js_opt_str st);
                                           ("count", JsStr (count_text (status_count s st)))])
                         (distinct_statuses (map p_status (printers s)))))])), x)).

End Dashboard.

Definition dashboard_stats (jwt_verify : string -> option claims)
    (jsonb_text : string -> string -> option string) (authHeader : option string)
    : XM xresponse :=
  authenticate_token jwt_verify authHeader (fun _ => dashboard_stats_body jsonb_text).

(** ** api.js: printer details *)

(** A row of [SELECT p.id, p.ip_address, p.serial_number, p.model, p.name,
    p.status, p.last_seen, a.name as agent_name, a.agent_id FROM printers p
    JOIN agents a ON p.agent_id = a.id]. *)
Definition printer_row (p : printer) (a : agent) : json :=
  JsObj [("id", JsNum (p_id p)); ("ip_address", JsStr (p_ip_address p));
         ("serial_number", js_opt_str (p_serial_number p)); ("model", js_opt_str (p_model p));
         ("name", js_opt_str (p_name p)); ("status", js_opt_str (p_status p));
         ("last_seen", js_opt_num (p_last_seen p)); ("agent_name", JsStr (a_name a));
         ("agent_id", JsStr (a_agent_id a))].

Definition printer_detail_rows (i : Z) (s : db) : list json :=
  flat_map (fun p => if p_id p =? i
                     then map (printer_row p) (filter (fun a => a_id a =? p_agent_id p) (agents s))
                     else []) (printers s).

(** A row of [SELECT * FROM metrics]; JSONB values are kept as their text. *)
Definition metric_row (m : metric) : json :=
  JsObj [("id", JsNum (m_id m)); ("printer_id", js_opt_num (m_printer_id m));
         ("timestamp", JsNum (m_timestamp m)); ("page_count", js_opt_num (m_page_count m));
         ("toner_levels", js_opt_str (m_toner_levels m)); ("status", js_opt_str (m_status m));
         ("error_state", js_opt_str (m_error_state m)); ("raw_data", js_opt_str (m_raw_data m))].

Definition metrics_of (i : Z) (s : db) : list metric :=
  filter (fun m => match m_printer_id m with Some j => j =? i | None => false end) (metrics s).

(** [ORDER BY timestamp DESC LIMIT 1]; among equal timestamps the first in
    table order. *)
Fixpoint latest_metric (l : list metric) : option metric :=
  match l with
  | [] => None
  | m :: l' =>
      match latest_metric l' with
      | None => Some m
      | Some m' => if m_timestamp m' <=? m_timestamp m then Some m else Some m'
      end
  end.

(** [timestamp::date] as a day number (UTC). *)
Definition day_of (t : Z) : Z := t / 86400.

(** Insertion into an ascending list without duplicates. *)
Fixpoint insert_day (d : Z) (l : list Z) : list Z :=
  match l with
  | [] => [d]
  | e :: l' => if d <? e then d :: l else if d =? e then l else e :: insert_day d l'
  end.

Definition with_page_count (ms : list metric) : list metric :=
  filter (fun m => match m_page_count m with Some _ => true | None => false end) ms.

(** The groups of [GROUP BY timestamp::date ORDER BY date]. *)
Definition page_count_days (ms : list metric) : list Z :=
  fold_right insert_day [] (map (fun m => day_of (m_timestamp m)) (with_page_count ms)).

Fixpoint list_max (l : list Z) : option Z :=
  match l with
  | [] => None
  | x :: l' => match list_max l' with
               | Some y => Some (Z.max x y)
               | None => Some x
               end
  end.

(** [SELECT timestamp::date as date, MAX(page_count) as page_count FROM
     metrics WHERE printer_id = $1 AND page_count IS NOT NULL GROUP BY
     timestamp::date ORDER BY date LIMIT 30] *)
Definition page_count_history (ms : list metric) : list json :=
  map (fun d => JsObj [("date", JsNum d);
                       ("page_count", js_opt_num (list_max (flat_map (fun m =>
                          match m_page_count m with
                          | Some c => if day_of (m_timestamp m) =? d then [c] else []
                          | None => []
                          end) ms)))])
      (firstn 30 (page_count_days ms)).

(** [app.get("/api/printers/:id", authenticateToken, ...)] *)
Definition printer_get (jwt_verify : string -> option claims) (authHeader : option string)
    (id : option Z) : XM xresponse :=
  authenticate_token jwt_verify authHeader (fun _ =>
    xcatch_500 "Server error"
      (match id with
       | None => xthrow
       | Some i =>
           fun x =>
             let s := base x in
             match printer_detail_rows i s with
             | [] => (Ret (x_error 404 "Printer not found"), x)
             | p :: _ =>
                 (Ret (x_json (JsObj
                    [("printer", p);
                     ("metrics", match latest_metric (metrics_of i s) with
                                 | Some m => metric_row m
                                 | None => JsNull
                                 end);
                     ("pageCountHistory", JsArr (page_count_history (metrics_of i s)))])), x)
             end
       end)).

(** ** api.js: the user and printer lists *)

(** A row of [SELECT id, username, email, role, created_at, last_login FROM
    users] (its [created_at] is not modelled). *)
Definition user_row (u : user) : json :=
  JsObj [("id", JsNum (u_id u)); ("username", JsStr (u_username u));
         ("email", JsStr (u_email u)); ("role", JsStr (u_role u));
         ("last_login", js_opt_num (u_last_login u))].

(** [ORDER BY username], by text comparison; equal names (which UNIQUE
    rules out) would stay in table order. *)
Definition username_le (u v : user) : bool := negb (text_lt (u_username v) (u_username u)).

Fixpoint insert_by_username (u : user) (l : list user) : list user :=
  match l with
  | [] => [u]
  | v :: l' => if username_le u v then u :: l else v :: insert_by_username u l'
  end.

Fixpoint order_by_username (l : list user) : list user :=
  match l with
  | [] => []
  | u :: l' => insert_by_username u (order_by_username l')
  end.

(** [app.get("/api/users", authenticateToken, authorize(["admin"]), ...)] *)
Definition users_list (jwt_verify : string -> option claims) (authHeader : option string)
    : XM xresponse :=
  admin_only jwt_verify authHeader (fun _ =>
    xcatch_500 "Server error"
      (fun x => (Ret (x_json (JsArr (map user_row (order_by_username (users x))))), x))).

(** [FROM printers p JOIN agents a ON p.agent_id = a.id] *)
Definition printers_join (s : db) : list (printer * agent) :=
  flat_map (fun p => map (fun a => (p, a)) (filter (fun a => a_id a =? p_agent_id p) (agents s)))
           (printers s).

(** [(SELECT MAX(m.page_count) FROM metrics m WHERE m.printer_id = p.id)]:
    NULL page counts are skipped, no count at all gives NULL. *)
Definition max_page_count (s : db) (pid : Z) : option Z :=
  list_max (flat_map (fun m => match m_printer_id m, m_page_count m with
                               | Some i, Some c => if i =? pid then [c] else []
                               | _, _ => []
                               end) (metrics s)).

Definition printer_list_row (s : db) (pa : printer * agent) : json :=
  let (p, a) := pa in
  JsObj [("id", JsNum (p_id p)); ("ip_address", JsStr (p_ip_address p));
         ("serial_number", js_opt_str (p_serial_number p)); ("model", js_opt_str (p_model p));
         ("name", js_opt_str (p_name p)); ("status", js_opt_str (p_status p));
         ("last_seen", js_opt_num (p_last_seen p)); ("agent_name", JsStr (a_name a));
         ("agent_id", JsStr (a_agent_id a)); ("page_count", js_opt_num (max_page_count s (p_id p)))].

(** [ORDER BY p.last_seen DESC], NULLs first, ties in join order. *)
Definition printer_seen_desc (x y : printer * agent) : bool :=
  match p_last_seen (fst x), p_last_seen (fst y) with
  | None, _ => true
  | Some _, None => false
  | Some a, Some b => b <=? a
  end.

Fixpoint insert_by_printer_seen (x : printer * agent) (l : list (printer * agent))
    : list (printer * agent) :=
  match l with
  | [] => [x]
  | y :: l' => if printer_seen_desc x y then x :: l else y :: insert_by_printer_seen x l'
  end.

Fixpoint order_by_printer_seen (l : list (printer * agent)) : list (printer * agent) :=
  match l with
  | [] => []
  | x :: l' => insert_by_printer_seen x (order_by_printer_seen l')
  end.

(** [app.get("/api/printers", authenticateToken, ...)] *)
Definition printers_list (jwt_verify : string -> option claims) (authHeader : option string)
    : XM xresponse :=
  authenticate_token jwt_verify authHeader (fun _ =>
    xcatch_500 "Server error"
      (fun x => (Ret (x_json (JsArr (map (printer_list_row (base x))
                                        (order_by_printer_seen (printers_join (base x)))))), x))).


(** ** Vocabulary and sample data of the server properties *)

(** Whether a string contains a space. *)
Fixpoint has_space (s : string) : bool :=
  match s with
  | EmptyString => false
  | String c r => Ascii.eqb c " "%char || has_space r
  end.

(** The first member [k] of an association list of JSON members. *)
Fixpoint js_assoc (k : string) (l : list (string * json)) : option json :=
  match l with
  | [] => None
  | (k', v) :: l' => if String.eqb k k' then Some v else js_assoc k l'
  end.

(** The member [k] of a JSON object. *)
Definition js_field (k : string) (j : json) : option json :=
  match j with
  | JsObj l => js_assoc k l
  | _ => None
  end.

(** The default configuration [GET /api/agents/config/:agent_id] creates. *)
Definition default_config (x : xdb) (aid : Z) : agent_config :=
  mkAgentConfig (agent_configs_seq x) aid (option_map o_id (hd_error (agent_orgs x aid)))
                default_subnets (Some "public") (Some 2) (Some 300) (Some 86400) (clock (base x)).

(** The equality of two [status] values that [GROUP BY status] uses
    (NULL forms one group). *)
Definition status_eqb (a b : option string) : bool :=
  match a, b with
  | Some a, Some b => String.eqb a b
  | None, None => true
  | _, _ => false
  end.

(** A token check that accepts the one token "admintoken", for an admin. *)
Definition admin_verify (tok : string) : option claims :=
  if String.eqb tok "admintoken" then Some (mkClaims 1 "admin" (Some "admin")) else None.

(** Three agents, one never seen, and an organization holding agent 1. *)
Definition seen_db : xdb :=
  mkXdb (mkDb [mkAgent 1 "a1" "first" None None None None "k1" (Some "active") (Some 50);
               mkAgent 2 "a2" "new" None None None None "k2" (Some "active") None;
               mkAgent 3 "a3" "latest" None None None None "k3" (Some "active") (Some 90)]
              [] [] 4 1 1 100)
        [mkOrganization 7 "Acme"] [(7, 1)] [] 1 [] 1.

(** A user whose stored hash is that of the password "secret". *)
Definition bob : user := mkUser 1 "bob" "hash-of-secret" "bob@example.com" "user" None.

Definition users_db : xdb := mkXdb empty_db [] [] [] 1 [bob] 2.

(** [bcrypt.compare] for the hashes of [bob]. *)
Definition bob_compare (p h : string) : bool :=
  String.eqb p "secret" && String.eqb h "hash-of-secret".

(** A printer whose recent metric reports a toner level of 5. *)
Definition toner_db : xdb :=
  mkXdb (mkDb [mkAgent 1 "a1" "first" None None None None "k1" (Some "active") (Some 50)]
              [mkPrinter 1 1 None "10.0.0.5" None None None (Some "online") None]
              [mkMetric 1 (Some 1) 90 (Some 1000) (Some "{black:5}") None None None]
              2 2 2 100)
        [] [] [] 1 [] 1.

Definition five_percent (_ _ : string) : option string := Some "5".

(** Page counts over two days (day 0 and day 1). *)
Definition page_metrics : list metric :=
  [mkMetric 1 (Some 1) 86500 (Some 120) None None None None;
   mkMetric 2 (Some 1) 90000 (Some 150) None None None None;
   mkMetric 3 (Some 1) 100 (Some 40) None None None None].

Definition printer_db : xdb :=
  mkXdb (mkDb [mkAgent 1 "a1" "first" None None None None "k1" (Some "active") (Some 50)]
              [mkPrinter 1 1 None "10.0.0.5" None None None (Some "online") None]
              page_metrics 2 2 4 100000)
        [] [] [] 1 [] 1.



(** A [printer_update] push without an IP address. *)
Definition ipless_update : data_body :=
  mkDataBody (Some "printer_update") None
    (Some (mkPayload None (Some "SN-1") (Some "LaserJet") None None None None None None None)).

(** * Properties *)

Example header_api_key_bearer : header_api_key (bearer "k1") = Some "k1".
Proof. reflexivity. Qed.

Example header_api_key_no_space : header_api_key (Some "Bearer") = None.
Proof. reflexivity. Qed.

Example register_then_push :
  let s1 := fst (run (register_post (reg_body "a1") "k1") empty_db) in
  let s2 := fst (run (data_post no_json (bearer "k1")
                       (mkDataBody (Some "printer_discovery") None
                                   (Some (ident_payload "10.0.0.5" (Some "SN1"))))) s1) in
  length (printers s2) = 1%nat /\ snd (run (register_post (reg_body "a1") "k2") s2)
    = res_json [("success", JBool true); ("token", JStr "k1")].
Proof. split; reflexivity. Qed.

(** ** Agent authentication *)

Lemma auth_missing : forall h next s,
  truthy (header_api_key h) = false ->
  authenticate_agent h next s = (Ret (res_error 401 "Agent authentication required"), s).
Proof.
  intros h next s H. unfold authenticate_agent.
  destruct (header_api_key h) as [k|]; [|reflexivity].
  simpl in H. destruct (String.eqb k "") eqn:E; [reflexivity|discriminate].
Qed.

Lemma auth_unknown : forall h next s k,
  header_api_key h = Some k -> k <> "" -> agents_with_key s k = [] ->
  authenticate_agent h next s = (Ret (res_error 403 "Invalid agent API key"), s).
Proof.
  intros h next s k Hk Hne Hnil. unfold authenticate_agent. rewrite Hk.
  destruct (String.eqb_spec k "") as [E|_]; [contradiction|].
  unfold bind, authenticate_agent_db, try_catch, bind, agents_by_api_key.
  unfold agents_with_key in Hnil. rewrite Hnil. reflexivity.
Qed.

Lemma auth_found : forall h next s k a rest,
  header_api_key h = Some k -> k <> "" -> agents_with_key s k = a :: rest ->
  authenticate_agent h next s = next a (touched s (a_id a)).
Proof.
  intros h next s k a rest Hk Hne Hf. unfold authenticate_agent. rewrite Hk.
  destruct (String.eqb_spec k "") as [E|_]; [contradiction|].
  unfold bind, authenticate_agent_db, try_catch, bind, agents_by_api_key.
  unfold agents_with_key in Hf. rewrite Hf. reflexivity.
Qed.

Lemma agents_with_key_nil : forall s k,
  (forall a, In a (agents s) -> a_api_key a <> k) -> agents_with_key s k = [].
Proof.
  intros s k H. unfold agents_with_key.
  induction (agents s) as [|a l IH]; [reflexivity|]. simpl.
  destruct (String.eqb_spec (a_api_key a) k) as [E|_].
  - exfalso. apply (H a); [left; reflexivity|exact E].
  - apply IH. intros a' Ha'. apply H. right. exact Ha'.
Qed.

Lemma agents_with_key_cons : forall s k,
  (exists a, In a (agents s) /\ a_api_key a = k) ->
  exists a rest, agents_with_key s k = a :: rest /\ a_api_key a = k.
Proof.
  intros s k [a0 [Hin Hk]]. unfold agents_with_key. revert Hin.
  induction (agents s) as [|a l IH]; intros Hin; [contradiction|]. simpl.
  destruct (String.eqb_spec (a_api_key a) k) as [E|Ne].
  - exists a, (filter (fun a => String.eqb (a_api_key a) k) l). split; [reflexivity|exact E].
  - destruct Hin as [<-|Hin]; [contradiction|]. apply IH. exact Hin.
Qed.

(** C8: [POST /api/data] without a token is answered 401, with a token no
    agent holds 403, and in both cases the database is left exactly as it
    was (so no printer or metrics row is created or modified); this holds
    for Server/routes/data.js and for api.js alike. *)
Theorem data_post_requires_token : forall json_parse s h b,
  (truthy (header_api_key h) = false ->
     run (data_post json_parse h b) s = (s, res_error 401 "Agent authentication required")
     /\ run (api_data_post json_parse h b) s
        = (s, res_error 401 "Agent authentication required")) /\
  (forall k, header_api_key h = Some k -> k <> "" ->
     (forall a, In a (agents s) -> a_api_key a <> k) ->
     run (data_post json_parse h b) s = (s, res_error 403 "Invalid agent API key")
     /\ run (api_data_post json_parse h b) s = (s, res_error 403 "Invalid agent API key")).
Proof.
  intros json_parse s h b. split.
  - intros H. unfold run, data_post, api_data_post. rewrite !auth_missing by exact H.
    split; reflexivity.
  - intros k Hk Hne Hno. pose proof (agents_with_key_nil s k Hno) as Hnil.
    unfold run, data_post, api_data_post. rewrite !(auth_unknown h _ s k Hk Hne Hnil).
    split; reflexivity.
Qed.

Lemma data_post_requires_token_witness :
  (truthy (header_api_key (Some "Bearer")) = false /\
   run (data_post no_json (Some "Bearer") (mkDataBody (Some "metrics") (Some 1) None)) empty_db
   = (empty_db, res_error 401 "Agent authentication required")) /\
  (header_api_key (bearer "k9") = Some "k9" /\
   run (data_post no_json (bearer "k9") (mkDataBody (Some "metrics") (Some 1) None)) empty_db
   = (empty_db, res_error 403 "Invalid agent API key")).
Proof.
  destruct (data_post_requires_token no_json empty_db (Some "Bearer")
              (mkDataBody (Some "metrics") (Some 1) None)) as [H401 _].
  destruct (data_post_requires_token no_json empty_db (bearer "k9")
              (mkDataBody (Some "metrics") (Some 1) None)) as [_ H403].
  split; split.
  - reflexivity.
  - apply H401. reflexivity.
  - reflexivity.
  - apply (H403 "k9"); [reflexivity|discriminate|intros a []].
Defined.

Lemma touched_nth : forall s id i r,
  nth_error (agents s) i = Some r ->
  nth_error (agents (touched s id)) i
  = Some (if a_id r =? id then agent_with_last_seen r (clock s) else r).
Proof.
  intros s id i r H. unfold touched, set_agents. simpl.
  rewrite nth_error_map, H. simpl. unfold touch_agent, agent_with_last_seen.
  destruct (a_id r =? id); reflexivity.
Qed.

(** C9: a request authenticated with an agent's api_key, the read-only
    [GET /api/data/config] included, sets that agent's [last_seen] to
    [NOW()]: every row keeps its position, the rows with that agent's id
    have only [last_seen] changed, every other row is unchanged, and the
    printers and metrics tables are untouched. *)
Theorem authenticate_agent_sets_last_seen : forall s h k,
  header_api_key h = Some k -> k <> "" ->
  (exists a, In a (agents s) /\ a_api_key a = k) ->
  exists a s',
    a_api_key a = k /\
    (forall next, authenticate_agent h next s = next a s') /\
    fst (run (data_config h) s) = s' /\
    printers s' = printers s /\ metrics s' = metrics s /\
    length (agents s') = length (agents s) /\
    (forall i r, nth_error (agents s) i = Some r ->
       nth_error (agents s') i
       = Some (if a_id r =? a_id a then agent_with_last_seen r (clock s) else r)).
Proof.
  intros s h k Hk Hne Hex.
  destruct (agents_with_key_cons s k Hex) as [a [rest [Hf Ha]]].
  exists a, (touched s (a_id a)). split; [exact Ha|]. split.
  { intros next. apply (auth_found h next s k a rest Hk Hne Hf). }
  split.
  { unfold run, data_config. rewrite (auth_found h _ s k a rest Hk Hne Hf). reflexivity. }
  split; [reflexivity|]. split; [reflexivity|]. split.
  - unfold touched, set_agents. simpl. apply length_map.
  - intros i r Hr. apply touched_nth. exact Hr.
Qed.

Lemma authenticate_agent_sets_last_seen_witness :
  header_api_key (bearer "k1") = Some "k1" /\ "k1" <> "" /\
  (exists a, In a (agents alice_db) /\ a_api_key a = "k1") /\
  exists a s',
    a_api_key a = "k1" /\
    (forall next, authenticate_agent (bearer "k1") next alice_db = next a s') /\
    fst (run (data_config (bearer "k1")) alice_db) = s' /\
    printers s' = printers alice_db /\ metrics s' = metrics alice_db /\
    length (agents s') = length (agents alice_db) /\
    (forall i r, nth_error (agents alice_db) i = Some r ->
       nth_error (agents s') i
       = Some (if a_id r =? a_id a then agent_with_last_seen r (clock alice_db) else r)).
Proof.
  assert (Hex : exists a, In a (agents alice_db) /\ a_api_key a = "k1").
  { eexists. split; [left; reflexivity|reflexivity]. }
  split; [reflexivity|]. split; [discriminate|]. split; [exact Hex|].
  apply (authenticate_agent_sets_last_seen alice_db (bearer "k1") "k1");
    [reflexivity|discriminate|exact Hex].
Defined.

(** C7: [GET /api/data/config] with an api_key some agent holds answers 200
    with all four of [polling_interval], [discovery_interval],
    [snmp_community] and [snmp_timeout]. *)
Theorem data_config_complete : forall s h k,
  header_api_key h = Some k -> k <> "" ->
  (exists a, In a (agents s) /\ a_api_key a = k) ->
  let r := snd (run (data_config h) s) in
  status r = 200 /\
  field "polling_interval" (body r) <> None /\
  field "discovery_interval" (body r) <> None /\
  field "snmp_community" (body r) <> None /\
  field "snmp_timeout" (body r) <> None.
Proof.
  intros s h k Hk Hne Hex.
  destruct (agents_with_key_cons s k Hex) as [a [rest [Hf _]]].
  unfold run, data_config. rewrite (auth_found h _ s k a rest Hk Hne Hf).
  simpl. repeat split; discriminate.
Qed.

Lemma data_config_complete_witness :
  header_api_key (bearer "k2") = Some "k2" /\ "k2" <> "" /\
  (exists a, In a (agents alice_db) /\ a_api_key a = "k2") /\
  let r := snd (run (data_config (bearer "k2")) alice_db) in
  status r = 200 /\
  field "polling_interval" (body r) <> None /\
  field "discovery_interval" (body r) <> None /\
  field "snmp_community" (body r) <> None /\
  field "snmp_timeout" (body r) <> None.
Proof.
  assert (Hex : exists a, In a (agents alice_db) /\ a_api_key a = "k2").
  { eexists. split; [right; left; reflexivity|reflexivity]. }
  split; [reflexivity|]. split; [discriminate|]. split; [exact Hex|].
  apply (data_config_complete alice_db (bearer "k2") "k2"); [reflexivity|discriminate|exact Hex].
Defined.

Lemma printers_owned_nil : forall (l : list printer) pid aid,
  (forall p, In p l -> pid = Some (p_id p) -> p_agent_id p <> aid) ->
  map p_id (filter (fun p => match pid with
                             | Some i => (p_id p =? i) && (p_agent_id p =? aid)
                             | None => false
                             end) l) = [].
Proof.
  intros l pid aid H. induction l as [|p l IH]; [reflexivity|]. simpl.
  destruct pid as [i|]; [|apply IH; intros; apply H; [right|]; assumption].
  destruct (Z.eqb_spec (p_id p) i) as [E|_]; simpl.
  - destruct (Z.eqb_spec (p_agent_id p) aid) as [E'|_].
    + exfalso. apply (H p); [left; reflexivity|rewrite E; reflexivity|exact E'].
    + apply IH. intros; apply H; [right|]; assumption.
  - apply IH. intros; apply H; [right|]; assumption.
Qed.

(** C10 (corrected): a metrics push whose [printer_id] names no printer
    of the authenticated agent (a printer of another agent included) leaves
    the printers and metrics tables as they were, in Server/routes/data.js
    and in api.js; it is answered 404 "Printer not found" when the
    [printer_id] is missing or an [INTEGER] value, and 500 "Server error"
    when it lies outside the [INTEGER] range (the ownership SELECT fails). *)
Theorem metrics_push_foreign_printer_rejected : forall json_parse s h k b d,
  header_api_key h = Some k -> k <> "" ->
  (exists a, In a (agents s) /\ a_api_key a = k) ->
  b_type b = Some "metrics" -> b_data b = Some d ->
  (forall a p, In a (agents s) -> a_api_key a = k -> In p (printers s) ->
     b_printer_id b = Some (p_id p) -> p_agent_id p <> a_id a) ->
  (let (s', r) := run (data_post json_parse h b) s in
   r = (if opt_ok int4_ok (b_printer_id b)
        then res_error 404 "Printer not found" else res_error 500 "Server error") /\
   printers s' = printers s /\ metrics s' = metrics s) /\
  (let (s', r) := run (api_data_post json_parse h b) s in
   r = (if opt_ok int4_ok (b_printer_id b)
        then res_error 404 "Printer not found" else res_error 500 "Server error") /\
   printers s' = printers s /\ metrics s' = metrics s).
Proof.
  intros json_parse s h k b d Hk Hne Hex Ht Hd Hown.
  destruct (agents_with_key_cons s k Hex) as [a [rest [Hf Ha]]].
  assert (Hin : In a (agents s)).
  { assert (In a (agents_with_key s k)) as Hin by (rewrite Hf; left; reflexivity).
    unfold agents_with_key in Hin. apply filter_In in Hin. apply Hin. }
  assert (Hnil := printers_owned_nil (printers s) (b_printer_id b) (a_id a)
                    (fun p Hp Hid => Hown a p Hin Ha Hp Hid)).
  unfold run, data_post, api_data_post.
  rewrite !(auth_found h _ s k a rest Hk Hne Hf).
  unfold catch_500, try_catch, data_ingest, api_data_ingest.
  rewrite Ht, Hd. unfold bind, printers_owned.
  destruct (opt_ok int4_ok (b_printer_id b)); simpl; [rewrite Hnil|];
  split; (split; [reflexivity|split; reflexivity]).
Qed.

Lemma metrics_push_foreign_printer_rejected_witness :
  let b := mkDataBody (Some "metrics") (Some 2) (Some metrics_payload) in
  header_api_key (bearer "k1") = Some "k1" /\
  (let (s', r) := run (data_post no_json (bearer "k1") b) alice_db in
   r = (if opt_ok int4_ok (b_printer_id b)
        then res_error 404 "Printer not found" else res_error 500 "Server error") /\
   printers s' = printers alice_db /\ metrics s' = metrics alice_db) /\
  (let (s', r) := run (api_data_post no_json (bearer "k1") b) alice_db in
   r = (if opt_ok int4_ok (b_printer_id b)
        then res_error 404 "Printer not found" else res_error 500 "Server error") /\
   printers s' = printers alice_db /\ metrics s' = metrics alice_db).
Proof.
  cbv zeta. split; [reflexivity|].
  apply (metrics_push_foreign_printer_rejected no_json alice_db (bearer "k1") "k1"
           (mkDataBody (Some "metrics") (Some 2) (Some metrics_payload)) metrics_payload);
    [reflexivity|discriminate| |reflexivity|reflexivity|].
  - eexists. split; [left; reflexivity|reflexivity].
  - intros a p Ha Hk Hp Hid. simpl in Ha, Hp.
    destruct Ha as [<-|[<-|[]]]; [|discriminate].
    destruct Hp as [<-|[<-|[]]]; simpl in *; [discriminate|]. discriminate.
Defined.

(** A metrics push for printer 3000000000, which no printer of agent 1 has:
    the value lies outside the [INTEGER] range, the ownership SELECT fails
    and both routes answer 500 "Server error", not 404. *)
Lemma metrics_push_out_of_range_printer_500 :
  let b := mkDataBody (Some "metrics") (Some 3000000000) (Some metrics_payload) in
  (forall p, In p (printers alice_db) -> b_printer_id b <> Some (p_id p)) /\
  snd (run (data_post no_json (bearer "k1") b) alice_db) = res_error 500 "Server error" /\
  snd (run (api_data_post no_json (bearer "k1") b) alice_db) = res_error 500 "Server error".
Proof.
  cbv zeta. split.
  - intros p Hp. simpl in Hp. destruct Hp as [<-|[<-|[]]]; simpl; discriminate.
  - split; vm_compute; reflexivity.
Qed.

(** ** Stability of handlers under a transitive relation *)

(** Case analysis on every [match] of the goal. *)
Ltac destr_goal :=
  repeat match goal with
  | |- context [match ?x with _ => _ end] => destruct x
  end.

Section Stable.

Variable R : db -> db -> Prop.
Hypothesis R_refl : forall s, R s s.
Hypothesis R_trans : forall s1 s2 s3, R s1 s2 -> R s2 s3 -> R s1 s3.

Lemma stable_ret : forall A (a : A), stable R (ret a).
Proof. intros A a s. apply R_refl. Qed.

Lemma stable_throw : forall A, stable R (@throw A).
Proof. intros A s. apply R_refl. Qed.

Lemma stable_reader : forall A (m : M A), (forall s, snd (m s) = s) -> stable R m.
Proof. intros A m H s. rewrite H. apply R_refl. Qed.

Lemma stable_bind : forall A B (m : M A) (k : A -> M B),
  stable R m -> (forall a, stable R (k a)) -> stable R (bind m k).
Proof.
  intros A B m k Hm Hk s. unfold bind. specialize (Hm s).
  destruct (m s) as [[a|] s'] eqn:E; simpl in *.
  - eapply R_trans; [exact Hm|apply Hk].
  - exact Hm.
Qed.

Lemma stable_try_catch : forall A (m : M A) h, stable R m -> stable R (try_catch m h).
Proof.
  intros A m h Hm s. unfold try_catch. specialize (Hm s).
  destruct (m s) as [[a|] s']; exact Hm.
Qed.

Lemma stable_run : forall (m : M response) s, stable R m -> R s (fst (run m s)).
Proof.
  intros m s Hm. unfold run. specialize (Hm s). destruct (m s) as [[r|] s']; exact Hm.
Qed.

Lemma stable_agents_by_api_key : forall k, stable R (agents_by_api_key k).
Proof. intros k. apply stable_reader. reflexivity. Qed.

Lemma stable_agents_by_agent_id : forall k, stable R (agents_by_agent_id k).
Proof. intros k. apply stable_reader. reflexivity. Qed.

Lemma stable_printers_owned : forall pid aid, stable R (printers_owned pid aid).
Proof.
  intros pid aid. apply stable_reader. intros s. unfold printers_owned.
  destruct (opt_ok int4_ok pid); reflexivity.
Qed.

Lemma stable_printers_by_ip : forall ip aid, stable R (printers_by_ip ip aid).
Proof. intros ip aid. apply stable_reader. reflexivity. Qed.

Lemma stable_now : stable R now.
Proof. apply stable_reader. reflexivity. Qed.

Lemma stable_parse_opt : forall jp x, stable R (parse_opt jp x).
Proof.
  intros jp [v|]; unfold parse_opt; [|apply stable_ret].
  destruct (String.eqb v ""); [apply stable_ret|].
  destruct (jp v); [apply stable_ret|apply stable_throw].
Qed.

End Stable.

Create HintDb stable.
#[export] Hint Resolve stable_ret stable_throw stable_agents_by_api_key
  stable_agents_by_agent_id stable_printers_owned stable_printers_by_ip stable_now
  stable_parse_opt : stable.

(** Splits a handler into its statements. *)
Ltac stable_split :=
  repeat match goal with
  | |- stable _ (bind _ _) => apply stable_bind; [solve [eauto with stable]| |intro]
  | |- stable _ (try_catch _ _) => apply stable_try_catch
  | |- stable _ (catch_500 _ _) => apply stable_try_catch
  | |- stable _ (let _ := _ in _) => cbv zeta
  | |- stable _ (match ?x with _ => _ end) => destruct x
  | |- stable _ (if ?b then _ else _) => destruct b
  | |- stable _ _ => solve [eauto with stable]
  end.

(** *** The (agent_id, api_key) pairs only grow *)

Lemma keys_grow_refl : forall s, keys_grow s s.
Proof. intros s. exists []. rewrite app_nil_r. reflexivity. Qed.

Lemma keys_grow_trans : forall s1 s2 s3, keys_grow s1 s2 -> keys_grow s2 s3 -> keys_grow s1 s3.
Proof.
  intros s1 s2 s3 [l1 H1] [l2 H2]. exists (l1 ++ l2)%list. rewrite H2, H1, app_assoc.
  reflexivity.
Qed.

Lemma keys_grow_same : forall A (m : M A),
  (forall s, key_pairs (snd (m s)) = key_pairs s) -> stable keys_grow m.
Proof. intros A m H s. exists []. rewrite H, app_nil_r. reflexivity. Qed.

Lemma keys_update_agent_last_seen : forall id, stable keys_grow (update_agent_last_seen id).
Proof.
  intros id. apply keys_grow_same. intros s. unfold key_pairs. simpl.
  rewrite map_map. apply map_ext. intros a. unfold touch_agent.
  destruct (a_id a =? id); reflexivity.
Qed.

Lemma keys_update_agent_on_register : forall n h i o v aid,
  stable keys_grow (update_agent_on_register n h i o v aid).
Proof.
  intros n h i o v aid. apply keys_grow_same. intros s. unfold key_pairs. simpl.
  rewrite map_map. apply map_ext. intros a. unfold reregister_agent.
  destruct (String.eqb_spec (a_agent_id a) aid) as [E|_]; simpl; [rewrite E|]; reflexivity.
Qed.

Lemma keys_api_update_agent_on_register : forall n h i o v aid,
  stable keys_grow (api_update_agent_on_register n h i o v aid).
Proof.
  intros n h i o v aid. apply keys_grow_same. intros s. unfold key_pairs. simpl.
  rewrite map_map. apply map_ext. intros a. unfold api_reregister_agent.
  destruct (String.eqb_spec (a_agent_id a) aid) as [E|_]; simpl; [rewrite E|]; reflexivity.
Qed.

Lemma keys_insert_agent : forall aid n h i o v k,
  stable keys_grow (insert_agent aid n h i o v k).
Proof.
  intros aid n h i o v k s. unfold insert_agent.
  destruct (_ || _); simpl; [apply keys_grow_refl|].
  exists [(aid, k)]. unfold key_pairs. simpl. rewrite map_app. reflexivity.
Qed.

Lemma keys_update_printer_status : forall st pid, stable keys_grow (update_printer_status st pid).
Proof. intros st pid. apply keys_grow_same. intros s. unfold update_printer_status. destr_goal; reflexivity. Qed.

Lemma keys_update_printer_identity : forall a b c pid,
  stable keys_grow (update_printer_identity a b c pid).
Proof. intros a b c pid. apply keys_grow_same. reflexivity. Qed.

Lemma keys_insert_printer : forall aid ip a b c, stable keys_grow (insert_printer aid ip a b c).
Proof.
  intros aid ip a b c. apply keys_grow_same. intros s. unfold insert_printer.
  destr_goal; reflexivity.
Qed.

Lemma keys_insert_metric : forall pid ts pc tl st er raw,
  stable keys_grow (insert_metric pid ts pc tl st er raw).
Proof.
  intros. apply keys_grow_same. intros s. unfold insert_metric.
  destr_goal; reflexivity.
Qed.

#[export] Hint Resolve keys_grow_refl keys_grow_trans keys_update_agent_last_seen
  keys_update_agent_on_register keys_api_update_agent_on_register keys_insert_agent
  keys_update_printer_status keys_update_printer_identity keys_insert_printer
  keys_insert_metric : stable.

Lemma keys_authenticate_agent : forall h next,
  (forall a, stable keys_grow (next a)) -> stable keys_grow (authenticate_agent h next).
Proof.
  intros h next Hn. unfold authenticate_agent, authenticate_agent_db. stable_split.
Qed.

Lemma keys_server_handle : forall jp r, stable keys_grow (server_handle jp r).
Proof.
  intros jp [b k|h b|h]; simpl.
  - unfold register_post. stable_split.
  - unfold data_post. apply keys_authenticate_agent. intros a.
    unfold data_ingest. stable_split.
  - unfold data_config. apply keys_authenticate_agent. intros a. stable_split.
Qed.

Lemma keys_api_handle : forall jp r, stable keys_grow (api_handle jp r).
Proof.
  intros jp [b k|h b|h]; simpl.
  - unfold api_register_post. stable_split.
  - unfold api_data_post. apply keys_authenticate_agent. intros a.
    unfold api_data_ingest. stable_split.
  - stable_split.
Qed.

Lemma keys_set_clock : forall s t, key_pairs (set_clock s t) = key_pairs s.
Proof. reflexivity. Qed.

Lemma keys_server_serve : forall jp s reqs, keys_grow s (server_serve jp s reqs).
Proof.
  intros jp s reqs. revert s. induction reqs as [|[t r] reqs IH]; intros s; simpl.
  - apply keys_grow_refl.
  - eapply keys_grow_trans; [|apply IH].
    apply keys_grow_trans with (s2 := set_clock s t).
    + exists []. rewrite keys_set_clock, app_nil_r. reflexivity.
    + apply (stable_run keys_grow), keys_server_handle.
Qed.

Lemma keys_api_serve : forall jp s reqs, keys_grow s (api_serve jp s reqs).
Proof.
  intros jp s reqs. revert s. induction reqs as [|[t r] reqs IH]; intros s; simpl.
  - apply keys_grow_refl.
  - eapply keys_grow_trans; [|apply IH].
    apply keys_grow_trans with (s2 := set_clock s t).
    + exists []. rewrite keys_set_clock, app_nil_r. reflexivity.
    + apply (stable_run keys_grow), keys_api_handle.
Qed.

Lemma lookup_key_app : forall l l' aid k,
  lookup_key l aid = Some k -> lookup_key (l ++ l') aid = Some k.
Proof.
  intros l l' aid k. induction l as [|[x k'] l IH]; simpl; [discriminate|].
  destruct (String.eqb x aid); [trivial|exact IH].
Qed.

Lemma lookup_key_grow : forall s s' aid k,
  keys_grow s s' -> lookup_key (key_pairs s) aid = Some k -> lookup_key (key_pairs s') aid = Some k.
Proof. intros s s' aid k [l H] Hk. rewrite H. apply lookup_key_app. exact Hk. Qed.

Lemma lookup_key_filter : forall l aid,
  lookup_key (map (fun a => (a_agent_id a, a_api_key a)) l) aid
  = match filter (fun a => String.eqb (a_agent_id a) aid) l with
    | a :: _ => Some (a_api_key a)
    | [] => None
    end.
Proof.
  intros l aid. induction l as [|a l IH]; simpl; [reflexivity|].
  destruct (String.eqb (a_agent_id a) aid); [reflexivity|exact IH].
Qed.

Lemma lookup_key_none_app : forall l aid k,
  lookup_key l aid = None -> lookup_key (l ++ [(aid, k)]) aid = Some k.
Proof.
  intros l aid k. induction l as [|[x k'] l IH]; simpl.
  - rewrite String.eqb_refl. reflexivity.
  - destruct (String.eqb x aid); [discriminate|exact IH].
Qed.

Lemma count_filter_map : forall (f : agent -> agent) aid l,
  (forall a, a_agent_id (f a) = a_agent_id a) ->
  length (filter (fun a => String.eqb (a_agent_id a) aid) (map f l))
  = length (filter (fun a => String.eqb (a_agent_id a) aid) l).
Proof.
  intros f aid l Hf. induction l as [|a l IH]; simpl; [reflexivity|].
  rewrite Hf. destruct (String.eqb (a_agent_id a) aid); simpl; rewrite IH; reflexivity.
Qed.

Lemma key_pairs_reregister : forall s n h i o v aid t,
  key_pairs (set_agents s (map (reregister_agent n h i o v aid t) (agents s))) = key_pairs s.
Proof.
  intros. unfold key_pairs. simpl. rewrite map_map. apply map_ext. intros a.
  unfold reregister_agent.
  destruct (String.eqb_spec (a_agent_id a) aid) as [E|_]; simpl; [rewrite E|]; reflexivity.
Qed.

Lemma key_pairs_api_reregister : forall s n h i o v aid t,
  key_pairs (set_agents s (map (api_reregister_agent n h i o v aid t) (agents s))) = key_pairs s.
Proof.
  intros. unfold key_pairs. simpl. rewrite map_map. apply map_ext. intros a.
  unfold api_reregister_agent.
  destruct (String.eqb_spec (a_agent_id a) aid) as [E|_]; simpl; [rewrite E|]; reflexivity.
Qed.

(** The shape shared by both registration handlers. *)
Ltac register_cases Hb Hrun Hst :=
  unfold run, catch_500, try_catch in Hrun; rewrite Hb in Hrun;
  let name := fresh "name" in
  let E := fresh "E" in
  let F := fresh "F" in
  let X := fresh "X" in
  destruct (r_name _) as [name|];
  [|injection Hrun as <- <-; discriminate];
  destruct (String.eqb _ "" || String.eqb name "") eqn:E;
  [injection Hrun as <- <-; discriminate|];
  unfold bind, agents_by_agent_id in Hrun; simpl in Hrun;
  destruct (filter (fun a => String.eqb (a_agent_id a) _) (agents _)) as [|a rest] eqn:F;
  [ unfold insert_agent in Hrun; simpl in Hrun;
    destruct (existsb _ _ || existsb _ _) eqn:X;
    [injection Hrun as <- <-; discriminate|injection Hrun as <- <-]
  | simpl in Hrun; injection Hrun as <- <- ].

Lemma register_post_ok : forall b k s s' r aid,
  r_agent_id b = Some aid -> run (register_post b k) s = (s', r) -> status r = 200 ->
  exists key, token_of r = Some (JStr key) /\ lookup_key (key_pairs s') aid = Some key.
Proof.
  intros b k s s' r aid Hb Hrun Hst. unfold register_post in Hrun.
  register_cases Hb Hrun Hst.
  - exists k. split; [reflexivity|]. unfold key_pairs. simpl. rewrite map_app.
    apply lookup_key_none_app. rewrite lookup_key_filter, F. reflexivity.
  - exists (a_api_key a). split; [reflexivity|].
    rewrite key_pairs_reregister. unfold key_pairs. rewrite lookup_key_filter, F.
    reflexivity.
Qed.

Lemma api_register_post_ok : forall b k s s' r aid,
  r_agent_id b = Some aid -> run (api_register_post b k) s = (s', r) -> status r = 200 ->
  exists key, token_of r = Some (JStr key) /\ lookup_key (key_pairs s') aid = Some key.
Proof.
  intros b k s s' r aid Hb Hrun Hst. unfold api_register_post in Hrun.
  register_cases Hb Hrun Hst.
  - exists k. split; [reflexivity|]. unfold key_pairs. simpl. rewrite map_app.
    apply lookup_key_none_app. rewrite lookup_key_filter, F. reflexivity.
  - exists (a_api_key a). split; [reflexivity|].
    rewrite key_pairs_api_reregister. unfold key_pairs. rewrite lookup_key_filter, F.
    reflexivity.
Qed.

Lemma register_post_existing : forall b k s s' r aid key,
  r_agent_id b = Some aid -> lookup_key (key_pairs s) aid = Some key ->
  run (register_post b k) s = (s', r) -> status r = 200 ->
  token_of r = Some (JStr key) /\ count_agents s' aid = count_agents s aid.
Proof.
  intros b k s s' r aid key Hb Hk Hrun Hst. unfold register_post in Hrun.
  unfold key_pairs in Hk. rewrite lookup_key_filter in Hk.
  register_cases Hb Hrun Hst.
  - discriminate.
  - injection Hk as <-. split; [reflexivity|].
    unfold count_agents. simpl. apply count_filter_map.
    intros a'. unfold reregister_agent. destruct (String.eqb (a_agent_id a') aid); reflexivity.
Qed.

Lemma api_register_post_existing : forall b k s s' r aid key,
  r_agent_id b = Some aid -> lookup_key (key_pairs s) aid = Some key ->
  run (api_register_post b k) s = (s', r) -> status r = 200 ->
  token_of r = Some (JStr key) /\ count_agents s' aid = count_agents s aid.
Proof.
  intros b k s s' r aid key Hb Hk Hrun Hst. unfold api_register_post in Hrun.
  unfold key_pairs in Hk. rewrite lookup_key_filter in Hk.
  register_cases Hb Hrun Hst.
  - discriminate.
  - injection Hk as <-. split; [reflexivity|].
    unfold count_agents. simpl. apply count_filter_map.
    intros a'. unfold api_reregister_agent.
    destruct (String.eqb (a_agent_id a') aid); reflexivity.
Qed.

(** C1: registration is idempotent in the api_key.  If a registration of
    [agent_id] succeeds, and a later one for the same [agent_id] succeeds
    after any agent requests served in between, both responses carry the
    same token, and the later one adds no agent row for that [agent_id];
    in Server/routes/agents.js and in api.js alike.  ([k1], [k2] are the
    keys [generateApiKey()] draws for each call.) *)
Theorem register_idempotent : forall jp s b1 k1 s1 r1 reqs b2 k2 s2 r2 aid,
  r_agent_id b1 = Some aid -> r_agent_id b2 = Some aid ->
  status r1 = 200 -> status r2 = 200 ->
  (run (register_post b1 k1) s = (s1, r1) ->
   run (register_post b2 k2) (server_serve jp s1 reqs) = (s2, r2) ->
   token_of r1 = token_of r2 /\
   count_agents s2 aid = count_agents (server_serve jp s1 reqs) aid) /\
  (run (api_register_post b1 k1) s = (s1, r1) ->
   run (api_register_post b2 k2) (api_serve jp s1 reqs) = (s2, r2) ->
   token_of r1 = token_of r2 /\
   count_agents s2 aid = count_agents (api_serve jp s1 reqs) aid).
Proof.
  intros jp s b1 k1 s1 r1 reqs b2 k2 s2 r2 aid Hb1 Hb2 Hst1 Hst2. split.
  - intros H1 H2.
    destruct (register_post_ok b1 k1 s s1 r1 aid Hb1 H1 Hst1) as [key [Ht Hk]].
    apply (lookup_key_grow _ _ _ _ (keys_server_serve jp s1 reqs)) in Hk.
    destruct (register_post_existing b2 k2 _ s2 r2 aid key Hb2 Hk H2 Hst2) as [Ht2 Hc].
    split; [congruence|exact Hc].
  - intros H1 H2.
    destruct (api_register_post_ok b1 k1 s s1 r1 aid Hb1 H1 Hst1) as [key [Ht Hk]].
    apply (lookup_key_grow _ _ _ _ (keys_api_serve jp s1 reqs)) in Hk.
    destruct (api_register_post_existing b2 k2 _ s2 r2 aid key Hb2 Hk H2 Hst2) as [Ht2 Hc].
    split; [congruence|exact Hc].
Qed.

Lemma register_idempotent_witness :
  let reqs := [(5, DataReq (bearer "k1") (mkDataBody (Some "printer_discovery") None
                                            (Some (ident_payload "10.0.0.5" None))))] in
  let s1 := fst (run (register_post (reg_body "a1") "k1") empty_db) in
  let r1 := snd (run (register_post (reg_body "a1") "k1") empty_db) in
  let s2 := fst (run (register_post (reg_body "a1") "k2") (server_serve no_json s1 reqs)) in
  let r2 := snd (run (register_post (reg_body "a1") "k2") (server_serve no_json s1 reqs)) in
  status r1 = 200 /\ status r2 = 200 /\
  token_of r1 = token_of r2 /\
  count_agents s2 "a1" = count_agents (server_serve no_json s1 reqs) "a1".
Proof.
  intros reqs s1 r1 s2 r2.
  assert (Hst1 : status r1 = 200) by reflexivity.
  assert (Hst2 : status r2 = 200) by reflexivity.
  destruct (register_idempotent no_json empty_db (reg_body "a1") "k1" s1 r1 reqs
              (reg_body "a1") "k2" s2 r2 "a1" eq_refl eq_refl Hst1 Hst2) as [H _].
  split; [exact Hst1|]. split; [exact Hst2|].
  apply H; symmetry; apply surjective_pairing.
Defined.

(** *** Metrics rows are only ever appended *)

Lemma parse_opt_cases : forall jp x s,
  parse_opt jp x s = (Throw, s) \/ exists v, parse_opt jp x s = (Ret v, s).
Proof.
  intros jp [v|] s; unfold parse_opt; [|right; eexists; reflexivity].
  destruct (String.eqb v ""); [right; eexists; reflexivity|].
  destruct (jp v); [right; eexists; reflexivity|left; reflexivity].
Qed.

Lemma insert_metric_cases : forall pid ts pc tl st er raw s,
  (exists s', insert_metric pid ts pc tl st er raw s = (Throw, s') /\ metrics s' = metrics s) \/
  exists s' m, insert_metric pid ts pc tl st er raw s = (Ret tt, s') /\
               metrics s' = (metrics s ++ [m])%list /\ m_printer_id m = pid /\
               varchar 50 st <> None.
Proof.
  intros. unfold insert_metric.
  destruct (negb _); [left; eexists; split; reflexivity|].
  destruct (varchar 50 st) as [st'|] eqn:Hst; [|left; eexists; split; reflexivity].
  destruct (varchar 100 er) as [er'|]; [|left; eexists; split; reflexivity].
  destruct ts as [t|]; [|left; eexists; split; reflexivity].
  destruct (match pid with Some _ => _ | None => _ end); [left; eexists; split; reflexivity|].
  right. do 2 eexists. split; [reflexivity|]. split; [reflexivity|].
  split; [reflexivity|discriminate].
Qed.

Lemma or_default_varchar : forall st,
  varchar 50 st <> None -> varchar_str 50 (or_default st "unknown") <> None.
Proof.
  intros [v|] H; [|discriminate]. simpl.
  destruct (String.eqb v ""); [discriminate|].
  unfold varchar, option_map in H. destruct (varchar_str 50 v); congruence.
Qed.

Lemma update_printer_status_ok : forall st pid s,
  opt_ok int4_ok pid = true -> varchar_str 50 st <> None ->
  exists s', update_printer_status st pid s = (Ret tt, s') /\ metrics s' = metrics s.
Proof.
  intros st pid s Hp Hs. unfold update_printer_status. rewrite Hp. simpl.
  destruct (varchar_str 50 st); [|congruence]. eexists. split; reflexivity.
Qed.

Lemma metrics_update_printer_status : forall st pid s,
  metrics (snd (update_printer_status st pid s)) = metrics s.
Proof. intros. unfold update_printer_status. destr_goal; reflexivity. Qed.

Lemma metrics_update_printer_identity : forall a b c pid s,
  metrics (snd (update_printer_identity a b c pid s)) = metrics s.
Proof. reflexivity. Qed.

Lemma metrics_insert_printer : forall aid ip a b c s,
  metrics (snd (insert_printer aid ip a b c s)) = metrics s.
Proof. intros. unfold insert_printer. destr_goal; reflexivity. Qed.

Lemma data_ingest_metrics : forall jp aid b s,
  metrics_outcome b (fst (data_ingest jp aid b s)) s (snd (data_ingest jp aid b s)).
Proof.
  intros jp aid [ty pid dd] s. unfold data_ingest, metrics_outcome, type_is. simpl.
  destruct ty as [ty|]; [|left; split; [reflexivity|intros r _ H; discriminate]].
  destruct dd as [d|]; [|left; split; [reflexivity|intros r [= <-] _; discriminate]].
  destruct (String.eqb_spec ty "") as [->|Hne].
  { left; split; [reflexivity|intros r [= <-] _; discriminate]. }
  destruct (String.eqb_spec ty "metrics") as [->|Hnm].
  - unfold bind, printers_owned.
    destruct (opt_ok int4_ok pid) eqn:Hpid; [|left; split; [reflexivity|intros r [=]]].
    cbn -[parse_opt insert_metric update_printer_status].
    destruct (map p_id _) as [|i rest].
    { left; split; [reflexivity|intros r [= <-] _; discriminate]. }
    destruct (parse_opt_cases jp (d_toner_levels d) s) as [E|[v E]]; rewrite E;
      [left; split; [reflexivity|intros r [=]]|].
    destruct (parse_opt_cases jp (d_raw_data d) s) as [E'|[v' E']]; rewrite E';
      [left; split; [reflexivity|intros r [=]]|].
    match goal with |- context [insert_metric ?a ?b ?c ?d ?e ?f ?g s] =>
      destruct (insert_metric_cases a b c d e f g s)
        as [[s0 [E'' Hm0]]|[s' [m [E'' [Hm [Hid Hst]]]]]];
      rewrite E'' end;
      [left; split; [exact Hm0|intros r [=]]|].
    destruct (update_printer_status_ok (or_default (d_status d) "unknown") pid s' Hpid
                (or_default_varchar _ Hst)) as [s'' [Hu Hm']].
    cbn -[update_printer_status]. rewrite Hu.
    right. split; [reflexivity|]. split; [reflexivity|].
    exists m. split; [|exact Hid]. simpl. rewrite Hm'. exact Hm.
  - left. split; [|intros r _ [=]].
    destruct (_ || _); [|reflexivity]. destruct (negb _); [reflexivity|].
    unfold bind, printers_by_ip. cbn -[insert_printer update_printer_identity].
    destruct (map p_id _) as [|i rest].
    + match goal with |- context [insert_printer ?a ?b ?c ?d ?e s] =>
        pose proof (metrics_insert_printer a b c d e s) as Hm;
        destruct (insert_printer a b c d e s) as [[x|] s'] end; exact Hm.
    + reflexivity.
Qed.

Lemma api_data_ingest_metrics : forall jp aid b s,
  metrics_outcome b (fst (api_data_ingest jp aid b s)) s (snd (api_data_ingest jp aid b s)).
Proof.
  intros jp aid [ty pid dd] s. unfold api_data_ingest, metrics_outcome, type_is. simpl.
  destruct ty as [ty|]; [|left; split; [reflexivity|intros r _ H; discriminate]].
  destruct dd as [d|]; [|left; split; [reflexivity|intros r [= <-] _; discriminate]].
  destruct (String.eqb_spec ty "") as [->|Hne].
  { left; split; [reflexivity|intros r [= <-] _; discriminate]. }
  destruct (String.eqb_spec ty "metrics") as [->|Hnm].
  - unfold bind, printers_owned.
    destruct (opt_ok int4_ok pid) eqn:Hpid; [|left; split; [reflexivity|intros r [=]]].
    cbn -[parse_opt insert_metric update_printer_status].
    destruct (map p_id _) as [|i rest].
    { left; split; [reflexivity|intros r [= <-] _; discriminate]. }
    destruct (parse_opt_cases jp (d_toner_levels d) s) as [E|[v E]]; rewrite E;
      [left; split; [reflexivity|intros r [=]]|].
    destruct (parse_opt_cases jp (d_raw_data d) s) as [E'|[v' E']]; rewrite E';
      [left; split; [reflexivity|intros r [=]]|].
    match goal with |- context [insert_metric ?a ?b ?c ?d ?e ?f ?g s] =>
      destruct (insert_metric_cases a b c d e f g s)
        as [[s0 [E'' Hm0]]|[s' [m [E'' [Hm [Hid Hst]]]]]];
      rewrite E'' end;
      [left; split; [exact Hm0|intros r [=]]|].
    destruct (update_printer_status_ok (or_default (d_status d) "unknown") pid s' Hpid
                (or_default_varchar _ Hst)) as [s'' [Hu Hm']].
    cbn -[update_printer_status]. rewrite Hu.
    right. split; [reflexivity|]. split; [reflexivity|].
    exists m. split; [|exact Hid]. simpl. rewrite Hm'. exact Hm.
  - left. split; [|intros r _ [=]].
    destruct (String.eqb _ _); [|reflexivity].
    unfold bind, printers_by_ip. cbn -[insert_printer update_printer_identity].
    destruct (map p_id _) as [|i rest].
    + match goal with |- context [insert_printer ?a ?b ?c ?d ?e s] =>
        pose proof (metrics_insert_printer a b c d e s) as Hm;
        destruct (insert_printer a b c d e s) as [[x|] s'] end; exact Hm.
    + reflexivity.
Qed.

Lemma metrics_outcome_throw : forall b s s',
  metrics_outcome b Throw s s' -> metrics s' = metrics s.
Proof.
  intros b s s' [[H _]|[_ [H _]]]; [exact H|discriminate].
Qed.

(** Authentication, then an ingestion handler under [catch_500]. *)
Lemma authenticated_metrics : forall h b (ingest : Z -> M response) s,
  (forall aid s, metrics_outcome b (fst (ingest aid s)) s (snd (ingest aid s))) ->
  let (s', r) := run (authenticate_agent h (fun a => catch_500 "Server error" (ingest (a_id a))))
                     s in
  metrics_outcome b (Ret r) s s'.
Proof.
  intros h b ingest s Hi. unfold run, authenticate_agent.
  destruct (header_api_key h) as [k|];
    [|left; split; [reflexivity|intros r [= <-] _; discriminate]].
  destruct (String.eqb k ""); [left; split; [reflexivity|intros r [= <-] _; discriminate]|].
  unfold bind, authenticate_agent_db, try_catch, bind, agents_by_api_key.
  cbn.
  destruct (filter _ _) as [|a rest];
    [left; split; [reflexivity|intros r [= <-] _; discriminate]|].
  unfold catch_500, try_catch. simpl.
  match goal with |- context [ingest (a_id a) ?s1] =>
    specialize (Hi (a_id a) s1); destruct (ingest (a_id a) s1) as [[r|] s'] end;
  simpl in Hi.
  - exact Hi.
  - left. split; [exact (metrics_outcome_throw _ _ _ Hi)|].
    intros r [= <-] _. discriminate.
Qed.

Lemma metrics_outcome_ret : forall b r s s',
  metrics_outcome b (Ret r) s s' ->
  (type_is b "metrics" = true /\ status r = 200 /\
   exists m, metrics s' = (metrics s ++ [m])%list /\ m_printer_id m = b_printer_id b) \/
  (metrics s' = metrics s /\ (type_is b "metrics" = true -> status r <> 200)).
Proof.
  intros b r s s' [[H1 H2]|[Ht [[= ->] Hm]]].
  - right. split; [exact H1|]. intros Ht. apply (H2 r eq_refl Ht).
  - left. split; [exact Ht|]. split; [reflexivity|exact Hm].
Qed.

(** C5: metrics rows are append-only.  A [POST /api/data] either is a
    metrics push answered 200 that appended exactly one row (for the
    pushed printer) after the rows already stored, or left the metrics
    table exactly as it was; in Server/routes/data.js and in api.js. *)
Theorem metrics_append_only : forall jp h b s,
  (let (s', r) := run (data_post jp h b) s in
   (type_is b "metrics" = true /\ status r = 200 /\
    exists m, metrics s' = (metrics s ++ [m])%list /\ m_printer_id m = b_printer_id b) \/
   (metrics s' = metrics s /\ (type_is b "metrics" = true -> status r <> 200))) /\
  (let (s', r) := run (api_data_post jp h b) s in
   (type_is b "metrics" = true /\ status r = 200 /\
    exists m, metrics s' = (metrics s ++ [m])%list /\ m_printer_id m = b_printer_id b) \/
   (metrics s' = metrics s /\ (type_is b "metrics" = true -> status r <> 200))).
Proof.
  intros jp h b s. split.
  - pose proof (authenticated_metrics h b (fun aid => data_ingest jp aid b) s
                  (fun aid s => data_ingest_metrics jp aid b s)) as H.
    unfold data_post. destruct (run _ s) as [s' r]. apply metrics_outcome_ret, H.
  - pose proof (authenticated_metrics h b (fun aid => api_data_ingest jp aid b) s
                  (fun aid s => api_data_ingest_metrics jp aid b s)) as H.
    unfold api_data_post. destruct (run _ s) as [s' r]. apply metrics_outcome_ret, H.
Qed.

Example metrics_push_appends :
  let b := mkDataBody (Some "metrics") (Some 1) (Some metrics_payload) in
  let (s', r) := run (data_post no_json (bearer "k1") b) alice_db in
  status r = 200 /\ length (metrics s') = 1%nat.
Proof. split; reflexivity. Qed.

(** *** Known identity columns are kept *)

Lemma column_kept_refl : forall x y, column_kept x y y.
Proof. intros. left. reflexivity. Qed.

Lemma column_kept_trans : forall x a b c,
  column_kept x a b -> column_kept x b c -> column_kept x a c.
Proof.
  intros x a b c [->|[v [Hx ->]]] [->|[w [Hx' ->]]]; unfold column_kept; eauto.
Qed.

Lemma identity_kept_refl : forall d p, identity_kept d p p.
Proof. intros. repeat split; apply column_kept_refl. Qed.

Lemma identity_kept_trans : forall d p1 p2 p3,
  identity_kept d p1 p2 -> identity_kept d p2 p3 -> identity_kept d p1 p3.
Proof.
  intros d p1 p2 p3 [I1 [S1 [M1 N1]]] [I2 [S2 [M2 N2]]].
  split; [congruence|]. split; [eapply column_kept_trans; eassumption|].
  split; eapply column_kept_trans; eassumption.
Qed.

Lemma Forall2_identity_refl : forall d l, Forall2 (identity_kept d) l l.
Proof. intros d l. induction l; constructor; [apply identity_kept_refl|assumption]. Qed.

Lemma Forall2_identity_trans : forall d l1 l2 l3,
  Forall2 (identity_kept d) l1 l2 -> Forall2 (identity_kept d) l2 l3 ->
  Forall2 (identity_kept d) l1 l3.
Proof.
  intros d l1 l2 l3 H12. revert l3.
  induction H12 as [|x y l1 l2 Hxy H IH]; intros l3 H23; inversion H23; subst;
    constructor; [eapply identity_kept_trans; eassumption|apply IH; assumption].
Qed.

Lemma identity_grow_refl : forall d s, identity_grow d s s.
Proof.
  intros d s. exists (printers s), []. split; [apply Forall2_identity_refl|].
  rewrite app_nil_r. reflexivity.
Qed.

Lemma identity_grow_trans : forall d s1 s2 s3,
  identity_grow d s1 s2 -> identity_grow d s2 s3 -> identity_grow d s1 s3.
Proof.
  intros d s1 s2 s3 [l1 [e1 [H1 E1]]] [l2 [e2 [H2 E2]]].
  rewrite E1 in H2. apply Forall2_app_inv_l in H2 as [l2a [l2b [Ha [Hb ->]]]].
  exists l2a, (l2b ++ e2)%list. split.
  - eapply Forall2_identity_trans; eassumption.
  - rewrite E2, app_assoc. reflexivity.
Qed.

Lemma identity_grow_eq : forall d s s', printers s' = printers s -> identity_grow d s s'.
Proof.
  intros d s s' H. exists (printers s), []. rewrite H, app_nil_r.
  split; [apply Forall2_identity_refl|reflexivity].
Qed.

Lemma identity_grow_same : forall d A (m : M A),
  (forall s, printers (snd (m s)) = printers s) -> stable (identity_grow d) m.
Proof.
  intros d A m H s. exists (printers s), []. rewrite H, app_nil_r.
  split; [apply Forall2_identity_refl|reflexivity].
Qed.

Lemma Forall2_identity_map : forall d (f : printer -> printer) l,
  (forall p, identity_kept d p (f p)) -> Forall2 (identity_kept d) l (map f l).
Proof. intros d f l H. induction l; constructor; auto. Qed.

Lemma identity_grow_map : forall d (f : db -> printer -> printer),
  (forall s p, identity_kept d p (f s p)) ->
  stable (identity_grow d) (modify (fun s => set_printers s (map (f s) (printers s)))).
Proof.
  intros d f H s. exists (map (f s) (printers s)), []. rewrite app_nil_r.
  split; [apply Forall2_identity_map; apply H|reflexivity].
Qed.

Section IdentityGrow.

Variable d : payload.

Lemma identity_update_agent_last_seen : forall id,
  stable (identity_grow d) (update_agent_last_seen id).
Proof. intros. apply identity_grow_same. reflexivity. Qed.

Lemma identity_update_printer_status : forall st pid,
  stable (identity_grow d) (update_printer_status st pid).
Proof.
  intros st pid s. unfold update_printer_status.
  destruct (negb _); [apply identity_grow_refl|].
  destruct (varchar_str 50 st) as [st'|]; [|apply identity_grow_refl].
  refine (identity_grow_map d (fun s => set_printer_status st' pid (clock s)) _ s).
  intros s0 p. unfold set_printer_status.
  destruct pid as [i|]; [destruct (p_id p =? i)|]; try apply identity_kept_refl.
  repeat split; apply column_kept_refl.
Qed.

Lemma identity_update_printer_identity : forall pid,
  stable (identity_grow d)
    (update_printer_identity (d_serial_number d) (d_model d) (d_name d) pid).
Proof.
  intros pid. apply identity_grow_map. intros s p. unfold coalesce_printer.
  destruct (p_id p =? pid); [|apply identity_kept_refl].
  unfold identity_kept, column_kept, coalesce. simpl.
  split; [reflexivity|].
  repeat split; match goal with |- context [match ?x with Some _ => _ | None => _ end] =>
    destruct x; [right; eexists; split; reflexivity|left; reflexivity] end.
Qed.

Lemma identity_insert_printer : forall aid ip a b c,
  stable (identity_grow d) (insert_printer aid ip a b c).
Proof.
  intros aid ip a b c s. unfold insert_printer.
  destr_goal; simpl;
    first [apply identity_grow_eq; reflexivity
          |eexists (printers s), _; split; [apply Forall2_identity_refl|reflexivity]].
Qed.

Lemma identity_insert_metric : forall pid ts pc tl st er raw,
  stable (identity_grow d) (insert_metric pid ts pc tl st er raw).
Proof.
  intros. apply identity_grow_same. intros s. unfold insert_metric.
  destr_goal; reflexivity.
Qed.

End IdentityGrow.

#[export] Hint Resolve identity_grow_refl identity_grow_trans identity_update_agent_last_seen
  identity_update_printer_status identity_update_printer_identity identity_insert_printer
  identity_insert_metric : stable.

Lemma identity_authenticate_agent : forall d h next,
  (forall a, stable (identity_grow d) (next a)) ->
  stable (identity_grow d) (authenticate_agent h next).
Proof.
  intros d h next Hn. unfold authenticate_agent, authenticate_agent_db. stable_split.
Qed.

Lemma identity_data_post : forall jp h b d,
  b_data b = Some d -> stable (identity_grow d) (data_post jp h b).
Proof.
  intros jp h b d Hd. unfold data_post. apply identity_authenticate_agent. intros a.
  unfold data_ingest. rewrite Hd. stable_split.
Qed.

Lemma identity_api_data_post : forall jp h b d,
  b_data b = Some d -> stable (identity_grow d) (api_data_post jp h b).
Proof.
  intros jp h b d Hd. unfold api_data_post. apply identity_authenticate_agent. intros a.
  unfold api_data_ingest. rewrite Hd. stable_split.
Qed.

Lemma Forall2_nth_app : forall d l l' e i p,
  Forall2 (identity_kept d) l l' -> nth_error l i = Some p ->
  exists p', nth_error (l' ++ e)%list i = Some p' /\ identity_kept d p p'.
Proof.
  intros d l l' e i p H. revert i.
  induction H as [|x y l l' Hxy H IH]; intros i Hi; [destruct i; discriminate|].
  destruct i as [|i]; simpl in *.
  - injection Hi as <-. exists y. split; [reflexivity|exact Hxy].
  - apply IH. exact Hi.
Qed.

Lemma column_kept_known : forall x a b, column_kept x a b -> a <> None -> b <> None.
Proof. intros x a b [->|[v [_ ->]]] H; [exact H|discriminate]. Qed.

Lemma identity_grow_rows : forall d s s',
  identity_grow d s s' ->
  forall i p, nth_error (printers s) i = Some p ->
  exists p', nth_error (printers s') i = Some p' /\ identity_kept d p p' /\
    (p_serial_number p <> None -> p_serial_number p' <> None) /\
    (p_model p <> None -> p_model p' <> None) /\
    (p_name p <> None -> p_name p' <> None).
Proof.
  intros d s s' [l [e [H E]]] i p Hi. rewrite E.
  destruct (Forall2_nth_app d _ _ e i p H Hi) as [p' [Hp' K]].
  exists p'. split; [exact Hp'|]. split; [exact K|].
  destruct K as [_ [Ks [Km Kn]]].
  split; [|split]; eapply column_kept_known; eassumption.
Qed.

(** C2: coalesce-on-update.  After any [POST /api/data] carrying [data]
    (a printer_discovery or printer_update push in particular), every
    printer row keeps its position and id, and each of its
    [serial_number], [model] and [name] either is unchanged or took the
    non-null value the push supplied: a known value is never replaced by
    NULL.  This holds for Server/routes/data.js and for api.js. *)
Theorem coalesce_keeps_identity : forall jp h b d s,
  b_data b = Some d ->
  forall i p, nth_error (printers s) i = Some p ->
  (exists p', nth_error (printers (fst (run (data_post jp h b) s))) i = Some p' /\
     identity_kept d p p' /\
     (p_serial_number p <> None -> p_serial_number p' <> None) /\
     (p_model p <> None -> p_model p' <> None) /\
     (p_name p <> None -> p_name p' <> None)) /\
  (exists p', nth_error (printers (fst (run (api_data_post jp h b) s))) i = Some p' /\
     identity_kept d p p' /\
     (p_serial_number p <> None -> p_serial_number p' <> None) /\
     (p_model p <> None -> p_model p' <> None) /\
     (p_name p <> None -> p_name p' <> None)).
Proof.
  intros jp h b d s Hd i p Hi. split.
  - apply (identity_grow_rows d s); [|exact Hi].
    apply (stable_run (identity_grow d)), identity_data_post, Hd.
  - apply (identity_grow_rows d s); [|exact Hi].
    apply (stable_run (identity_grow d)), identity_api_data_post, Hd.
Qed.

Lemma coalesce_keeps_identity_witness :
  let d := ident_payload "10.0.0.5" None in
  let b := mkDataBody (Some "printer_update") None (Some d) in
  let p := mkPrinter 1 1 None "10.0.0.5" (Some "SN1") (Some "M1") None (Some "idle") None in
  b_data b = Some d /\ nth_error (printers alice_db) 0 = Some p /\
  (exists p', nth_error (printers (fst (run (data_post no_json (bearer "k1") b) alice_db))) 0
              = Some p' /\
     identity_kept d p p' /\
     (p_serial_number p <> None -> p_serial_number p' <> None) /\
     (p_model p <> None -> p_model p' <> None) /\
     (p_name p <> None -> p_name p' <> None)) /\
  (exists p', nth_error (printers (fst (run (api_data_post no_json (bearer "k1") b) alice_db))) 0
              = Some p' /\
     identity_kept d p p' /\
     (p_serial_number p <> None -> p_serial_number p' <> None) /\
     (p_model p <> None -> p_model p' <> None) /\
     (p_name p <> None -> p_name p' <> None)).
Proof.
  intros d b p. split; [reflexivity|]. split; [reflexivity|].
  apply (coalesce_keeps_identity no_json (bearer "k1") b d alice_db eq_refl 0 p eq_refl).
Defined.

Example coalesce_missing_serial :
  let b := mkDataBody (Some "printer_update") None (Some (ident_payload "10.0.0.5" None)) in
  option_map p_serial_number
    (nth_error (printers (fst (run (data_post no_json (bearer "k1") b) alice_db))) 0)
  = Some (Some "SN1").
Proof. reflexivity. Qed.

(** *** Printer pushes are upserts *)

Lemma varchar_str_fits : forall n v, (String.length v <= n)%nat -> varchar_str n v = Some v.
Proof. intros n v H. unfold varchar_str. apply Nat.leb_le in H. rewrite H. reflexivity. Qed.

Lemma varchar_fits : forall n v, fits n v = true -> varchar n v = Some v.
Proof.
  intros n [v|] H; [|reflexivity]. simpl in H. unfold varchar.
  rewrite (varchar_str_fits n v) by (apply Nat.leb_le; exact H). reflexivity.
Qed.




Lemma filter_key_touch : forall l id t k,
  filter (fun a => String.eqb (a_api_key a) k) (map (touch_agent id t) l)
  = map (touch_agent id t) (filter (fun a => String.eqb (a_api_key a) k) l).
Proof.
  intros l id t k. induction l as [|a l IH]; [reflexivity|].
  simpl. replace (a_api_key (touch_agent id t a)) with (a_api_key a)
    by (unfold touch_agent; destruct (a_id a =? id); reflexivity).
  destruct (String.eqb _ _); [simpl; f_equal|]; exact IH.
Qed.





(** ** The field agent *)

Import Agent.

Lemma fold_max_ge_init : forall l c, c <= fold_left Z.max l c.
Proof.
  intros l. induction l as [|x l IH]; intros c; simpl; [lia|].
  specialize (IH (Z.max c x)). lia.
Qed.

Lemma fold_max_ge_in : forall l c x, In x l -> x <= fold_left Z.max l c.
Proof.
  intros l. induction l as [|y l IH]; intros c x Hx; [destruct Hx|]. simpl.
  destruct Hx as [->|Hx].
  - pose proof (fold_max_ge_init l (Z.max c x)). lia.
  - apply IH. exact Hx.
Qed.

(** C4 (spec-modelled): a push of the unsynced batch never touches the
    stored records; the cursor moves only on a 2xx acknowledgement, and
    then past every record of the batch; on a network error or a non-2xx
    status the state, hence the unsynced batch, is exactly as before, so
    the same records are pushed again on the next cycle. *)
Theorem push_batch_at_least_once : forall send st,
  let st' := push_batch send st in
  store st' = store st /\
  (cursor st' <> cursor st ->
     exists c, send (unsynced st) = Delivered c /\ is_2xx c = true) /\
  ((send (unsynced st) = NetworkError \/
    exists c, send (unsynced st) = Delivered c /\ is_2xx c = false) ->
     st' = st /\ unsynced st' = unsynced st) /\
  ((exists c, send (unsynced st) = Delivered c /\ is_2xx c = true) ->
     forall r, In r (unsynced st) -> lr_id r <= cursor st').
Proof.
  intros send st st'. unfold st', push_batch.
  destruct (send (unsynced st)) as [c|] eqn:E.
  - destruct (is_2xx c) eqn:C; simpl.
    + split; [reflexivity|]. split; [intros _; exists c; split; [reflexivity | exact C]|].
      split.
      * intros [[=]|[c' [[= <-] C']]]. congruence.
      * intros _ r Hr. apply fold_max_ge_in, in_map, Hr.
    + split; [reflexivity|]. split; [intros H; contradiction|].
      split; [intros _; split; reflexivity|].
      intros [c' [[= <-] C']]. congruence.
  - split; [reflexivity|]. split; [intros H; contradiction|].
    split; [intros _; split; reflexivity|].
    intros [c' [[=] _]].
Qed.

Lemma push_batch_at_least_once_witness :
  let st' := push_batch (fun _ => NetworkError) three_samples in
  st' = three_samples /\ unsynced st' = unsynced three_samples /\
  length (unsynced st') = 3%nat.
Proof.
  intros st'.
  destruct (push_batch_at_least_once (fun _ => NetworkError) three_samples)
    as [_ [_ [H _]]].
  destruct (H (or_introl eq_refl)) as [E1 E2].
  split; [exact E1|]. split; [exact E2|]. vm_compute. reflexivity.
Defined.

Lemma poll_printer_ref : forall probe completed q,
  s_printer_ref (poll_printer probe completed q) = kp_id q.
Proof. intros. unfold poll_printer. destruct (probe (kp_ip q)); reflexivity. Qed.

Lemma filter_other_printers : forall probe completed qs id,
  ~ In id (map kp_id qs) ->
  filter (fun x => s_printer_ref x =? id) (poll_cycle probe completed qs) = [].
Proof.
  intros probe completed qs id H. induction qs as [|q qs IH]; [reflexivity|].
  simpl in *. rewrite poll_printer_ref.
  destruct (Z.eqb_spec (kp_id q) id) as [E|_]; [exfalso; apply H; left; exact E|].
  apply IH. intros Hin. apply H. right. exact Hin.
Qed.

(** C6 (spec-modelled): in a polling cycle over printers with distinct
    ids, a printer whose probe times out or finds it unreachable gets
    exactly one sample, with status "offline" and neither page count nor
    toner levels. *)
Theorem offline_poll_recorded : forall probe completed ps p,
  NoDup (map kp_id ps) -> In p ps ->
  (probe (kp_ip p) = ProbeTimeout \/ probe (kp_ip p) = ProbeUnreachable) ->
  exists smp,
    filter (fun x => s_printer_ref x =? kp_id p) (poll_cycle probe completed ps) = [smp] /\
    s_status smp = "offline" /\ s_page_count smp = None /\ s_toner_levels smp = None.
Proof.
  intros probe completed ps p Hnd Hin Hoff. induction ps as [|q qs IH]; [destruct Hin|].
  simpl in Hnd. inversion Hnd as [|x l Hq Hnd' [Ex El]]; subst.
  simpl. rewrite poll_printer_ref. destruct Hin as [<-|Hin].
  - rewrite Z.eqb_refl, filter_other_printers by exact Hq.
    eexists. split; [reflexivity|]. unfold poll_printer.
    destruct Hoff as [E|E]; rewrite E; repeat split.
  - assert (Hne : kp_id q <> kp_id p).
    { intros E. apply Hq. rewrite E. apply in_map. exact Hin. }
    apply Z.eqb_neq in Hne. rewrite Hne. apply IH; assumption.
Qed.

Lemma offline_poll_recorded_witness :
  exists smp,
    filter (fun x => s_printer_ref x =? 2)
           (poll_cycle probe_first_only (fun _ => 60) two_printers) = [smp] /\
    s_status smp = "offline" /\ s_page_count smp = None /\ s_toner_levels smp = None.
Proof.
  apply (offline_poll_recorded probe_first_only (fun _ => 60) two_printers
           (mkKnown 2 "192.168.1.2")).
  - repeat constructor; simpl; intuition discriminate.
  - right. left. reflexivity.
  - left. reflexivity.
Defined.

(** * Properties of the rest of the server *)

Lemma string_app_assoc : forall a b c : string, (a ++ b) ++ c = a ++ (b ++ c).
Proof. intros a b c. induction a as [|ch a IH]; simpl; [reflexivity|]. rewrite IH. reflexivity. Qed.

Lemma string_app_nil_r : forall a : string, a ++ "" = a.
Proof. induction a as [|ch a IH]; simpl; [reflexivity|]. rewrite IH. reflexivity. Qed.

Lemma split_no_space : forall k cur, has_space k = false -> split_sp_aux k cur = [cur ++ k].
Proof.
  induction k as [|c k IH]; intros cur H; simpl in *.
  - rewrite string_app_nil_r. reflexivity.
  - apply orb_false_iff in H as [Hc Hk]. rewrite Hc. rewrite IH by exact Hk.
    rewrite string_app_assoc. reflexivity.
Qed.

Lemma split_word_space : forall w k cur, has_space w = false ->
  split_sp_aux (w ++ String " "%char k) cur = (cur ++ w) :: split_sp_aux k "".
Proof.
  induction w as [|c w IH]; intros k cur H; simpl in *.
  - rewrite string_app_nil_r. reflexivity.
  - apply orb_false_iff in H as [Hc Hw]. rewrite Hc. rewrite IH by exact Hw.
    rewrite string_app_assoc. reflexivity.
Qed.

Lemma header_word_key : forall w k, has_space w = false -> has_space k = false ->
  header_api_key (Some (w ++ String " "%char k)) = Some k.
Proof.
  intros w k Hw Hk. unfold header_api_key, js_split_space.
  destruct w as [|c w']; simpl.
  - rewrite split_no_space by exact Hk. reflexivity.
  - simpl in Hw. apply orb_false_iff in Hw as [Hc Hw']. rewrite Hc.
    rewrite split_word_space by exact Hw'. rewrite split_no_space by exact Hk. reflexivity.
Qed.

Lemma header_no_space : forall h, has_space h = false -> header_api_key (Some h) = None \/ header_api_key (Some h) = Some "".
Proof.
  intros h Hh. unfold header_api_key, js_split_space. destruct h as [|c h']; [right; reflexivity|].
  left. rewrite split_no_space by exact Hh. reflexivity.
Qed.

Lemma header_double_space : forall w k, has_space w = false ->
  header_api_key (Some (w ++ String " "%char (String " "%char k))) = Some "".
Proof.
  intros w k Hw. unfold header_api_key, js_split_space.
  destruct w as [|c w']; simpl.
  - destruct (split_sp_aux k ""); reflexivity.
  - simpl in Hw. apply orb_false_iff in Hw as [Hc Hw']. rewrite Hc.
    rewrite split_word_space by exact Hw'. simpl. destruct (split_sp_aux k ""); reflexivity.
Qed.

(** X1: the agent and user authentication only keep what follows the first space of the
    Authorization header; the scheme word before it is never checked, so any word
    without a space authenticates like "Bearer". *)
Theorem auth_scheme_ignored : forall w k next s verify xnext x,
  has_space w = false -> has_space k = false ->
  authenticate_agent (Some (w ++ " " ++ k)) next s =
    authenticate_agent (Some ("Bearer " ++ k)) next s /\
  authenticate_token verify (Some (w ++ " " ++ k)) xnext x =
    authenticate_token verify (Some ("Bearer " ++ k)) xnext x.
Proof.
  intros w k next s verify xnext x Hw Hk.
  assert (E1 : w ++ " " ++ k = w ++ String " "%char k) by reflexivity.
  assert (E2 : "Bearer " ++ k = "Bearer" ++ String " "%char k) by reflexivity.
  unfold authenticate_agent, authenticate_token. rewrite E1, E2.
  rewrite (header_word_key w k Hw Hk), (header_word_key "Bearer" k eq_refl Hk).
  split; reflexivity.
Qed.

Lemma auth_scheme_ignored_witness :
  authenticate_agent (Some "Token k1") (fun _ => ret (res_json [])) alice_db =
    authenticate_agent (Some "Bearer k1") (fun _ => ret (res_json [])) alice_db /\
  authenticate_token (fun _ => None) (Some "Token k1") (fun _ => xret (x_json JsNull))
      (mkXdb alice_db [] [] [] 1 [] 1) =
    authenticate_token (fun _ => None) (Some "Bearer k1") (fun _ => xret (x_json JsNull))
      (mkXdb alice_db [] [] [] 1 [] 1).
Proof.
  apply (auth_scheme_ignored "Token" "k1"); reflexivity.
Defined.

(** X2: a header without a space, or whose first space is followed by a second one, yields
    an empty key: authenticateAgent answers 401 "Agent authentication required" and
    authenticateToken 401 "Authentication required", and neither changes the database. *)
Theorem auth_header_without_key : forall h w k next s verify xnext x,
  has_space h = false -> has_space w = false ->
  authenticate_agent (Some h) next s = (Ret (res_error 401 "Agent authentication required"), s) /\
  authenticate_agent (Some (w ++ "  " ++ k)) next s =
    (Ret (res_error 401 "Agent authentication required"), s) /\
  authenticate_token verify (Some h) xnext x = (Ret (x_error 401 "Authentication required"), x) /\
  authenticate_token verify (Some (w ++ "  " ++ k)) xnext x =
    (Ret (x_error 401 "Authentication required"), x).
Proof.
  intros h w k next s verify xnext x Hh Hw.
  assert (E1 : w ++ "  " ++ k = w ++ String " "%char (String " "%char k)) by reflexivity.
  unfold authenticate_agent, authenticate_token. rewrite E1.
  rewrite header_double_space by exact Hw.
  destruct (header_no_space h Hh) as [E|E]; rewrite E; repeat split.
Qed.

Lemma auth_header_without_key_witness :
  authenticate_agent (Some "k1") (fun _ => ret (res_json [])) alice_db =
    (Ret (res_error 401 "Agent authentication required"), alice_db) /\
  authenticate_agent (Some ("Bearer" ++ "  " ++ "k1")) (fun _ => ret (res_json [])) alice_db =
    (Ret (res_error 401 "Agent authentication required"), alice_db) /\
  authenticate_token (fun _ => None) (Some "k1") (fun _ => xret (x_json JsNull))
      (mkXdb alice_db [] [] [] 1 [] 1) =
    (Ret (x_error 401 "Authentication required"), mkXdb alice_db [] [] [] 1 [] 1) /\
  authenticate_token (fun _ => None) (Some ("Bearer" ++ "  " ++ "k1")) (fun _ => xret (x_json JsNull))
      (mkXdb alice_db [] [] [] 1 [] 1) =
    (Ret (x_error 401 "Authentication required"), mkXdb alice_db [] [] [] 1 [] 1).
Proof.
  apply (auth_header_without_key "k1" "Bearer" "k1"); reflexivity.
Defined.

(** X3: a route behind authenticateToken and authorize('admin') either runs its handler with
    the user of a non-empty verified token whose role is "admin", or answers 401 or 403
    without touching the state. *)
Theorem admin_only_gate : forall verify h handler x,
  (exists tok u, header_api_key h = Some tok /\ tok <> "" /\ verify tok = Some u /\
                 j_role u = Some "admin" /\ admin_only verify h handler x = handler u x) \/
  (exists code msg, admin_only verify h handler x = (Ret (x_error code msg), x) /\
                    (code = 401 \/ code = 403)).
Proof.
  intros verify h handler x. unfold admin_only, authenticate_token.
  destruct (header_api_key h) as [tok|] eqn:Hh.
  - destruct (String.eqb_spec tok "") as [E|Hne].
    + right. do 2 eexists. split; [reflexivity|left; reflexivity].
    + destruct (verify tok) as [u|] eqn:Hv.
      * unfold authorize.
        destruct (j_role u) as [r|] eqn:Hr; cbn -[String.eqb].
        -- destruct (String.eqb_spec "admin" r) as [<-|Hne'].
           ++ left. exists tok, u. repeat split; assumption.
           ++ right. do 2 eexists. split; [reflexivity|right; reflexivity].
        -- right. do 2 eexists. split; [reflexivity|right; reflexivity].
      * right. do 2 eexists. split; [reflexivity|right; reflexivity].
  - right. do 2 eexists. split; [reflexivity|left; reflexivity].
Qed.

(** X4: GET /api/agents/status answers the authenticated agent's id, name, status, previous
    last_seen and its number of printers, and afterwards the agent's last_seen is the
    current time. *)
Theorem agent_status_reports : forall h k a rest s,
  header_api_key h = Some k -> k <> "" -> agents_with_key s k = a :: rest ->
  run (agent_status h) s =
    (touched s (a_id a),
     res_json [("agent_id", JStr (a_agent_id a)); ("name", JStr (a_name a));
               ("status", opt_str (a_status a));
               ("last_seen", opt_num (a_last_seen a));
               ("printer_count",
                  JNum (Z.of_nat (length (filter (fun p => p_agent_id p =? a_id a) (printers s)))))]) /\
  (forall r, In r (agents (touched s (a_id a))) -> a_id r = a_id a -> a_last_seen r = Some (clock s)).
Proof.
  intros h k a rest s Hk Hne Hf. split.
  - unfold run, agent_status. rewrite (auth_found h _ s k a rest Hk Hne Hf). reflexivity.
  - intros r Hr Hid. unfold touched in Hr. simpl in Hr. apply in_map_iff in Hr as [r0 [<- _]].
    unfold touch_agent in *. destruct (a_id r0 =? a_id a) eqn:E; [reflexivity|].
    apply Z.eqb_neq in E. contradiction.
Qed.

Lemma agent_status_reports_witness :
  run (agent_status (Some "Bearer k1")) alice_db =
    (touched alice_db 1,
     res_json [("agent_id", JStr "a1"); ("name", JStr "PrinterMonitorAgent");
               ("status", opt_str (Some "active")); ("last_seen", opt_num None);
               ("printer_count", JNum 1)]) /\
  (forall r, In r (agents (touched alice_db 1)) -> a_id r = 1 -> a_last_seen r = Some 100).
Proof.
  apply (agent_status_reports (Some "Bearer k1") "k1"
           (mkAgent 1 "a1" "PrinterMonitorAgent" None None None None "k1" (Some "active") None) []);
    [reflexivity|discriminate|reflexivity].
Defined.

Lemma last_seen_desc_total : forall a b,
  last_seen_desc a b = false -> last_seen_desc b a = true.
Proof.
  intros a b. unfold last_seen_desc.
  destruct (a_last_seen a) as [x|], (a_last_seen b) as [y|]; try discriminate; try reflexivity.
  intros H. apply Z.leb_gt in H. apply Z.leb_le. lia.
Qed.

Lemma insert_by_last_seen_hd : forall b a l,
  last_seen_desc b a = true -> HdRel (fun u v => last_seen_desc u v = true) b l ->
  HdRel (fun u v => last_seen_desc u v = true) b (insert_by_last_seen a l).
Proof.
  intros b a l Hba Hl. destruct l as [|c l]; simpl.
  - constructor. exact Hba.
  - destruct (last_seen_desc a c); constructor; [exact Hba|]. inversion Hl; assumption.
Qed.

Lemma insert_by_last_seen_sorted : forall a l,
  Sorted (fun u v => last_seen_desc u v = true) l ->
  Sorted (fun u v => last_seen_desc u v = true) (insert_by_last_seen a l).
Proof.
  intros a l. induction l as [|b l IH]; intros Hs; simpl.
  - repeat constructor.
  - destruct (last_seen_desc a b) eqn:E.
    + constructor; [exact Hs|]. constructor. exact E.
    + inversion Hs as [|? ? Hs' Hhd]; subst. constructor; [apply IH; exact Hs'|].
      apply insert_by_last_seen_hd; [apply last_seen_desc_total; exact E|exact Hhd].
Qed.

Lemma insert_by_last_seen_perm : forall a l, Permutation (insert_by_last_seen a l) (a :: l).
Proof.
  intros a l. induction l as [|b l IH]; simpl; [reflexivity|].
  destruct (last_seen_desc a b); [reflexivity|].
  rewrite IH. apply perm_swap.
Qed.

Lemma order_by_last_seen_desc_ok : forall l,
  Permutation (order_by_last_seen_desc l) l /\
  Sorted (fun u v => last_seen_desc u v = true) (order_by_last_seen_desc l).
Proof.
  induction l as [|a l [IHp IHs]]; simpl; [split; constructor|]. split.
  - rewrite insert_by_last_seen_perm. apply perm_skip. exact IHp.
  - apply insert_by_last_seen_sorted. exact IHs.
Qed.

(** X5: GET /api/agents returns every agent exactly once, ordered by last_seen descending,
    with no api_key field in any row, and changes nothing. *)
Theorem agents_list_ordered : forall verify h tok u x,
  header_api_key h = Some tok -> tok <> "" -> verify tok = Some u -> j_role u = Some "admin" ->
  exists l,
    xrun (agents_list verify h) x = (x, x_json (JsArr (map agent_list_row l))) /\
    Permutation l (agents (base x)) /\
    Sorted (fun a b => last_seen_desc a b = true) l /\
    Forall (fun row => js_field "api_key" row = None) (map agent_list_row l).
Proof.
  intros verify h tok u x Hh Hne Hv Hr.
  exists (order_by_last_seen_desc (agents (base x))).
  destruct (order_by_last_seen_desc_ok (agents (base x))) as [Hp Hs].
  split; [|split; [exact Hp|split; [exact Hs|]]].
  - unfold xrun, agents_list, admin_only, authenticate_token. rewrite Hh.
    destruct (String.eqb_spec tok "") as [E|_]; [contradiction|]. rewrite Hv.
    unfold authorize. rewrite Hr. reflexivity.
  - apply Forall_forall. intros row Hrow. apply in_map_iff in Hrow as [a [<- _]]. reflexivity.
Qed.

Lemma agents_list_ordered_witness :
  exists l,
    xrun (agents_list admin_verify (Some "Bearer admintoken")) seen_db =
      (seen_db, x_json (JsArr (map agent_list_row l))) /\
    Permutation l (agents (base seen_db)) /\
    Sorted (fun a b => last_seen_desc a b = true) l /\
    Forall (fun row => js_field "api_key" row = None) (map agent_list_row l).
Proof.
  apply (agents_list_ordered admin_verify (Some "Bearer admintoken") "admintoken"
           (mkClaims 1 "admin" (Some "admin")));
    [reflexivity|discriminate|reflexivity|reflexivity].
Defined.

(** X6: GET /api/agents/:id answers 404 when no agent has the id; otherwise it answers 200
    with the agent's api_key and its printer count, and changes nothing. *)
Theorem agent_get_returns_api_key : forall verify h tok u i x,
  header_api_key h = Some tok -> tok <> "" -> verify tok = Some u -> j_role u = Some "admin" ->
  match filter (fun a => a_id a =? i) (agents (base x)) with
  | [] => xrun (agent_get verify h (Some i)) x = (x, x_error 404 "Agent not found")
  | a :: _ =>
      fst (xrun (agent_get verify h (Some i)) x) = x /\
      xstatus (snd (xrun (agent_get verify h (Some i)) x)) = 200 /\
      js_field "api_key" (xbody (snd (xrun (agent_get verify h (Some i)) x))) =
        Some (JsStr (a_api_key a)) /\
      js_field "printer_count" (xbody (snd (xrun (agent_get verify h (Some i)) x))) =
        Some (JsNum (Z.of_nat (length (filter (fun p => p_agent_id p =? a_id a) (printers (base x))))))
  end.
Proof.
  intros verify h tok u i x Hh Hne Hv Hr.
  unfold xrun, agent_get, admin_only, authenticate_token. rewrite Hh.
  destruct (String.eqb_spec tok "") as [E|_]; [contradiction|]. rewrite Hv.
  unfold authorize. rewrite Hr. cbn -[String.eqb filter]. rewrite String.eqb_refl.
  cbn -[String.eqb filter].
  unfold xcatch_500, xtry_catch, xbind, agents_by_id.
  destruct (filter (fun a => a_id a =? i) (agents (base x))) as [|a rest]; [reflexivity|].
  unfold lift, printer_count_of, organizations_of_agent, xret. cbn -[String.eqb filter].
  destruct x as [s o oa c cs us useq]. unfold set_base. simpl.
  repeat split.
Qed.

Lemma agent_get_returns_api_key_witness :
  fst (xrun (agent_get admin_verify (Some "Bearer admintoken") (Some 1)) seen_db) = seen_db /\
  xstatus (snd (xrun (agent_get admin_verify (Some "Bearer admintoken") (Some 1)) seen_db)) = 200 /\
  js_field "api_key" (xbody (snd (xrun (agent_get admin_verify (Some "Bearer admintoken") (Some 1))
                                       seen_db))) = Some (JsStr "k1") /\
  js_field "printer_count" (xbody (snd (xrun (agent_get admin_verify (Some "Bearer admintoken")
                                              (Some 1)) seen_db))) = Some (JsNum 0).
Proof.
  exact (agent_get_returns_api_key admin_verify (Some "Bearer admintoken") "admintoken"
           (mkClaims 1 "admin" (Some "admin")) 1 seen_db eq_refl ltac:(discriminate) eq_refl eq_refl).
Defined.

(** X7: PUT /api/agents/:id runs in one transaction: whenever it does not answer 200 the
    database is left as it was. *)
Theorem agent_put_all_or_nothing : forall verify h id b x,
  xstatus (snd (xrun (agent_put verify h id b) x)) <> 200 ->
  fst (xrun (agent_put verify h id b) x) = x.
Proof.
  intros verify h id b x Hst. revert Hst.
  unfold xrun, agent_put, admin_only, authenticate_token.
  destruct (header_api_key h) as [tok|]; [|intros; reflexivity].
  destruct (String.eqb tok ""); [intros; reflexivity|].
  destruct (verify tok) as [u|]; [|intros; reflexivity].
  unfold authorize. cbn -[String.eqb].
  destruct (negb (match j_role u with Some r => String.eqb "admin" r | None => false end || false));
    [intros; reflexivity|].
  unfold xcatch_500, xtry_catch.
  destruct (ub_name b) as [name|]; [|intros; reflexivity].
  destruct (String.eqb name ""); [intros; reflexivity|].
  unfold transaction.
  destruct id as [i|]; [|intros; reflexivity].
  unfold xbind, update_agent_admin.
  destruct (varchar_str 100 name) as [name'|]; [|intros; reflexivity].
  destruct (varchar_str 20 _) as [st'|]; [|intros; reflexivity].
  destruct (int4_ok i); [|intros; reflexivity].
  destruct (filter _ _) as [|a rest]; [intros; reflexivity|].
  destruct (ub_organization_id b) as [oid|].
  - destruct (oid =? 0).
    + intros Hst. exfalso. apply Hst. reflexivity.
    + unfold delete_organization_agents.
      destruct (insert_organization_agent oid i _) as [[[]|] x2]; intros Hst; [exfalso; apply Hst; reflexivity|reflexivity].
  - intros Hst. exfalso. apply Hst. reflexivity.
Qed.

Lemma agent_put_all_or_nothing_witness :
  xstatus (snd (xrun (agent_put admin_verify (Some "Bearer admintoken") (Some 1)
                        (mkAgentUpdateBody (Some "renamed") (Some "disabled") (Some 8))) seen_db))
    = 500 /\
  fst (xrun (agent_put admin_verify (Some "Bearer admintoken") (Some 1)
               (mkAgentUpdateBody (Some "renamed") (Some "disabled") (Some 8))) seen_db) = seen_db.
Proof.
  split; [reflexivity|].
  apply agent_put_all_or_nothing. vm_compute. discriminate.
Defined.

Lemma filter_set_name_status_agents : forall name st i l,
  existsb (fun a => a_id a =? i) (map (set_name_status name st i) l) =
  existsb (fun a => a_id a =? i) l.
Proof.
  intros name st i l. induction l as [|a l IH]; simpl; [reflexivity|].
  rewrite IH. unfold set_name_status. destruct (a_id a =? i) eqn:E; simpl; rewrite ?E; reflexivity.
Qed.

Lemma filter_set_name_status_nonempty : forall name st i l,
  In i (map a_id l) ->
  exists a rest, filter (fun a => a_id a =? i) (map (set_name_status name st i) l) = a :: rest.
Proof.
  intros name st i l Hin. induction l as [|a l IH]; [destruct Hin|]. simpl in *.
  unfold set_name_status at 1. destruct (a_id a =? i) eqn:E.
  - simpl. rewrite E. eauto.
  - simpl. rewrite E. destruct Hin as [Ea|Hin]; [apply Z.eqb_neq in E; contradiction|].
    apply IH. exact Hin.
Qed.

Lemma filter_pairs_app_agent : forall (l : list (Z * Z)) oid i,
  filter (fun oa => snd oa =? i) (filter (fun oa => negb (snd oa =? i)) l ++ [(oid, i)]) = [(oid, i)].
Proof.
  intros l oid i. rewrite filter_app. simpl. rewrite Z.eqb_refl.
  induction l as [|p l IH]; simpl; [reflexivity|].
  destruct (snd p =? i) eqn:E; simpl; [exact IH|]. rewrite E. exact IH.
Qed.

Lemma filter_pairs_app_other : forall (l : list (Z * Z)) oid i,
  filter (fun oa => negb (snd oa =? i)) (filter (fun oa => negb (snd oa =? i)) l ++ [(oid, i)]) =
  filter (fun oa => negb (snd oa =? i)) l.
Proof.
  intros l oid i. rewrite filter_app. simpl. rewrite Z.eqb_refl. simpl. rewrite app_nil_r.
  induction l as [|p l IH]; simpl; [reflexivity|].
  destruct (snd p =? i) eqn:E; simpl; [exact IH|]. rewrite E. simpl. rewrite IH. reflexivity.
Qed.

Lemma existsb_pair_deleted : forall (l : list (Z * Z)) oid i,
  existsb (fun oa => (fst oa =? oid) && (snd oa =? i)) (filter (fun oa => negb (snd oa =? i)) l) = false.
Proof.
  intros l oid i. induction l as [|p l IH]; simpl; [reflexivity|].
  destruct (snd p =? i) eqn:E; simpl; [exact IH|]. rewrite E, andb_false_r. exact IH.
Qed.

(** X8: an admin's PUT /api/agents/:id with a name and an existing organization, for an
    existing agent, answers 200, sets the agent's name and status ("active" by default)
    and leaves the agent linked to that one organization, other links unchanged; the
    name fits its VARCHAR(100), the status its VARCHAR(20), and the agent and
    organization ids are [INTEGER] values. *)
Theorem agent_put_updates : forall verify h tok u i b name oid x,
  header_api_key h = Some tok -> tok <> "" -> verify tok = Some u -> j_role u = Some "admin" ->
  ub_name b = Some name -> name <> "" ->
  ub_organization_id b = Some oid -> oid <> 0 ->
  In oid (map o_id (organizations x)) -> In i (map a_id (agents (base x))) ->
  (String.length name <= 100)%nat ->
  (String.length (or_default (ub_status b) "active") <= 20)%nat ->
  int4_ok i = true -> int4_ok oid = true ->
  let (x', r) := xrun (agent_put verify h (Some i) b) x in
  xstatus r = 200 /\
  agents (base x') = map (set_name_status name (or_default (ub_status b) "active") i) (agents (base x)) /\
  filter (fun oa => snd oa =? i) (organization_agents x') = [(oid, i)] /\
  filter (fun oa => negb (snd oa =? i)) (organization_agents x') =
    filter (fun oa => negb (snd oa =? i)) (organization_agents x).
Proof.
  intros verify h tok u i b name oid x Hh Hne Hv Hr Hn Hnn Ho Hoz Hoin Hiin Hln Hls Hi4 Ho4.
  unfold xrun, agent_put, admin_only, authenticate_token. rewrite Hh.
  destruct (String.eqb_spec tok "") as [E|_]; [contradiction|]. rewrite Hv.
  unfold authorize. rewrite Hr. cbn -[String.eqb filter]. rewrite String.eqb_refl.
  cbn -[String.eqb filter].
  unfold xcatch_500, xtry_catch. rewrite Hn.
  destruct (String.eqb_spec name "") as [E|_]; [contradiction|].
  unfold transaction, xbind, update_agent_admin.
  rewrite (varchar_str_fits 100 name Hln), (varchar_str_fits 20 _ Hls), Hi4.
  cbv zeta.
  destruct (filter_set_name_status_nonempty name (or_default (ub_status b) "active") i
              (agents (base x)) Hiin) as [a [rest Hf]].
  rewrite Hf. rewrite Ho.
  destruct (Z.eqb_spec oid 0) as [E|_]; [contradiction|].
  unfold delete_organization_agents, insert_organization_agent. simpl.
  assert (Ho' : existsb (fun o => o_id o =? oid) (organizations x) = true).
  { apply existsb_exists. apply in_map_iff in Hoin as [o [Eo Hin]]. exists o. split; [exact Hin|].
    apply Z.eqb_eq. exact Eo. }
  assert (Ha' : existsb (fun a => a_id a =? i)
                  (map (set_name_status name (or_default (ub_status b) "active") i) (agents (base x))) = true).
  { rewrite filter_set_name_status_agents. apply existsb_exists.
    apply in_map_iff in Hiin as [a' [Ea Hin]]. exists a'. split; [exact Hin|]. apply Z.eqb_eq. exact Ea. }
  rewrite Ho4, Ho', Ha', existsb_pair_deleted. simpl.
  split; [reflexivity|]. split; [reflexivity|]. split.
  - apply filter_pairs_app_agent.
  - apply filter_pairs_app_other.
Qed.

Lemma agent_put_updates_witness :
  let (x', r) := xrun (agent_put admin_verify (Some "Bearer admintoken") (Some 2)
                         (mkAgentUpdateBody (Some "renamed") None (Some 7))) seen_db in
  xstatus r = 200 /\
  agents (base x') = map (set_name_status "renamed" "active" 2) (agents (base seen_db)) /\
  filter (fun oa => snd oa =? 2) (organization_agents x') = [(7, 2)] /\
  filter (fun oa => negb (snd oa =? 2)) (organization_agents x') =
    filter (fun oa => negb (snd oa =? 2)) (organization_agents seen_db).
Proof.
  exact (agent_put_updates admin_verify (Some "Bearer admintoken") "admintoken"
           (mkClaims 1 "admin" (Some "admin")) 2 (mkAgentUpdateBody (Some "renamed") None (Some 7))
           "renamed" 7 seen_db eq_refl ltac:(discriminate) eq_refl eq_refl eq_refl ltac:(discriminate)
           eq_refl ltac:(discriminate) ltac:(simpl; tauto) ltac:(simpl; tauto)
           ltac:(simpl; lia) ltac:(simpl; lia) eq_refl eq_refl).
Defined.

Lemma set_base_same : forall x, set_base x (base x) = x.
Proof. intros [s o oa c cs us useq]. reflexivity. Qed.

Lemma x_auth_found : forall h next x k a rest,
  header_api_key h = Some k -> k <> "" -> agents_with_key (base x) k = a :: rest ->
  x_authenticate_agent h next x = next a (set_base x (touched (base x) (a_id a))).
Proof.
  intros h next x k a rest Hk Hne Hf. unfold x_authenticate_agent. rewrite Hk.
  destruct (String.eqb_spec k "") as [E|_]; [contradiction|].
  unfold xbind, lift, authenticate_agent_db, try_catch, bind, agents_by_api_key.
  unfold agents_with_key in Hf. rewrite Hf. reflexivity.
Qed.

Lemma x_auth_unknown : forall h next x k,
  header_api_key h = Some k -> k <> "" -> agents_with_key (base x) k = [] ->
  x_authenticate_agent h next x =
    (Ret (to_xresponse (res_error 403 "Invalid agent API key")), x).
Proof.
  intros h next x k Hk Hne Hf. unfold x_authenticate_agent. rewrite Hk.
  destruct (String.eqb_spec k "") as [E|_]; [contradiction|].
  unfold xbind, lift, authenticate_agent_db, try_catch, bind, agents_by_api_key.
  unfold agents_with_key in Hf. rewrite Hf. simpl. rewrite set_base_same. reflexivity.
Qed.

Lemma existsb_id_touch : forall l id t i,
  existsb (fun a => a_id a =? i) (map (touch_agent id t) l) = existsb (fun a => a_id a =? i) l.
Proof.
  intros l id t i. induction l as [|a l IH]; simpl; [reflexivity|]. rewrite IH.
  unfold touch_agent. destruct (a_id a =? id); reflexivity.
Qed.

Lemma agents_with_key_in : forall s k a rest, agents_with_key s k = a :: rest -> In a (agents s).
Proof.
  intros s k a rest H. apply (filter_In (fun a => String.eqb (a_api_key a) k)).
  unfold agents_with_key in H. rewrite H. left. reflexivity.
Qed.

Lemma agent_orgs_in : forall x aid o, In o (agent_orgs x aid) -> In o (organizations x).
Proof.
  intros x aid o H. unfold agent_orgs in H. apply in_flat_map in H as [oa [_ H]].
  destruct (snd oa =? aid); [|destruct H]. apply filter_In in H as [H _]. exact H.
Qed.

Lemma agent_orgs_set_base : forall x s aid, agent_orgs (set_base x s) aid = agent_orgs x aid.
Proof. intros [s0 o oa c cs us useq] s aid. reflexivity. Qed.

Lemma agent_config_get_found : forall h x k a rest,
  header_api_key h = Some k -> k <> "" -> agents_with_key (base x) k = a :: rest ->
  xrun (agent_config_get h) x =
    let x1 := set_base x (touched (base x) (a_id a)) in
    match filter (fun c => c_agent_id c =? a_id a) (agent_configs x) with
    | c :: _ => (x1, x_json (config_response c))
    | [] => (set_agent_configs x1 (agent_configs x ++ [default_config x (a_id a)])
                               (agent_configs_seq x + 1),
             x_json (config_response (default_config x (a_id a))))
    end.
Proof.
  intros h x k a rest Hk Hne Hf. unfold xrun, agent_config_get.
  rewrite (x_auth_found h _ x k a rest Hk Hne Hf).
  unfold xcatch_500, xtry_catch, xbind, organizations_of_agent, configs_of_agent. simpl.
  destruct (filter (fun c => c_agent_id c =? a_id a) (agent_configs x)) as [|c cs] eqn:Hc;
    [|reflexivity].
  unfold insert_config, config_refs_ok. simpl.
  assert (E1 : existsb (fun c => c_agent_id c =? a_id a) (agent_configs x) = false).
  { apply not_true_is_false. intros Hex. apply existsb_exists in Hex as [c [Hin Hid]].
    assert (Hin' : In c (filter (fun c => c_agent_id c =? a_id a) (agent_configs x)))
      by (apply filter_In; split; assumption).
    rewrite Hc in Hin'. destruct Hin'. }
  assert (E2 : existsb (fun a0 => a_id a0 =? a_id a) (map (touch_agent (a_id a) (clock (base x)))
                 (agents (base x))) = true).
  { rewrite existsb_id_touch. apply existsb_exists. exists a.
    split; [exact (agents_with_key_in _ _ _ _ Hf)|apply Z.eqb_refl]. }
  assert (E3 : match option_map o_id (hd_error (agent_orgs x (a_id a))) with
               | Some o => existsb (fun g => o_id g =? o) (organizations x)
               | None => true end = true).
  { destruct (agent_orgs x (a_id a)) as [|o os] eqn:Ho; [reflexivity|]. simpl.
    apply existsb_exists. exists o. split; [|apply Z.eqb_refl].
    apply (agent_orgs_in x (a_id a)). rewrite Ho. left. reflexivity. }
  rewrite E1, E2, agent_orgs_set_base, E3. reflexivity.
Qed.

Lemma base_set_xclock : forall x t, base (set_xclock x t) = set_clock (base x) t.
Proof. reflexivity. Qed.

Lemma agent_configs_set_xclock : forall x t, agent_configs (set_xclock x t) = agent_configs x.
Proof. reflexivity. Qed.

Lemma x_auth_none : forall h next x,
  (header_api_key h = None \/ header_api_key h = Some "") ->
  x_authenticate_agent h next x = (Ret (x_error 401 "Agent authentication required"), x).
Proof. intros h next x [E|E]; unfold x_authenticate_agent; rewrite E; reflexivity. Qed.

(** X9: GET /api/agents/config is repeatable: a second request, at any time, answers
    the same as the first and stores no further configuration. *)
Theorem agent_config_get_repeatable : forall h x t1 t2,
  let x1 := fst (xrun (agent_config_get h) (set_xclock x t1)) in
  snd (xrun (agent_config_get h) (set_xclock x1 t2)) =
    snd (xrun (agent_config_get h) (set_xclock x t1)) /\
  agent_configs (fst (xrun (agent_config_get h) (set_xclock x1 t2))) = agent_configs x1.
Proof.
  intros h x t1 t2 x1.
  destruct (header_api_key h) as [k|] eqn:Hk.
  2:{ subst x1. unfold xrun, agent_config_get. rewrite !x_auth_none by (left; exact Hk). split; reflexivity. }
  destruct (String.eqb_spec k "") as [Ek|Hne].
  { subst k x1. unfold xrun, agent_config_get. rewrite !x_auth_none by (right; exact Hk). split; reflexivity. }
  destruct (agents_with_key (base (set_xclock x t1)) k) as [|a rest] eqn:Hf.
  - subst x1. unfold xrun, agent_config_get.
    rewrite (x_auth_unknown h _ _ k Hk Hne Hf). simpl fst. simpl snd.
    rewrite (x_auth_unknown h _ _ k Hk Hne); [split; reflexivity|].
    exact Hf.
  - assert (E1 := agent_config_get_found h (set_xclock x t1) k a rest Hk Hne Hf).
    subst x1. rewrite E1.
    set (a' := touch_agent (a_id a) t1 a).
    assert (Hf2 : forall y, agents (base y) = map (touch_agent (a_id a) t1) (agents (base (set_xclock x t1))) ->
                  agents_with_key (base (set_xclock y t2)) k = a' :: map (touch_agent (a_id a) t1) rest).
    { intros y Hy. unfold agents_with_key. simpl. rewrite Hy.
      rewrite filter_key_touch. unfold agents_with_key in Hf. rewrite Hf. reflexivity. }
    assert (Hid : a_id a' = a_id a) by (unfold a', touch_agent; destruct (a_id a =? a_id a); reflexivity).
    destruct (filter (fun c => c_agent_id c =? a_id a) (agent_configs (set_xclock x t1)))
      as [|c cs] eqn:Hc; simpl fst; simpl snd.
    + erewrite (agent_config_get_found h _ k a'); [|exact Hk|exact Hne|apply Hf2; reflexivity]. rewrite Hid. simpl.
      rewrite agent_configs_set_xclock in Hc.
      rewrite filter_app, Hc. simpl. rewrite Z.eqb_refl. simpl. split; reflexivity.
    + erewrite (agent_config_get_found h _ k a'); [|exact Hk|exact Hne|apply Hf2; reflexivity]. rewrite Hid. simpl.
      rewrite agent_configs_set_xclock in Hc. rewrite Hc. split; reflexivity.
Qed.

(** X10: an agent's first GET /api/agents/config, with no stored configuration, answers the
    default configuration and appends exactly one row holding those defaults for the
    agent and its first organization. *)
Theorem agent_config_first_get_defaults : forall h x k a rest,
  header_api_key h = Some k -> k <> "" -> agents_with_key (base x) k = a :: rest ->
  filter (fun c => c_agent_id c =? a_id a) (agent_configs x) = [] ->
  snd (xrun (agent_config_get h) x) =
    x_json (JsObj [("subnets", JsArr [JsStr "192.168.1.0/24"]);
                   ("snmp_community", JsStr "public"); ("snmp_timeout", JsNum 2);
                   ("polling_interval", JsNum 300); ("discovery_interval", JsNum 86400)]) /\
  exists c, agent_configs (fst (xrun (agent_config_get h) x)) = (agent_configs x ++ [c])%list /\
    c_agent_id c = a_id a /\
    c_organization_id c = option_map o_id (hd_error (agent_orgs x (a_id a))) /\
    c_subnet_ranges c = ["192.168.1.0/24"] /\ c_snmp_community c = Some "public" /\
    c_snmp_timeout c = Some 2 /\ c_polling_interval c = Some 300 /\
    c_discovery_interval c = Some 86400.
Proof.
  intros h x k a rest Hk Hne Hf Hc.
  rewrite (agent_config_get_found h x k a rest Hk Hne Hf). rewrite Hc. simpl.
  split; [reflexivity|].
  exists (default_config x (a_id a)). repeat split.
Qed.

Lemma agent_config_first_get_defaults_witness :
  snd (xrun (agent_config_get (Some "Bearer k1")) seen_db) =
    x_json (JsObj [("subnets", JsArr [JsStr "192.168.1.0/24"]);
                   ("snmp_community", JsStr "public"); ("snmp_timeout", JsNum 2);
                   ("polling_interval", JsNum 300); ("discovery_interval", JsNum 86400)]) /\
  exists c, agent_configs (fst (xrun (agent_config_get (Some "Bearer k1")) seen_db)) =
              (agent_configs seen_db ++ [c])%list /\
    c_agent_id c = 1 /\
    c_organization_id c = Some 7 /\
    c_subnet_ranges c = ["192.168.1.0/24"] /\ c_snmp_community c = Some "public" /\
    c_snmp_timeout c = Some 2 /\ c_polling_interval c = Some 300 /\
    c_discovery_interval c = Some 86400.
Proof.
  exact (agent_config_first_get_defaults (Some "Bearer k1") seen_db "k1"
           (mkAgent 1 "a1" "first" None None None None "k1" (Some "active") (Some 50)) []
           eq_refl ltac:(discriminate) eq_refl eq_refl).
Defined.

Lemma filter_set_config_values : forall subnets community timeout polling discovery t i l,
  filter (fun c => c_agent_id c =? i)
         (map (set_config_values subnets community timeout polling discovery t i) l) =
  map (set_config_values subnets community timeout polling discovery t i)
      (filter (fun c => c_agent_id c =? i) l).
Proof.
  intros subnets community timeout polling discovery t i l.
  induction l as [|c l IH]; [reflexivity|].
  assert (Hp : c_agent_id (set_config_values subnets community timeout polling discovery t i c)
               = c_agent_id c) by (unfold set_config_values; destruct (c_agent_id c =? i); reflexivity).
  cbn [map filter]. rewrite Hp. destruct (c_agent_id c =? i); [|exact IH].
  cbn [map]. rewrite IH. reflexivity.
Qed.

Lemma filter_nil_existsb : forall {A} (p : A -> bool) l, filter p l = [] -> existsb p l = false.
Proof.
  intros A p l H. apply not_true_is_false. intros Hex.
  apply existsb_exists in Hex as [y [Hin Hy]].
  assert (Hin' : In y (filter p l)) by (apply filter_In; split; assumption).
  rewrite H in Hin'. destruct Hin'.
Qed.

Lemma agent_orgs_head_exists : forall x aid,
  match option_map o_id (hd_error (agent_orgs x aid)) with
  | Some o => existsb (fun g => o_id g =? o) (organizations x)
  | None => true
  end = true.
Proof.
  intros x aid. destruct (agent_orgs x aid) as [|o os] eqn:Ho; [reflexivity|]. simpl.
  apply existsb_exists. exists o. split; [|apply Z.eqb_refl].
  apply (agent_orgs_in x aid). rewrite Ho. left. reflexivity.
Qed.

Lemma agent_config_put_ok : forall verify h tok u i b x,
  header_api_key h = Some tok -> tok <> "" -> verify tok = Some u -> j_role u = Some "admin" ->
  existsb (fun a => a_id a =? i) (agents (base x)) = true ->
  (String.length (or_default (cb_snmp_community b) "public") <= 50)%nat ->
  int4_ok (num_or_default (cb_snmp_timeout b) 2) = true ->
  int4_ok (num_or_default (cb_polling_interval b) 300) = true ->
  int4_ok (num_or_default (cb_discovery_interval b) 86400) = true ->
  exists c cs x1,
    agent_config_put verify h (Some i) b x = (Ret (x_json (config_row c)), x1) /\
    base x1 = base x /\
    filter (fun c => c_agent_id c =? i) (agent_configs x1) = c :: cs /\
    c_subnet_ranges c = match cb_subnet_ranges b with Some l => l | None => default_subnets end /\
    c_snmp_community c = Some (or_default (cb_snmp_community b) "public") /\
    c_snmp_timeout c = Some (num_or_default (cb_snmp_timeout b) 2) /\
    c_polling_interval c = Some (num_or_default (cb_polling_interval b) 300) /\
    c_discovery_interval c = Some (num_or_default (cb_discovery_interval b) 86400).
Proof.
  intros verify h tok u i b x Hh Hne Hv Hr Hex Hcomm Hto Hpo Hdi.
  unfold agent_config_put, admin_only, authenticate_token. rewrite Hh.
  destruct (String.eqb_spec tok "") as [E|_]; [contradiction|]. rewrite Hv.
  unfold authorize. rewrite Hr. cbn -[String.eqb filter]. rewrite String.eqb_refl.
  cbn -[String.eqb filter].
  unfold xcatch_500, xtry_catch, xbind, agents_by_id.
  destruct (filter (fun a => a_id a =? i) (agents (base x))) as [|a0 rest] eqn:Ha.
  { apply filter_nil_existsb in Ha. rewrite Ha in Hex. discriminate. }
  unfold organizations_of_agent, upsert_config, xret.
  rewrite Hto, Hpo, Hdi, (varchar_str_fits 50 _ Hcomm). cbv zeta. simpl negb. cbv iota.
  destruct (filter (fun c => c_agent_id c =? i) (agent_configs x)) as [|c0 cs] eqn:Hc.
  - unfold config_refs_ok.
    rewrite Hex, agent_orgs_head_exists. simpl.
    eexists; eexists; eexists. split; [reflexivity|].
    split; [reflexivity|]. split; [|repeat split].
    simpl. rewrite filter_app, Hc. simpl. rewrite Z.eqb_refl. reflexivity.
  - eexists; eexists; eexists. split; [reflexivity|].
    split; [reflexivity|]. split.
    + unfold set_agent_configs. cbn [agent_configs]. rewrite filter_set_config_values, Hc. reflexivity.
    + unfold set_config_values. assert (Hi : (c_agent_id c0 =? i) = true).
      { assert (Hin : In c0 (filter (fun c => c_agent_id c =? i) (agent_configs x)))
          by (rewrite Hc; left; reflexivity).
        apply filter_In in Hin as [_ Hin]. exact Hin. }
      rewrite Hi. repeat split.
Qed.

(** X11: after an admin's PUT /api/agents/config/:id, the agent's GET /api/agents/config
    answers the values sent, with every missing or falsy field replaced by its default,
    when the SNMP community (after its default) fits its VARCHAR(50) and the three
    numbers (after their defaults) are [INTEGER] values. *)
Theorem agent_config_put_then_get : forall verify h tok u i b hk k a rest x,
  header_api_key h = Some tok -> tok <> "" -> verify tok = Some u -> j_role u = Some "admin" ->
  header_api_key hk = Some k -> k <> "" -> agents_with_key (base x) k = a :: rest -> a_id a = i ->
  (String.length (or_default (cb_snmp_community b) "public") <= 50)%nat ->
  int4_ok (num_or_default (cb_snmp_timeout b) 2) = true ->
  int4_ok (num_or_default (cb_polling_interval b) 300) = true ->
  int4_ok (num_or_default (cb_discovery_interval b) 86400) = true ->
  let x1 := fst (xrun (agent_config_put verify h (Some i) b) x) in
  xstatus (snd (xrun (agent_config_put verify h (Some i) b) x)) = 200 /\
  snd (xrun (agent_config_get hk) x1) =
    x_json (JsObj [("subnets", JsArr (map JsStr (match cb_subnet_ranges b with
                                                 | Some l => l
                                                 | None => default_subnets
                                                 end)));
                   ("snmp_community", JsStr (or_default (cb_snmp_community b) "public"));
                   ("snmp_timeout", JsNum (num_or_default (cb_snmp_timeout b) 2));
                   ("polling_interval", JsNum (num_or_default (cb_polling_interval b) 300));
                   ("discovery_interval", JsNum (num_or_default (cb_discovery_interval b) 86400))]).
Proof.
  intros verify h tok u i b hk k a rest x Hh Hne Hv Hr Hk Hkne Hf Hid Hcomm Hto Hpo Hdi x1.
  assert (Hex : existsb (fun a => a_id a =? i) (agents (base x)) = true).
  { apply existsb_exists. exists a. split; [exact (agents_with_key_in _ _ _ _ Hf)|].
    rewrite Hid. apply Z.eqb_refl. }
  destruct (agent_config_put_ok verify h tok u i b x Hh Hne Hv Hr Hex Hcomm Hto Hpo Hdi)
    as [c [cs [x2 [Hput [Hb [Hc [H1 [H2 [H3 [H4 H5]]]]]]]]]].
  assert (Hrun : xrun (agent_config_put verify h (Some i) b) x = (x2, x_json (config_row c)))
    by (unfold xrun; rewrite Hput; reflexivity).
  subst x1. rewrite Hrun. simpl fst. simpl snd.
  split; [reflexivity|].
  rewrite (agent_config_get_found hk x2 k a rest Hk Hkne); [|rewrite Hb; exact Hf].
  rewrite Hid, Hc. simpl. unfold config_response. rewrite H1, H2, H3, H4, H5. reflexivity.
Qed.

Lemma agent_config_put_then_get_witness :
  let b := mkConfigBody (Some ["10.0.0.0/8"]) (Some "") (Some 0) (Some 60) None in
  xstatus (snd (xrun (agent_config_put admin_verify (Some "Bearer admintoken") (Some 1) b)
                     seen_db)) = 200 /\
  snd (xrun (agent_config_get (Some "Bearer k1"))
            (fst (xrun (agent_config_put admin_verify (Some "Bearer admintoken") (Some 1) b)
                       seen_db))) =
    x_json (JsObj [("subnets", JsArr [JsStr "10.0.0.0/8"]);
                   ("snmp_community", JsStr "public"); ("snmp_timeout", JsNum 2);
                   ("polling_interval", JsNum 60); ("discovery_interval", JsNum 86400)]).
Proof.
  exact (agent_config_put_then_get admin_verify (Some "Bearer admintoken") "admintoken"
           (mkClaims 1 "admin" (Some "admin")) 1
           (mkConfigBody (Some ["10.0.0.0/8"]) (Some "") (Some 0) (Some 60) None)
           (Some "Bearer k1") "k1"
           (mkAgent 1 "a1" "first" None None None None "k1" (Some "active") (Some 50)) []
           seen_db eq_refl ltac:(discriminate) eq_refl eq_refl eq_refl ltac:(discriminate)
           eq_refl eq_refl ltac:(simpl; lia) eq_refl eq_refl eq_refl).
Defined.

(** X12: POST /api/login answers 401 "Invalid credentials" alike for an unknown username and
    for a wrong password, and changes nothing. *)
Theorem login_failures_alike : forall cmp sign n p x,
  n <> "" -> p <> "" ->
  (filter (fun u => String.eqb (u_username u) n) (users x) = [] \/
   exists u rest, filter (fun u => String.eqb (u_username u) n) (users x) = u :: rest /\
                  cmp p (u_password u) = false) ->
  xrun (login_post cmp sign (mkLoginBody (Some n) (Some p))) x =
    (x, x_error 401 "Invalid credentials").
Proof.
  intros cmp sign n p x Hn Hp H.
  unfold xrun, login_post, xcatch_500, xtry_catch. cbn [l_username l_password].
  destruct (String.eqb_spec n "") as [E|_]; [contradiction|].
  destruct (String.eqb_spec p "") as [E|_]; [contradiction|]. simpl orb.
  unfold xbind, users_by_username. cbn -[filter String.eqb].
  destruct H as [H|[u [rest [H Hc]]]]; rewrite H; [reflexivity|].
  rewrite Hc. reflexivity.
Qed.

Lemma login_failures_alike_witness :
  xrun (login_post bob_compare (fun _ _ => "tok") (mkLoginBody (Some "eve") (Some "secret")))
       users_db = (users_db, x_error 401 "Invalid credentials") /\
  xrun (login_post bob_compare (fun _ _ => "tok") (mkLoginBody (Some "bob") (Some "guess")))
       users_db = (users_db, x_error 401 "Invalid credentials").
Proof.
  split.
  - apply login_failures_alike; [discriminate|discriminate|left; reflexivity].
  - apply login_failures_alike; [discriminate|discriminate|right].
    exists bob, []. split; reflexivity.
Defined.

(** X13: a successful POST /api/login stores the current time as the user's last_login and
    answers a token signed over id, username and role, with the user's id, username,
    email and role. *)
Theorem login_success : forall cmp sign n p x u rest,
  n <> "" -> p <> "" ->
  filter (fun u => String.eqb (u_username u) n) (users x) = u :: rest ->
  cmp p (u_password u) = true ->
  let t := clock (base x) in
  xrun (login_post cmp sign (mkLoginBody (Some n) (Some p))) x =
    (set_users x (map (touch_login (u_id u) t) (users x)) (users_seq x),
     x_json (JsObj [("token", JsStr (sign (mkClaims (u_id u) n (Some (u_role u))) t));
                    ("user", JsObj [("id", JsNum (u_id u)); ("username", JsStr n);
                                    ("email", JsStr (u_email u)); ("role", JsStr (u_role u))])])).
Proof.
  intros cmp sign n p x u rest Hn Hp H Hc t.
  assert (Hu : u_username u = n).
  { assert (Hin : In u (filter (fun u => String.eqb (u_username u) n) (users x)))
      by (rewrite H; left; reflexivity).
    apply filter_In in Hin as [_ Hin]. apply String.eqb_eq. exact Hin. }
  unfold xrun, login_post, xcatch_500, xtry_catch. cbn [l_username l_password].
  destruct (String.eqb_spec n "") as [E|_]; [contradiction|].
  destruct (String.eqb_spec p "") as [E|_]; [contradiction|]. simpl orb.
  unfold xbind, users_by_username. cbn -[filter String.eqb]. rewrite H, Hc. simpl negb.
  unfold update_last_login, xnow, xret, user_summary. rewrite Hu. reflexivity.
Qed.

Lemma login_success_witness :
  xrun (login_post bob_compare (fun c t => (j_username c ++ "@" ++ count_text (Z.to_nat t))%string)
                   (mkLoginBody (Some "bob") (Some "secret"))) users_db =
    (mkXdb empty_db [] [] [] 1 [mkUser 1 "bob" "hash-of-secret" "bob@example.com" "user" (Some 0)] 2,
     x_json (JsObj [("token", JsStr "bob@0");
                    ("user", JsObj [("id", JsNum 1); ("username", JsStr "bob");
                                    ("email", JsStr "bob@example.com"); ("role", JsStr "user")])])).
Proof.
  exact (login_success bob_compare
           (fun c t => (j_username c ++ "@" ++ count_text (Z.to_nat t))%string)
           "bob" "secret" users_db bob [] ltac:(discriminate) ltac:(discriminate) eq_refl eq_refl).
Defined.

(** The cases of [users_post] where no user is added. *)
Ltac users_left :=
  left; simpl; split; [reflexivity|split; [first [left; reflexivity|right; reflexivity]|discriminate]].

Lemma users_post_cases : forall verify h b hashed x,
  (users (fst (xrun (users_post verify h b hashed) x)) = users x /\
   (fst (xrun (users_post verify h b hashed) x) = x \/
    fst (xrun (users_post verify h b hashed) x) = set_users x (users x) (users_seq x + 1)) /\
   xstatus (snd (xrun (users_post verify h b hashed) x)) <> 201) \/
  exists n e n' e' p' r', nb_username b = Some n /\ nb_email b = Some e /\
    varchar_str 50 n = Some n' /\ varchar_str 100 e = Some e' /\
    varchar_str 100 hashed = Some p' /\ varchar_str 20 (or_default (nb_role b) "user") = Some r' /\
    existsb (fun v => String.eqb (u_username v) n') (users x) = false /\
    existsb (fun v => String.eqb (u_email v) e') (users x) = false /\
    let u := mkUser (users_seq x) n' p' e' r' None in
    xrun (users_post verify h b hashed) x =
      (set_users x (users x ++ [u]) (users_seq x + 1), mkXResp 201 (user_summary u)).
Proof.
  intros verify h b hashed x.
  unfold xrun, users_post, admin_only, authenticate_token.
  destruct (header_api_key h) as [tok|]; [|users_left].
  destruct (String.eqb tok ""); [users_left|].
  destruct (verify tok) as [u|]; [|users_left].
  unfold authorize. cbn -[String.eqb filter].
  destruct (negb (match j_role u with Some r => String.eqb "admin" r | None => false end || false));
    [users_left|].
  unfold xcatch_500, xtry_catch.
  destruct (nb_username b) as [n|]; [|users_left].
  destruct (nb_email b) as [e|]; [|users_left].
  destruct (nb_password b) as [p|]; [|users_left].
  destruct (String.eqb n "" || String.eqb e "" || String.eqb p ""); [users_left|].
  unfold xbind, users_by_name_or_email. cbn -[String.eqb filter].
  destruct (filter (fun u => String.eqb (u_username u) n || String.eqb (u_email u) e) (users x))
    as [|v vs] eqn:Hf; [|users_left].
  unfold insert_user. cbn -[String.eqb filter existsb varchar_str].
  destruct (varchar_str 50 n) as [n'|] eqn:V1; [|users_left].
  destruct (varchar_str 100 e) as [e'|] eqn:V2; [|users_left].
  destruct (varchar_str 100 hashed) as [p'|] eqn:V3; [|users_left].
  destruct (varchar_str 20 (or_default (nb_role b) "user")) as [r'|] eqn:V4; [|users_left].
  destruct (existsb (fun u => String.eqb (u_username u) n') (users x)) eqn:E1; [users_left|].
  destruct (existsb (fun u => String.eqb (u_email u) e') (users x)) eqn:E2; [users_left|].
  right. exists n, e, n', e', p', r'. repeat split; assumption.
Qed.

(** X14: an admin's POST /api/users whose username or email is already taken answers 409 and
    changes nothing. *)
Theorem users_post_conflict : forall verify h tok u n e p r hashed x,
  header_api_key h = Some tok -> tok <> "" -> verify tok = Some u -> j_role u = Some "admin" ->
  n <> "" -> e <> "" -> p <> "" ->
  existsb (fun v => String.eqb (u_username v) n || String.eqb (u_email v) e) (users x) = true ->
  xrun (users_post verify h (mkUserBody (Some n) (Some e) (Some p) r) hashed) x =
    (x, x_error 409 "Username or email already exists").
Proof.
  intros verify h tok u n e p r hashed x Hh Hne Hv Hr Hn He Hp Hex.
  unfold xrun, users_post, admin_only, authenticate_token. rewrite Hh.
  destruct (String.eqb_spec tok "") as [E|_]; [contradiction|]. rewrite Hv.
  unfold authorize. rewrite Hr. cbn -[String.eqb filter]. rewrite String.eqb_refl.
  cbn -[String.eqb filter].
  unfold xcatch_500, xtry_catch.
  destruct (String.eqb_spec n "") as [E|_]; [contradiction|].
  destruct (String.eqb_spec e "") as [E|_]; [contradiction|].
  destruct (String.eqb_spec p "") as [E|_]; [contradiction|]. simpl orb.
  unfold xbind, users_by_name_or_email. cbn -[String.eqb filter].
  destruct (filter (fun v => String.eqb (u_username v) n || String.eqb (u_email v) e) (users x))
    as [|v vs] eqn:Hf; [|reflexivity].
  rewrite (filter_nil_existsb _ _ Hf) in Hex. discriminate.
Qed.


Lemma users_post_conflict_witness :
  xrun (users_post admin_verify (Some "Bearer admintoken")
          (mkUserBody (Some "robert") (Some "bob@example.com") (Some "pw") None) "h2") users_db =
    (users_db, x_error 409 "Username or email already exists").
Proof.
  exact (users_post_conflict admin_verify (Some "Bearer admintoken") "admintoken"
           (mkClaims 1 "admin" (Some "admin")) "robert" "bob@example.com" "pw" None "h2" users_db
           eq_refl ltac:(discriminate) eq_refl eq_refl ltac:(discriminate) ltac:(discriminate)
           ltac:(discriminate) eq_refl).
Defined.

(** X15: POST /api/users either leaves the users table as it was and answers something other
    than 201 (the database unchanged, or only the users id sequence advanced by an INSERT that
    took its id and then failed), or answers 201 and appends one user with the next id, no
    last_login, and the hashed password and the role ("user" when none is sent) as their
    VARCHAR(100) and VARCHAR(20) columns store them; the sequence then moves past that id. *)
Theorem users_post_effect : forall verify h b hashed x,
  ((fst (xrun (users_post verify h b hashed) x) = x \/
    fst (xrun (users_post verify h b hashed) x) = set_users x (users x) (users_seq x + 1)) /\
   xstatus (snd (xrun (users_post verify h b hashed) x)) <> 201) \/
  (xstatus (snd (xrun (users_post verify h b hashed) x)) = 201 /\
   exists u, users (fst (xrun (users_post verify h b hashed) x)) = (users x ++ [u])%list /\
     varchar_str 100 hashed = Some (u_password u) /\
     varchar_str 20 (or_default (nb_role b) "user") = Some (u_role u) /\
     u_last_login u = None /\ u_id u = users_seq x /\
     users_seq (fst (xrun (users_post verify h b hashed) x)) = users_seq x + 1 /\
     xbody (snd (xrun (users_post verify h b hashed) x)) = user_summary u).
Proof.
  intros verify h b hashed x.
  destruct (users_post_cases verify h b hashed x)
    as [[_ H]|[n [e [n' [e' [p' [r' [_ [_ [_ [_ [V3 [V4 [_ [_ H]]]]]]]]]]]]]]];
    [left; exact H|right].
  rewrite H. split; [reflexivity|].
  eexists. split; [reflexivity|]. split; [exact V3|]. split; [exact V4|].
  repeat split.
Qed.

Lemma NoDup_snoc : forall {A} (l : list A) a, NoDup l -> ~ In a l -> NoDup (l ++ [a]).
Proof.
  intros A l a Hl Ha. apply NoDup_app; [exact Hl|constructor; [intros []|constructor]|].
  intros y Hy [<-|[]]. contradiction.
Qed.

Lemma existsb_eqb_not_in : forall (f : user -> string) l n,
  existsb (fun v => String.eqb (f v) n) l = false -> ~ In n (map f l).
Proof.
  intros f l n H Hin. apply in_map_iff in Hin as [v [Hv Hin]].
  assert (Hex : existsb (fun v => String.eqb (f v) n) l = true).
  { apply existsb_exists. exists v. split; [exact Hin|]. apply String.eqb_eq. exact Hv. }
  congruence.
Qed.

(** X16: POST /api/users keeps usernames unique and emails unique. *)
Theorem users_post_keeps_unique : forall verify h b hashed x,
  NoDup (map u_username (users x)) -> NoDup (map u_email (users x)) ->
  NoDup (map u_username (users (fst (xrun (users_post verify h b hashed) x)))) /\
  NoDup (map u_email (users (fst (xrun (users_post verify h b hashed) x)))).
Proof.
  intros verify h b hashed x Hu He.
  destruct (users_post_cases verify h b hashed x)
    as [[H _]|[n [e [n' [e' [p' [r' [_ [_ [_ [_ [_ [_ [E1 [E2 H]]]]]]]]]]]]]]].
  - rewrite H. split; assumption.
  - rewrite H. simpl. rewrite !map_app. simpl. split.
    + apply NoDup_snoc; [exact Hu|exact (existsb_eqb_not_in u_username _ _ E1)].
    + apply NoDup_snoc; [exact He|exact (existsb_eqb_not_in u_email _ _ E2)].
Qed.

Lemma users_post_keeps_unique_witness :
  NoDup (map u_username (users (fst (xrun (users_post admin_verify (Some "Bearer admintoken")
          (mkUserBody (Some "carol") (Some "carol@example.com") (Some "pw") None) "h3") users_db)))) /\
  NoDup (map u_email (users (fst (xrun (users_post admin_verify (Some "Bearer admintoken")
          (mkUserBody (Some "carol") (Some "carol@example.com") (Some "pw") None) "h3") users_db)))).
Proof.
  apply users_post_keeps_unique.
  - vm_compute. constructor; [intros []|constructor].
  - vm_compute. constructor; [intros []|constructor].
Defined.

Lemma count_zero_existsb : forall {A} (p : A -> bool) l,
  (Z.of_nat (length (filter p l)) =? 0) = negb (existsb p l).
Proof.
  intros A p l. induction l as [|y l IH]; [reflexivity|].
  simpl. destruct (p y); [simpl; lia|exact IH].
Qed.

Lemma existsb_app_true_r : forall {A} (p : A -> bool) l y, p y = true -> existsb p (l ++ [y]) = true.
Proof. intros A p l y H. rewrite existsb_app. simpl. rewrite H. apply orb_true_r. Qed.

(** X17: once initializeDatabase has succeeded there is an admin user, and running it again,
    with any arguments, succeeds and changes nothing. *)
Theorem initialize_database_idempotent : forall un em hashed x x',
  initialize_database un em hashed x = (Ret tt, x') ->
  existsb (fun u => String.eqb (u_role u) "admin") (users x') = true /\
  forall un' em' hashed', initialize_database un' em' hashed' x' = (Ret tt, x').
Proof.
  intros un em hashed x x' H.
  assert (Hadm : existsb (fun u => String.eqb (u_role u) "admin") (users x') = true).
  { revert H. unfold initialize_database, xbind, count_admins. rewrite count_zero_existsb.
    destruct (existsb (fun u => String.eqb (u_role u) "admin") (users x)) eqn:E; simpl.
    - intros H. inversion H; subst. exact E.
    - unfold insert_user. rewrite (varchar_str_fits 20 "admin") by (simpl; lia).
      destruct (varchar_str 50 _); [|discriminate].
      destruct (varchar_str 100 _); [|discriminate].
      destruct (varchar_str 100 hashed); [|discriminate].
      destruct (_ || _); [discriminate|].
      intros H. inversion H; subst. simpl. apply existsb_app_true_r. reflexivity. }
  split; [exact Hadm|].
  intros un' em' hashed'. unfold initialize_database, xbind, count_admins.
  rewrite count_zero_existsb, Hadm. reflexivity.
Qed.


Lemma initialize_database_idempotent_witness :
  existsb (fun u => String.eqb (u_role u) "admin")
    (users (set_users users_db (users users_db ++ [mkUser 2 "admin" "hash-a" "admin@example.com" "admin" None])%list 3)) = true /\
  forall un' em' hashed',
    initialize_database un' em' hashed'
      (set_users users_db (users users_db ++ [mkUser 2 "admin" "hash-a" "admin@example.com" "admin" None])%list 3) =
    (Ret tt, set_users users_db (users users_db ++ [mkUser 2 "admin" "hash-a" "admin@example.com" "admin" None])%list 3).
Proof.
  apply (initialize_database_idempotent None None "hash-a" users_db). reflexivity.
Defined.

(** X18: with no admin user but a user named "admin", both initializeDatabase versions fail
    on the unique username; the failed INSERT has taken the next users id, so the users
    table is unchanged and only the users id sequence has advanced.  (The hashed password
    fits its VARCHAR(100).) *)
Theorem start_up_blocked_by_admin_name : forall hashed x,
  existsb (fun u => String.eqb (u_role u) "admin") (users x) = false ->
  existsb (fun u => String.eqb (u_username u) "admin") (users x) = true ->
  (String.length hashed <= 100)%nat ->
  initialize_database None None hashed x = (Throw, set_users x (users x) (users_seq x + 1)) /\
  api_initialize_database hashed x = (Throw, set_users x (users x) (users_seq x + 1)).
Proof.
  intros hashed x Hadm Hname Hh.
  unfold initialize_database, api_initialize_database, xbind, count_admins.
  rewrite count_zero_existsb, Hadm. simpl. unfold insert_user. simpl or_default.
  rewrite (varchar_str_fits 100 hashed Hh), (varchar_str_fits 50 "admin"),
    (varchar_str_fits 100 "admin@example.com"), (varchar_str_fits 20 "admin") by (simpl; lia).
  rewrite Hname. split; reflexivity.
Qed.

Lemma start_up_blocked_by_admin_name_witness :
  let x := set_users users_db [mkUser 1 "admin" "hash-u" "me@example.com" "user" None] 2 in
  initialize_database None None "hash-a" x = (Throw, set_users x (users x) (users_seq x + 1)) /\
  api_initialize_database "hash-a" x = (Throw, set_users x (users x) (users_seq x + 1)).
Proof.
  intros x. apply start_up_blocked_by_admin_name; [reflexivity|reflexivity|simpl; lia].
Defined.

Lemma text_lt_digit_10 : forall d r,
  (50 <= Ascii.N_of_ascii d <= 57)%N -> text_lt (String d r) "10" = false.
Proof.
  intros d r Hd. simpl.
  destruct (Ascii.eqb_spec d "1"%char) as [E|_].
  - subst d. simpl in Hd. lia.
  - apply N.ltb_ge. simpl. lia.
Qed.

Lemma level_low_digits : forall jsonb_text m c,
  (forall j v, m_toner_levels m = Some j -> jsonb_text j c = Some v ->
     exists d r, v = String d r /\ (50 <= Ascii.N_of_ascii d <= 57)%N) ->
  level_low jsonb_text m c = false.
Proof.
  intros jsonb_text m c H. unfold level_low.
  destruct (m_toner_levels m) as [j|]; [|reflexivity].
  destruct (jsonb_text j c) as [v|] eqn:Ev; [|reflexivity].
  destruct (H j v eq_refl Ev) as [d [r [-> Hd]]]. apply text_lt_digit_10. exact Hd.
Qed.

Lemma printers_with_none : forall pred s,
  (forall m, In m (metrics s) -> pred m = false) -> printers_with pred s = [].
Proof.
  intros pred s H. unfold printers_with.
  induction (printers s) as [|p ps IH]; [reflexivity|]. simpl.
  assert (E : existsb (fun m => match m_printer_id m with
                                | Some i => (i =? p_id p) && pred m
                                | None => false end) (metrics s) = false).
  { apply not_true_is_false. intros Hex. apply existsb_exists in Hex as [m [Hin Hm]].
    rewrite (H m Hin) in Hm. destruct (m_printer_id m); [|discriminate].
    rewrite andb_false_r in Hm. discriminate. }
  rewrite E. exact IH.
Qed.

(** X19: the dashboard compares toner levels as text, so when every level starts with a digit
    from 2 to 9 (single-digit levels such as 5 included) lowTonerCount is 0. *)
Theorem dashboard_single_digit_levels_not_low : forall jsonb_text x,
  (forall m j c v, In m (metrics (base x)) -> m_toner_levels m = Some j ->
     jsonb_text j c = Some v ->
     exists d r, v = String d r /\ (50 <= Ascii.N_of_ascii d <= 57)%N) ->
  fst (xrun (dashboard_stats_body jsonb_text) x) = x /\
  js_field "lowTonerCount" (xbody (snd (xrun (dashboard_stats_body jsonb_text) x))) =
    Some (JsNum 0).
Proof.
  intros jsonb_text x H.
  assert (E : printers_with (fun m => recent (clock (base x)) m && toner_low jsonb_text m)
                (base x) = []).
  { apply printers_with_none. intros m Hin. unfold toner_low.
    rewrite !(level_low_digits jsonb_text m);
      try (intros j v Hj Hv; exact (H m j _ v Hin Hj Hv)).
    apply andb_false_r. }
  unfold xrun, dashboard_stats_body, xcatch_500, xtry_catch. rewrite E. split; reflexivity.
Qed.

Lemma dashboard_single_digit_levels_not_low_witness :
  fst (xrun (dashboard_stats_body five_percent) toner_db) = toner_db /\
  js_field "lowTonerCount" (xbody (snd (xrun (dashboard_stats_body five_percent) toner_db))) =
    Some (JsNum 0).
Proof.
  apply dashboard_single_digit_levels_not_low.
  intros m j c v _ _ Hv. unfold five_percent in Hv. injection Hv as <-.
  exists "5"%char, EmptyString. split; [reflexivity|]. simpl. lia.
Defined.

Lemma status_eqb_spec : forall a b, status_eqb a b = true <-> a = b.
Proof.
  intros [a|] [b|]; simpl; split; intros H; try discriminate; try reflexivity.
  - apply String.eqb_eq in H. subst. reflexivity.
  - injection H as <-. apply String.eqb_refl.
Qed.

Lemma status_eqb_refl : forall a, status_eqb a a = true.
Proof. intros a. apply status_eqb_spec. reflexivity. Qed.

Section StatusCounts.
Local Open Scope nat_scope.

Lemma list_sum_map_add : forall {A} (f g : A -> nat) l,
  list_sum (map (fun d => f d + g d) l) = list_sum (map f l) + list_sum (map g l).
Proof. intros A f g l. induction l as [|a l IH]; simpl; [reflexivity|]. rewrite IH. lia. Qed.

Lemma sum_indicator_absent : forall D a,
  ~ In a D -> list_sum (map (fun d => if status_eqb a d then 1 else 0) D) = 0.
Proof.
  induction D as [|d D IH]; intros a Ha; simpl; [reflexivity|].
  destruct (status_eqb a d) eqn:E.
  - apply status_eqb_spec in E. subst. exfalso. apply Ha. left. reflexivity.
  - apply IH. intros Hin. apply Ha. right. exact Hin.
Qed.

Lemma sum_indicator_one : forall D a,
  NoDup D -> In a D -> list_sum (map (fun d => if status_eqb a d then 1 else 0) D) = 1.
Proof.
  induction D as [|d D IH]; intros a Hnd Ha; [destruct Ha|].
  inversion Hnd as [|d' D' Hd HD]; subst. simpl.
  destruct (status_eqb a d) eqn:E.
  - apply status_eqb_spec in E. subst. rewrite sum_indicator_absent by exact Hd. reflexivity.
  - destruct Ha as [<-|Ha]; [rewrite status_eqb_refl in E; discriminate|].
    apply IH; assumption.
Qed.

Lemma sum_zero_map : forall {A} (D : list A), list_sum (map (fun _ => 0) D) = 0.
Proof. intros A D. induction D; simpl; [reflexivity|]. exact IHD. Qed.

Lemma count_sum_cover : forall l D, NoDup D -> (forall a, In a l -> In a D) ->
  list_sum (map (fun d => length (filter (fun v => status_eqb v d) l)) D) = length l.
Proof.
  induction l as [|a l IH]; intros D Hnd Hcov.
  - simpl. apply sum_zero_map.
  - rewrite (map_ext (fun d => length (filter (fun v => status_eqb v d) (a :: l)))
                     (fun d => (if status_eqb a d then 1 else 0) +
                               length (filter (fun v => status_eqb v d) l))).
    + rewrite list_sum_map_add, sum_indicator_one, IH; [simpl; reflexivity|exact Hnd| |exact Hnd|].
      * intros b Hb. apply Hcov. right. exact Hb.
      * apply Hcov. left. reflexivity.
    + intros d. simpl. destruct (status_eqb a d); reflexivity.
Qed.

Lemma distinct_statuses_nodup : forall l, NoDup (distinct_statuses l).
Proof.
  induction l as [|st l IH]; simpl; [constructor|].
  constructor.
  - intros Hin. apply filter_In in Hin as [_ Hin].
    change (negb (status_eqb st st) = true) in Hin. rewrite status_eqb_refl in Hin. discriminate.
  - apply NoDup_filter. exact IH.
Qed.

Lemma distinct_statuses_in : forall l a, In a (distinct_statuses l) <-> In a l.
Proof.
  induction l as [|st l IH]; intros a; simpl; [reflexivity|].
  rewrite filter_In, IH. split.
  - intros [->|[H _]]; [left; reflexivity|right; exact H].
  - intros [->|H]; [left; reflexivity|].
    destruct (status_eqb st a) eqn:E.
    + apply status_eqb_spec in E. left. exact E.
    + right. split; [exact H|]. change (negb (status_eqb st a) = true). rewrite E. reflexivity.
Qed.

Lemma status_count_map : forall s st,
  status_count s st = length (filter (fun v => status_eqb v st) (map p_status (printers s))).
Proof.
  intros s st. unfold status_count. induction (printers s) as [|p ps IH]; [reflexivity|].
  simpl. change (match p_status p, st with
                 | Some a, Some b => String.eqb a b
                 | None, None => true
                 | _, _ => false end) with (status_eqb (p_status p) st).
  destruct (status_eqb (p_status p) st); simpl; rewrite IH; reflexivity.
Qed.

End StatusCounts.

(** X20: the dashboard's statusDistribution lists each printer status, NULL included, once,
    and its counts add up to the number of printers. *)
Theorem dashboard_status_distribution : forall jsonb_text x,
  exists sts,
    fst (xrun (dashboard_stats_body jsonb_text) x) = x /\
    js_field "statusDistribution" (xbody (snd (xrun (dashboard_stats_body jsonb_text) x))) =
      Some (JsArr (map (fun st => JsObj [("status", js_opt_str st);
                                         ("count", JsStr (count_text (status_count (base x) st)))])
                       sts)) /\
    NoDup sts /\
    (forall st, In st sts <-> exists p, In p (printers (base x)) /\ p_status p = st) /\
    list_sum (map (status_count (base x)) sts) = length (printers (base x)).
Proof.
  intros jsonb_text x. exists (distinct_statuses (map p_status (printers (base x)))).
  split; [reflexivity|]. split; [reflexivity|].
  split; [apply distinct_statuses_nodup|]. split.
  - intros st. rewrite distinct_statuses_in, in_map_iff.
    split; intros [p [H1 H2]]; exists p; split; assumption.
  - rewrite (map_ext (status_count (base x))
               (fun d => length (filter (fun v => status_eqb v d) (map p_status (printers (base x))))))
      by (intros d; apply status_count_map).
    rewrite count_sum_cover.
    + apply length_map.
    + apply distinct_statuses_nodup.
    + intros a Ha. apply distinct_statuses_in. exact Ha.
Qed.

(** X21: the dashboard's printerCount is the number of printers, and its lowTonerCount and
    errorCount are between 0 and that number. *)
Theorem dashboard_counts_bounded : forall jsonb_text x,
  exists low err,
    js_field "printerCount" (xbody (snd (xrun (dashboard_stats_body jsonb_text) x))) =
      Some (JsNum (Z.of_nat (length (printers (base x))))) /\
    js_field "lowTonerCount" (xbody (snd (xrun (dashboard_stats_body jsonb_text) x))) =
      Some (JsNum low) /\
    js_field "errorCount" (xbody (snd (xrun (dashboard_stats_body jsonb_text) x))) =
      Some (JsNum err) /\
    0 <= low <= Z.of_nat (length (printers (base x))) /\
    0 <= err <= Z.of_nat (length (printers (base x))).
Proof.
  intros jsonb_text x. unfold printers_with.
  eexists; eexists. split; [reflexivity|]. split; [reflexivity|]. split; [reflexivity|].
  split; split; try lia; apply Nat2Z.inj_le; apply filter_length_le.
Qed.

Lemma insert_day_in : forall d e l, In d (insert_day e l) <-> d = e \/ In d l.
Proof.
  intros d e l. induction l as [|f l IH]; simpl.
  - split; [intros [H|[]]; left; symmetry; exact H|intros [H|[]]; left; symmetry; exact H].
  - destruct (e <? f) eqn:E1.
    { simpl. split; intros [H|H]; [left; congruence|right; exact H|left; congruence|right; exact H]. }
    destruct (e =? f) eqn:E2.
    + apply Z.eqb_eq in E2. subst. simpl. split; [tauto|intros [H|H]; [left; symmetry; exact H|exact H]].
    + simpl. rewrite IH. split; intros [H|[H|H]]; auto.
Qed.

Lemma insert_day_sorted : forall e l, StronglySorted Z.lt l -> StronglySorted Z.lt (insert_day e l).
Proof.
  intros e l. induction l as [|f l IH]; intros H; simpl.
  - constructor; constructor.
  - inversion H as [|f' l' Hl Hf]; subst.
    destruct (e <? f) eqn:E1.
    + apply Z.ltb_lt in E1. constructor; [exact H|]. constructor; [exact E1|].
      eapply Forall_impl; [|exact Hf]. intros a Ha. lia.
    + destruct (e =? f) eqn:E2; [exact H|].
      apply Z.ltb_ge in E1. apply Z.eqb_neq in E2.
      constructor; [apply IH; exact Hl|].
      apply Forall_forall. intros a Ha. apply insert_day_in in Ha as [->|Ha]; [lia|].
      rewrite Forall_forall in Hf. apply Hf. exact Ha.
Qed.

Lemma page_count_days_sorted : forall ms, StronglySorted Z.lt (page_count_days ms).
Proof.
  intros ms. unfold page_count_days.
  induction (map (fun m => day_of (m_timestamp m)) (with_page_count ms)) as [|d l IH]; simpl.
  - constructor.
  - apply insert_day_sorted. exact IH.
Qed.

Lemma page_count_days_in : forall ms d,
  In d (page_count_days ms) <->
  exists m, In m ms /\ m_page_count m <> None /\ day_of (m_timestamp m) = d.
Proof.
  intros ms d. unfold page_count_days.
  assert (E : In d (fold_right insert_day [] (map (fun m => day_of (m_timestamp m)) (with_page_count ms)))
              <-> In d (map (fun m => day_of (m_timestamp m)) (with_page_count ms))).
  { induction (map (fun m => day_of (m_timestamp m)) (with_page_count ms)) as [|e l IH]; simpl;
      [reflexivity|]. rewrite insert_day_in, IH. split; intros [H|H]; auto. }
  rewrite E, in_map_iff. unfold with_page_count. split.
  - intros [m [Hd Hin]]. apply filter_In in Hin as [Hin Hp]. exists m.
    split; [exact Hin|]. split; [|exact Hd]. destruct (m_page_count m); discriminate.
  - intros [m [Hin [Hp Hd]]]. exists m. split; [exact Hd|]. apply filter_In. split; [exact Hin|].
    destruct (m_page_count m); [reflexivity|contradiction].
Qed.

Lemma strongly_sorted_app : forall (a b : list Z),
  StronglySorted Z.lt (a ++ b) ->
  StronglySorted Z.lt a /\ forall x y, In x a -> In y b -> x < y.
Proof.
  induction a as [|x a IH]; intros b H; simpl in *.
  - split; [constructor|intros _ _ []].
  - inversion H as [|x' l Hl Hx]; subst. destruct (IH b Hl) as [Ha Hab].
    rewrite Forall_forall in Hx. split.
    + constructor; [exact Ha|]. apply Forall_forall. intros z Hz. apply Hx. apply in_or_app. left. exact Hz.
    + intros u v [<-|Hu] Hv; [apply Hx; apply in_or_app; right; exact Hv|exact (Hab u v Hu Hv)].
Qed.

Lemma page_count_history_dates : forall ms,
  map (js_field "date") (page_count_history ms) =
  map (fun d => Some (JsNum d)) (firstn 30 (page_count_days ms)).
Proof. intros ms. unfold page_count_history. rewrite map_map. reflexivity. Qed.

(** X22: a printer's pageCountHistory holds at most 30 days in ascending order, each a day with
    a page count; a day with a page count is left out only when 30 earlier days fill it. *)
Theorem page_count_history_days : forall ms,
  exists ds,
    map (js_field "date") (page_count_history ms) = map (fun d => Some (JsNum d)) ds /\
    (length ds <= 30)%nat /\
    Sorted Z.lt ds /\
    (forall d, In d ds -> exists m, In m ms /\ m_page_count m <> None /\ day_of (m_timestamp m) = d) /\
    (forall m, In m ms -> m_page_count m <> None ->
       In (day_of (m_timestamp m)) ds \/
       (length ds = 30%nat /\ forall d, In d ds -> d < day_of (m_timestamp m))).
Proof.
  intros ms. exists (firstn 30 (page_count_days ms)).
  assert (Hs := page_count_days_sorted ms).
  rewrite <- (firstn_skipn 30 (page_count_days ms)) in Hs.
  destruct (strongly_sorted_app _ _ Hs) as [Hs1 Hlt].
  split; [apply page_count_history_dates|].
  split; [apply firstn_le_length|].
  split; [apply StronglySorted_Sorted; exact Hs1|].
  split.
  - intros d Hd. apply page_count_days_in.
    rewrite <- (firstn_skipn 30 (page_count_days ms)). apply in_or_app. left. exact Hd.
  - intros m Hin Hp.
    assert (Hd : In (day_of (m_timestamp m)) (page_count_days ms))
      by (apply page_count_days_in; exists m; auto).
    rewrite <- (firstn_skipn 30 (page_count_days ms)) in Hd.
    apply in_app_or in Hd as [Hd|Hd]; [left; exact Hd|right].
    split.
    + rewrite length_firstn. apply Nat.min_l.
      assert (Hl : (0 < length (skipn 30 (page_count_days ms)))%nat)
        by (destruct (skipn 30 (page_count_days ms)); [destruct Hd|simpl; lia]).
      rewrite length_skipn in Hl. lia.
    + intros d Hd'. exact (Hlt d _ Hd' Hd).
Qed.

Lemma list_max_spec : forall l c, list_max l = Some c -> In c l /\ forall c', In c' l -> c' <= c.
Proof.
  induction l as [|x l IH]; intros c H; simpl in H; [discriminate|].
  destruct (list_max l) as [y|] eqn:E.
  - injection H as <-. destruct (IH y eq_refl) as [Hy Hmax]. split.
    + destruct (Z.max_spec x y) as [[_ ->]|[_ ->]]; [right; exact Hy|left; reflexivity].
    + intros c' [<-|Hc']; [lia|]. specialize (Hmax c' Hc'). lia.
  - injection H as <-. split; [left; reflexivity|].
    intros c' [<-|Hc']; [lia|].
    destruct l as [|z l]; [destruct Hc'|]. simpl in E. destruct (list_max l); discriminate.
Qed.

Lemma list_max_nonempty : forall l, l <> [] -> exists c, list_max l = Some c.
Proof.
  intros [|x l] H; [contradiction|]. simpl. destruct (list_max l); eexists; reflexivity.
Qed.

Lemma day_counts_in : forall ms d c,
  In c (flat_map (fun m => match m_page_count m with
                           | Some c => if day_of (m_timestamp m) =? d then [c] else []
                           | None => []
                           end) ms) <->
  exists m, In m ms /\ day_of (m_timestamp m) = d /\ m_page_count m = Some c.
Proof.
  intros ms d c. rewrite in_flat_map. split.
  - intros [m [Hin Hc]]. exists m. split; [exact Hin|].
    destruct (m_page_count m) as [c0|]; [|destruct Hc].
    destruct (day_of (m_timestamp m) =? d) eqn:E; [|destruct Hc].
    destruct Hc as [<-|[]]. apply Z.eqb_eq in E. split; [exact E|reflexivity].
  - intros [m [Hin [Hd Hc]]]. exists m. split; [exact Hin|].
    rewrite Hc, Hd, Z.eqb_refl. left. reflexivity.
Qed.

(** X23: each pageCountHistory entry holds a day and the largest page count reported on it. *)
Theorem page_count_history_max : forall ms entry,
  In entry (page_count_history ms) ->
  exists d c,
    entry = JsObj [("date", JsNum d); ("page_count", JsNum c)] /\
    (exists m, In m ms /\ day_of (m_timestamp m) = d /\ m_page_count m = Some c) /\
    (forall m c', In m ms -> day_of (m_timestamp m) = d -> m_page_count m = Some c' -> c' <= c).
Proof.
  intros ms entry Hin. unfold page_count_history in Hin.
  apply in_map_iff in Hin as [d [<- Hd]].
  assert (Hd' : In d (page_count_days ms)).
  { rewrite <- (firstn_skipn 30 (page_count_days ms)). apply in_or_app. left. exact Hd. }
  apply page_count_days_in in Hd' as [m0 [Hm0 [Hp0 Hday0]]].
  destruct (m_page_count m0) as [c0|] eqn:Ec0; [|contradiction].
  destruct (list_max_nonempty (flat_map (fun m => match m_page_count m with
                           | Some c => if day_of (m_timestamp m) =? d then [c] else []
                           | None => []
                           end) ms)) as [c Hc].
  { intros E. assert (Hc0 : In c0 (flat_map (fun m => match m_page_count m with
                           | Some c => if day_of (m_timestamp m) =? d then [c] else []
                           | None => []
                           end) ms)) by (apply day_counts_in; exists m0; auto).
    rewrite E in Hc0. destruct Hc0. }
  destruct (list_max_spec _ _ Hc) as [Hcin Hmax].
  exists d, c. rewrite Hc. split; [reflexivity|]. split.
  - apply day_counts_in. exact Hcin.
  - intros m c' Hm Hdm Hpm. apply Hmax. apply day_counts_in. exists m. auto.
Qed.

Lemma page_count_history_max_witness :
  exists d c,
    JsObj [("date", JsNum 1); ("page_count", JsNum 150)] =
      JsObj [("date", JsNum d); ("page_count", JsNum c)] /\
    (exists m, In m page_metrics /\ day_of (m_timestamp m) = d /\ m_page_count m = Some c) /\
    (forall m c', In m page_metrics -> day_of (m_timestamp m) = d -> m_page_count m = Some c' -> c' <= c).
Proof.
  apply page_count_history_max. vm_compute. right. left. reflexivity.
Defined.

Lemma latest_metric_spec : forall l m,
  latest_metric l = Some m -> In m l /\ forall m', In m' l -> m_timestamp m' <= m_timestamp m.
Proof.
  induction l as [|a l IH]; intros m H; simpl in H; [discriminate|].
  destruct (latest_metric l) as [b|] eqn:E.
  - destruct (IH b eq_refl) as [Hb Hmax].
    destruct (m_timestamp b <=? m_timestamp a) eqn:Le; injection H as <-.
    + apply Z.leb_le in Le. split; [left; reflexivity|].
      intros m' [<-|Hm']; [lia|]. specialize (Hmax m' Hm'). lia.
    + apply Z.leb_gt in Le. split; [right; exact Hb|].
      intros m' [<-|Hm']; [lia|]. exact (Hmax m' Hm').
  - injection H as <-. split; [left; reflexivity|].
    intros m' [<-|Hm']; [lia|].
    destruct l as [|z l]; [destruct Hm'|]. simpl in E. destruct (latest_metric l); [destruct (_ <=? _)|]; discriminate.
Qed.

Lemma latest_metric_none : forall l, latest_metric l = None -> l = [].
Proof.
  intros [|a l] H; [reflexivity|]. simpl in H.
  destruct (latest_metric l); [destruct (_ <=? _)|]; discriminate.
Qed.

Lemma metrics_of_in : forall i s m,
  In m (metrics_of i s) <-> In m (metrics s) /\ m_printer_id m = Some i.
Proof.
  intros i s m. unfold metrics_of. rewrite filter_In.
  destruct (m_printer_id m) as [j|]; split; intros [H1 H2]; split; try assumption; try discriminate.
  - apply Z.eqb_eq in H2. subst. reflexivity.
  - injection H2 as ->. apply Z.eqb_refl.
Qed.

(** X24: GET /api/printers/:id answers 404 for an unknown printer; otherwise it answers the
    printer with its most recent metric, or null when it has none, and changes nothing.
    Its three queries take the id as an [INTEGER], so the id is one; and the printer's
    stored metrics are dated within the timestamp range, not in its first day (there
    [timestamp::date], in a time zone west of UTC, falls before the first date). *)
Theorem printer_get_latest_metric : forall verify h tok u i x,
  header_api_key h = Some tok -> tok <> "" -> verify tok = Some u ->
  int4_ok i = true ->
  (forall m, In m (metrics (base x)) -> m_printer_id m = Some i ->
     -210866716800 <= m_timestamp m < 9225264700800) ->
  match printer_detail_rows i (base x) with
  | [] => xrun (printer_get verify h (Some i)) x = (x, x_error 404 "Printer not found")
  | p :: _ =>
      fst (xrun (printer_get verify h (Some i)) x) = x /\
      js_field "printer" (xbody (snd (xrun (printer_get verify h (Some i)) x))) = Some p /\
      ((js_field "metrics" (xbody (snd (xrun (printer_get verify h (Some i)) x))) = Some JsNull /\
        forall m, In m (metrics (base x)) -> m_printer_id m <> Some i) \/
       exists m,
         js_field "metrics" (xbody (snd (xrun (printer_get verify h (Some i)) x))) =
           Some (metric_row m) /\
         In m (metrics (base x)) /\ m_printer_id m = Some i /\
         forall m', In m' (metrics (base x)) -> m_printer_id m' = Some i ->
                    m_timestamp m' <= m_timestamp m)
  end.
Proof.
  intros verify h tok u i x Hh Hne Hv _ _.
  unfold xrun, printer_get, authenticate_token. rewrite Hh.
  destruct (String.eqb_spec tok "") as [E|_]; [contradiction|]. rewrite Hv.
  unfold xcatch_500, xtry_catch.
  destruct (printer_detail_rows i (base x)) as [|p ps]; [reflexivity|].
  split; [reflexivity|]. split; [reflexivity|].
  destruct (latest_metric (metrics_of i (base x))) as [m|] eqn:E.
  - right. destruct (latest_metric_spec _ _ E) as [Hin Hmax].
    apply metrics_of_in in Hin as [Hin Hid]. exists m. split; [reflexivity|].
    split; [exact Hin|]. split; [exact Hid|].
    intros m' Hm' Hid'. apply Hmax. apply metrics_of_in. split; assumption.
  - left. split; [reflexivity|]. intros m Hm Hid.
    apply latest_metric_none in E.
    assert (Hin : In m (metrics_of i (base x))) by (apply metrics_of_in; split; assumption).
    rewrite E in Hin. destruct Hin.
Qed.

Lemma printer_get_latest_metric_witness :
  fst (xrun (printer_get admin_verify (Some "Bearer admintoken") (Some 1)) printer_db) = printer_db /\
  js_field "printer" (xbody (snd (xrun (printer_get admin_verify (Some "Bearer admintoken") (Some 1))
                                       printer_db))) =
    Some (printer_row (mkPrinter 1 1 None "10.0.0.5" None None None (Some "online") None)
                      (mkAgent 1 "a1" "first" None None None None "k1" (Some "active") (Some 50))) /\
  ((js_field "metrics" (xbody (snd (xrun (printer_get admin_verify (Some "Bearer admintoken") (Some 1))
                                         printer_db))) = Some JsNull /\
    forall m, In m (metrics (base printer_db)) -> m_printer_id m <> Some 1) \/
   exists m,
     js_field "metrics" (xbody (snd (xrun (printer_get admin_verify (Some "Bearer admintoken") (Some 1))
                                          printer_db))) = Some (metric_row m) /\
     In m (metrics (base printer_db)) /\ m_printer_id m = Some 1 /\
     forall m', In m' (metrics (base printer_db)) -> m_printer_id m' = Some 1 ->
                m_timestamp m' <= m_timestamp m).
Proof.
  exact (printer_get_latest_metric admin_verify (Some "Bearer admintoken") "admintoken"
           (mkClaims 1 "admin" (Some "admin")) 1 printer_db eq_refl ltac:(discriminate) eq_refl
           eq_refl ltac:(intros m Hm _; simpl in Hm; destruct Hm as [<-|[<-|[<-|[]]]]; simpl; lia)).
Defined.



Lemma printers_touched : forall s id, printers (touched s id) = printers s.
Proof. reflexivity. Qed.







Lemma filter_const_false : forall {A} (l : list A), filter (fun _ => false) l = [].
Proof. intros A l. induction l; [reflexivity|exact IHl]. Qed.

(** X27: a printer_update push without an IP address makes api.js answer 500, its INSERT
    failing on the NOT NULL ip_address after taking the next printers id (serial_number,
    model and name within their VARCHAR(100)), and data.js answer 400 "Printer IP address
    is required". *)
Theorem printer_update_without_ip : forall jp h k a rest s b data,
  header_api_key h = Some k -> k <> "" -> agents_with_key s k = a :: rest ->
  b_type b = Some "printer_update" -> b_data b = Some data -> d_ip_address data = None ->
  fits 100 (d_serial_number data) = true -> fits 100 (d_model data) = true ->
  fits 100 (d_name data) = true ->
  run (api_data_post jp h b) s =
    (set_printers_seq (touched s (a_id a)) (printers_seq s + 1), res_error 500 "Server error") /\
  run (data_post jp h b) s = (touched s (a_id a), res_error 400 "Printer IP address is required").
Proof.
  intros jp h k a rest s b data Hk Hne Hf Ht Hd Hip Hsn Hmo Hna. split.
  - unfold run, api_data_post. rewrite (auth_found h _ s k a rest Hk Hne Hf).
    unfold catch_500, try_catch, api_data_ingest. rewrite Ht, Hd.
    change (String.eqb "printer_update" "") with false.
    change (String.eqb "printer_update" "metrics") with false.
    change (String.eqb "printer_update" "printer_update") with true.
    cbv beta iota. unfold bind at 1, printers_by_ip. rewrite Hip.
    unfold insert_printer.
    rewrite (varchar_fits 100 _ Hsn), (varchar_fits 100 _ Hmo), (varchar_fits 100 _ Hna).
    simpl. rewrite filter_const_false. reflexivity.
  - unfold run, data_post. rewrite (auth_found h _ s k a rest Hk Hne Hf).
    unfold catch_500, try_catch, data_ingest. rewrite Ht, Hd.
    change (String.eqb "printer_update" "") with false.
    change (String.eqb "printer_update" "metrics") with false.
    change (String.eqb "printer_update" "printer_discovery") with false.
    change (String.eqb "printer_update" "printer_update") with true.
    cbv beta iota. rewrite Hip. reflexivity.
Qed.

Lemma printer_update_without_ip_witness :
  run (api_data_post no_json (Some "Bearer k1") ipless_update) (base printer_db) =
    (set_printers_seq (touched (base printer_db) 1) (printers_seq (base printer_db) + 1),
     res_error 500 "Server error") /\
  run (data_post no_json (Some "Bearer k1") ipless_update) (base printer_db) =
    (touched (base printer_db) 1, res_error 400 "Printer IP address is required").
Proof.
  exact (printer_update_without_ip no_json (Some "Bearer k1") "k1"
           (mkAgent 1 "a1" "first" None None None None "k1" (Some "active") (Some 50)) []
           (base printer_db) ipless_update
           (mkPayload None (Some "SN-1") (Some "LaserJet") None None None None None None None)
           eq_refl ltac:(discriminate) eq_refl eq_refl eq_refl eq_refl eq_refl eq_refl eq_refl).
Defined.

Lemma ascii_eqb_sym : forall c d, Ascii.eqb c d = Ascii.eqb d c.
Proof.
  intros c d. destruct (Ascii.eqb_spec c d) as [->|Ne].
  - symmetry. apply Ascii.eqb_refl.
  - symmetry. apply Ascii.eqb_neq. intros E. apply Ne. symmetry. exact E.
Qed.

Lemma text_lt_asym : forall a b, text_lt a b = true -> text_lt b a = false.
Proof.
  induction a as [|c a IH]; intros [|d b] H; simpl in *; try discriminate; try reflexivity.
  rewrite ascii_eqb_sym. destruct (Ascii.eqb c d).
  - apply IH. exact H.
  - apply N.ltb_lt in H. apply N.ltb_ge. lia.
Qed.

Lemma username_le_total : forall u v, username_le u v = false -> username_le v u = true.
Proof.
  intros u v. unfold username_le. intros H. apply negb_false_iff in H.
  rewrite (text_lt_asym _ _ H). reflexivity.
Qed.

Lemma insert_by_username_hd : forall b a l,
  username_le b a = true -> HdRel (fun u v => username_le u v = true) b l ->
  HdRel (fun u v => username_le u v = true) b (insert_by_username a l).
Proof.
  intros b a l Hba Hl. destruct l as [|c l]; simpl.
  - constructor. exact Hba.
  - destruct (username_le a c); constructor; [exact Hba|]. inversion Hl; assumption.
Qed.

Lemma insert_by_username_sorted : forall a l,
  Sorted (fun u v => username_le u v = true) l ->
  Sorted (fun u v => username_le u v = true) (insert_by_username a l).
Proof.
  intros a l. induction l as [|b l IH]; intros Hs; simpl.
  - repeat constructor.
  - destruct (username_le a b) eqn:E.
    + constructor; [exact Hs|]. constructor. exact E.
    + inversion Hs as [|? ? Hs' Hhd]; subst. constructor; [apply IH; exact Hs'|].
      apply insert_by_username_hd; [apply username_le_total; exact E|exact Hhd].
Qed.

Lemma insert_by_username_perm : forall a l, Permutation (insert_by_username a l) (a :: l).
Proof.
  intros a l. induction l as [|b l IH]; simpl; [reflexivity|].
  destruct (username_le a b); [reflexivity|].
  rewrite IH. apply perm_swap.
Qed.

Lemma order_by_username_ok : forall l,
  Permutation (order_by_username l) l /\
  Sorted (fun u v => username_le u v = true) (order_by_username l).
Proof.
  induction l as [|a l [IHp IHs]]; simpl; [split; constructor|]. split.
  - rewrite insert_by_username_perm. apply perm_skip. exact IHp.
  - apply insert_by_username_sorted. exact IHs.
Qed.

(** X28: GET /api/users returns every user exactly once, ordered by username, with no
    password field, and changes nothing. *)
Theorem users_list_ordered : forall verify h tok u x,
  header_api_key h = Some tok -> tok <> "" -> verify tok = Some u -> j_role u = Some "admin" ->
  exists l,
    xrun (users_list verify h) x = (x, x_json (JsArr (map user_row l))) /\
    Permutation l (users x) /\
    Sorted (fun a b => text_lt (u_username b) (u_username a) = false) l /\
    Forall (fun row => js_field "password" row = None) (map user_row l).
Proof.
  intros verify h tok u x Hh Hne Hv Hr.
  exists (order_by_username (users x)).
  destruct (order_by_username_ok (users x)) as [Hp Hs].
  split; [|split; [exact Hp|split; [|]]].
  - unfold xrun, users_list, admin_only, authenticate_token. rewrite Hh.
    destruct (String.eqb_spec tok "") as [E|_]; [contradiction|]. rewrite Hv.
    unfold authorize. rewrite Hr. reflexivity.
  - clear Hp. induction Hs as [|a l Hs IH Hhd]; constructor; [exact IH|].
    destruct Hhd as [|b l H]; constructor. unfold username_le in H.
    apply negb_true_iff in H. exact H.
  - apply Forall_forall. intros row Hrow. apply in_map_iff in Hrow as [a [<- _]]. reflexivity.
Qed.

Lemma users_list_ordered_witness :
  exists l,
    xrun (users_list admin_verify (Some "Bearer admintoken")) users_db =
      (users_db, x_json (JsArr (map user_row l))) /\
    Permutation l (users users_db) /\
    Sorted (fun a b => text_lt (u_username b) (u_username a) = false) l /\
    Forall (fun row => js_field "password" row = None) (map user_row l).
Proof.
  apply (users_list_ordered admin_verify (Some "Bearer admintoken") "admintoken"
           (mkClaims 1 "admin" (Some "admin")));
    [reflexivity|discriminate|reflexivity|reflexivity].
Defined.

Lemma printer_seen_desc_total : forall a b,
  printer_seen_desc a b = false -> printer_seen_desc b a = true.
Proof.
  intros a b. unfold printer_seen_desc.
  destruct (p_last_seen (fst a)) as [x|], (p_last_seen (fst b)) as [y|]; try discriminate; try reflexivity.
  intros H. apply Z.leb_gt in H. apply Z.leb_le. lia.
Qed.

Lemma insert_by_printer_seen_hd : forall b a l,
  printer_seen_desc b a = true -> HdRel (fun u v => printer_seen_desc u v = true) b l ->
  HdRel (fun u v => printer_seen_desc u v = true) b (insert_by_printer_seen a l).
Proof.
  intros b a l Hba Hl. destruct l as [|c l]; simpl.
  - constructor. exact Hba.
  - destruct (printer_seen_desc a c); constructor; [exact Hba|]. inversion Hl; assumption.
Qed.

Lemma insert_by_printer_seen_sorted : forall a l,
  Sorted (fun u v => printer_seen_desc u v = true) l ->
  Sorted (fun u v => printer_seen_desc u v = true) (insert_by_printer_seen a l).
Proof.
  intros a l. induction l as [|b l IH]; intros Hs; simpl.
  - repeat constructor.
  - destruct (printer_seen_desc a b) eqn:E.
    + constructor; [exact Hs|]. constructor. exact E.
    + inversion Hs as [|? ? Hs' Hhd]; subst. constructor; [apply IH; exact Hs'|].
      apply insert_by_printer_seen_hd; [apply printer_seen_desc_total; exact E|exact Hhd].
Qed.

Lemma insert_by_printer_seen_perm : forall a l,
  Permutation (insert_by_printer_seen a l) (a :: l).
Proof.
  intros a l. induction l as [|b l IH]; simpl; [reflexivity|].
  destruct (printer_seen_desc a b); [reflexivity|].
  rewrite IH. apply perm_swap.
Qed.

Lemma order_by_printer_seen_ok : forall l,
  Permutation (order_by_printer_seen l) l /\
  Sorted (fun u v => printer_seen_desc u v = true) (order_by_printer_seen l).
Proof.
  induction l as [|a l [IHp IHs]]; simpl; [split; constructor|]. split.
  - rewrite insert_by_printer_seen_perm. apply perm_skip. exact IHp.
  - apply insert_by_printer_seen_sorted. exact IHs.
Qed.

Lemma printers_join_in : forall s p a,
  In (p, a) (printers_join s) <->
  In p (printers s) /\ In a (agents s) /\ a_id a = p_agent_id p.
Proof.
  intros s p a. unfold printers_join. rewrite in_flat_map. split.
  - intros [p' [Hp' Hin]]. apply in_map_iff in Hin as [a' [E Ha']].
    injection E as <- <-. apply filter_In in Ha' as [Ha' Hid].
    apply Z.eqb_eq in Hid. auto.
  - intros [Hp [Ha Hid]]. exists p. split; [exact Hp|]. apply in_map_iff. exists a.
    split; [reflexivity|]. apply filter_In. split; [exact Ha|]. apply Z.eqb_eq. exact Hid.
Qed.

Lemma page_counts_in : forall s pid c,
  In c (flat_map (fun m => match m_printer_id m, m_page_count m with
                           | Some i, Some c => if i =? pid then [c] else []
                           | _, _ => []
                           end) (metrics s)) <->
  exists m, In m (metrics s) /\ m_printer_id m = Some pid /\ m_page_count m = Some c.
Proof.
  intros s pid c. rewrite in_flat_map. split.
  - intros [m [Hin Hc]]. exists m. split; [exact Hin|].
    destruct (m_printer_id m) as [i|]; [|destruct Hc].
    destruct (m_page_count m) as [c0|]; [|destruct Hc].
    destruct (i =? pid) eqn:E; [|destruct Hc].
    destruct Hc as [<-|[]]. apply Z.eqb_eq in E. subst. split; reflexivity.
  - intros [m [Hin [Hp Hc]]]. exists m. split; [exact Hin|].
    rewrite Hp, Hc, Z.eqb_refl. left. reflexivity.
Qed.

Lemma list_max_none : forall l, list_max l = None -> l = [].
Proof.
  intros [|x l] H; [reflexivity|]. simpl in H. destruct (list_max l); discriminate.
Qed.

(** X29: GET /api/printers returns each printer joined with its agent, ordered by the
    printer's own last_seen (p.last_seen) descending, with the largest reported page count
    or null, and changes nothing. *)
Theorem printers_list_rows : forall verify h tok u x,
  header_api_key h = Some tok -> tok <> "" -> verify tok = Some u ->
  exists l,
    xrun (printers_list verify h) x = (x, x_json (JsArr (map (printer_list_row (base x)) l))) /\
    Permutation l (printers_join (base x)) /\
    Sorted (fun u v => printer_seen_desc u v = true) l /\
    forall p a, In (p, a) l ->
      In p (printers (base x)) /\ In a (agents (base x)) /\ a_id a = p_agent_id p /\
      ((js_field "page_count" (printer_list_row (base x) (p, a)) = Some JsNull /\
        forall m, In m (metrics (base x)) -> m_printer_id m = Some (p_id p) -> m_page_count m = None) \/
       exists c, js_field "page_count" (printer_list_row (base x) (p, a)) = Some (JsNum c) /\
         (exists m, In m (metrics (base x)) /\ m_printer_id m = Some (p_id p) /\
                    m_page_count m = Some c) /\
         forall m c', In m (metrics (base x)) -> m_printer_id m = Some (p_id p) ->
                      m_page_count m = Some c' -> c' <= c).
Proof.
  intros verify h tok u x Hh Hne Hv.
  exists (order_by_printer_seen (printers_join (base x))).
  destruct (order_by_printer_seen_ok (printers_join (base x))) as [Hp Hs].
  split; [|split; [exact Hp|split; [exact Hs|]]].
  - unfold xrun, printers_list, authenticate_token. rewrite Hh.
    destruct (String.eqb_spec tok "") as [E|_]; [contradiction|]. rewrite Hv. reflexivity.
  - intros p a Hin. apply (Permutation_in _ Hp) in Hin.
    apply printers_join_in in Hin as [H1 [H2 H3]].
    split; [exact H1|]. split; [exact H2|]. split; [exact H3|].
    unfold printer_list_row, max_page_count.
    destruct (list_max _) as [c|] eqn:E.
    + right. destruct (list_max_spec _ _ E) as [Hc Hmax]. exists c. split; [reflexivity|].
      split; [apply page_counts_in; exact Hc|].
      intros m c' Hm Hpm Hcm. apply Hmax. apply page_counts_in. exists m. auto.
    + left. split; [reflexivity|]. intros m Hm Hpm.
      apply list_max_none in E.
      destruct (m_page_count m) as [c|] eqn:Hc; [|reflexivity].
      assert (Hin : In c (flat_map (fun m => match m_printer_id m, m_page_count m with
                           | Some i, Some c => if i =? p_id p then [c] else []
                           | _, _ => []
                           end) (metrics (base x)))) by (apply page_counts_in; exists m; auto).
      rewrite E in Hin. destruct Hin.
Qed.

Lemma printers_list_rows_witness :
  exists l,
    xrun (printers_list admin_verify (Some "Bearer admintoken")) printer_db =
      (printer_db, x_json (JsArr (map (printer_list_row (base printer_db)) l))) /\
    Permutation l (printers_join (base printer_db)) /\
    Sorted (fun u v => printer_seen_desc u v = true) l /\
    forall p a, In (p, a) l ->
      In p (printers (base printer_db)) /\ In a (agents (base printer_db)) /\ a_id a = p_agent_id p /\
      ((js_field "page_count" (printer_list_row (base printer_db) (p, a)) = Some JsNull /\
        forall m, In m (metrics (base printer_db)) -> m_printer_id m = Some (p_id p) ->
                  m_page_count m = None) \/
       exists c, js_field "page_count" (printer_list_row (base printer_db) (p, a)) = Some (JsNum c) /\
         (exists m, In m (metrics (base printer_db)) /\ m_printer_id m = Some (p_id p) /\
                    m_page_count m = Some c) /\
         forall m c', In m (metrics (base printer_db)) -> m_printer_id m = Some (p_id p) ->
                      m_page_count m = Some c' -> c' <= c).
Proof.
  exact (printers_list_rows admin_verify (Some "Bearer admintoken") "admintoken"
           (mkClaims 1 "admin" (Some "admin")) printer_db eq_refl ltac:(discriminate) eq_refl).
Defined.
